(** * Resource-Management-System: samplers and their rolling statistics

    A shallow embedding of the CPU, memory and network samplers
    (src/core/cpu, src/core/memory, src/core/network) together with the
    properties of their history buffers, maxima, rate windows and queries.

    Conventions.
    - A C++ [float] is an IEEE-754 binary32 value, modelled with the
      Standard Library's [spec_float] at precision 24 and maximal exponent
      128; every float operation rounds to nearest-even in single precision.
    - [unsigned long long], [ULONGLONG], [uint64_t] and (on LP64 Linux)
      [unsigned long] are integers modulo 2^64, written out with [wrap64].
    - A member function is a computation [M state A = state -> A * state];
      whatever it reads from the operating system is an explicit argument. *)

From Stdlib Require Import ZArith List Bool Lia.
From Stdlib Require Import String Ascii.
From Stdlib Require Import SpecFloat.
From Stdlib Require Import Permutation.
Import ListNotations.

Local Open Scope Z_scope.

(** ** Binary32 floats *)

Module F32.

Definition prec : Z := 24.
Definition emax : Z := 128.

Definition float : Type := spec_float.

Definition zero : float := S754_zero false.

(** Conversion of an integer to [float] (round to nearest-even), as done
    by [static_cast<float>] and by the usual arithmetic conversions. *)
Definition of_Z (z : Z) : float := binary_normalize prec emax z 0 false.

Definition add (x y : float) : float := SFadd prec emax x y.
Definition mul (x y : float) : float := SFmul prec emax x y.
Definition div (x y : float) : float := SFdiv prec emax x y.

(** [x < y]; false as soon as one side is a NaN. *)
Definition ltb (x y : float) : bool := SFltb x y.

(** [x <= y]; false as soon as one side is a NaN. *)
Definition leb (x y : float) : bool := SFleb x y.

Definition is_nan (x : float) : bool :=
  match x with S754_nan => true | _ => false end.

Definition is_finite (x : float) : bool :=
  match x with S754_zero _ | S754_finite _ _ _ => true | _ => false end.

End F32.

Definition float : Type := F32.float.

(** ** Machine integers *)

Definition wrap64 (z : Z) : Z := z mod 2 ^ 64.

(** ** Member functions as state transformers *)

Definition M (S A : Type) : Type := S -> A * S.

Definition ret {S A : Type} (a : A) : M S A := fun s => (a, s).

Definition bind {S A B : Type} (m : M S A) (k : A -> M S B) : M S B :=
  fun s => let (a, s') := m s in k a s'.

Definition get {S : Type} : M S S := fun s => (s, s).
Definition modify {S : Type} (f : S -> S) : M S unit := fun s => (tt, f s).

Declare Scope sampler_scope.
Delimit Scope sampler_scope with sampler.
Notation "x <- m ;; k" := (bind m (fun x => k))
  (at level 61, m at next level, right associativity) : sampler_scope.
Notation "m ;;; k" := (bind m (fun _ => k))
  (at level 61, right associativity) : sampler_scope.

(** ** The usage history shared by the samplers

    [std::vector<float> usage_history_] with
    [push_back(usage); if (size() > max_history_size_) erase(begin());]. *)

Module History.

Definition push_history (max_history_size_ : nat) (usage_history_ : list float)
    (usage : float) : list float :=
  let pushed := (usage_history_ ++ [usage])%list in
  if (max_history_size_ <? List.length pushed)%nat then tl pushed else pushed.

(** [std::accumulate(begin, end, 0.0f)]. *)
Definition accumulate (l : list float) : float :=
  fold_left F32.add l F32.zero.

(** [std::max_element]: the first of the largest elements under [lt],
    [None] for the end iterator of an empty range. *)
Definition max_element {A : Type} (lt : A -> A -> bool) (l : list A) : option A :=
  match l with
  | [] => None
  | x :: r => Some (fold_left (fun largest y => if lt largest y then y else largest) r x)
  end.

(** The mean computed by the [getAverageUsage] members. *)
Definition average (l : list float) : float :=
  match l with
  | [] => F32.zero
  | _ => F32.div (accumulate l) (F32.of_Z (Z.of_nat (List.length l)))
  end.

(** Recording a run of samples, oldest first. *)
Definition record_all (max_history_size_ : nat) (samples : list float)
    (usage_history_ : list float) : list float :=
  fold_left (push_history max_history_size_) samples usage_history_.

End History.

(** ** LinuxCPU (src/core/cpu/cpu_linux.cpp) *)

Module LinuxCPU.

Record t : Type := mk {
  prev_total_ : Z;
  prev_idle_ : Z;
  usage_history_ : list float
}.

(** The member [max_history_size_] is set to 100 by the constructor and
    never assigned again. *)
Definition max_history_size_ : nat := 100.

(** What [/proc/stat] yields: [None] when the file cannot be opened,
    otherwise the numbers on its first line. *)
Definition proc_stat : Type := option (list Z).

Definition readCPUStat (f : proc_stat) : option (list Z) :=
  match f with
  | None => None
  | Some [] => None
  | Some stats => Some stats
  end.

Definition idle_of (stats : list Z) : Z :=
  wrap64 (nth 3 stats 0 + nth 4 stats 0).

Definition total_of (stats : list Z) : Z :=
  fold_left (fun acc v => wrap64 (acc + v)) stats 0.

Definition LinuxCPU (f : proc_stat) : t :=
  match readCPUStat f with
  | Some stats =>
      if (5 <=? List.length stats)%nat
      then mk (total_of stats) (idle_of stats) []
      else mk 0 0 []
  | None => mk 0 0 []
  end.

Definition getTotalUsage (f : proc_stat) : M t float := fun s =>
  match readCPUStat f with
  | None => (F32.zero, s)
  | Some stats =>
      if (List.length stats <? 5)%nat then (F32.zero, s)
      else
        let idle := idle_of stats in
        let total := total_of stats in
        let delta_total := wrap64 (total - prev_total_ s) in
        let delta_idle := wrap64 (idle - prev_idle_ s) in
        let s1 := mk total idle (usage_history_ s) in
        if delta_total =? 0 then (F32.zero, s1)
        else
          let usage :=
            F32.mul (F32.div (F32.of_Z (wrap64 (delta_total - delta_idle)))
                             (F32.of_Z delta_total))
                    (F32.of_Z 100) in
          (usage, mk total idle
                     (History.push_history max_history_size_ (usage_history_ s) usage))
  end.

Definition getHighestUsage : M t float := fun s =>
  match History.max_element F32.ltb (usage_history_ s) with
  | None => (F32.zero, s)
  | Some m => (m, s)
  end.

Definition getAverageUsage : M t float := fun s =>
  (History.average (usage_history_ s), s).

(** [/proc/cpuinfo]: [None] when it cannot be opened, otherwise the value
    parsed from the first ["cpu MHz"] line, if there is one. *)
Definition cpuinfo : Type := option (option float).

Definition getClockFrequency (f : cpuinfo) : M t float := fun s =>
  match f with
  | None => (F32.zero, s)
  | Some line =>
      let mhz := match line with Some v => v | None => F32.zero end in
      (F32.div mhz (F32.of_Z 1000), s)
  end.

Inductive d_type : Type := DT_DIR | DT_UNKNOWN | DT_OTHER.

(** [opendir("/proc/self/task")] and its entries; [None] on failure. *)
Definition task_dir : Type := option (list (string * d_type)).

Definition isdigit (c : ascii) : bool :=
  let n := N_of_ascii c in (48 <=? n)%N && (n <=? 57)%N.

Definition counts_as_thread (entry : string * d_type) : bool :=
  let (name, ty) := entry in
  if String.eqb name "." || String.eqb name ".." then false
  else match ty with
       | DT_OTHER => false
       | _ => negb (String.eqb name "")
              && forallb isdigit (list_ascii_of_string name)
       end.

Definition getUsedThreads (d : task_dir) : M t Z := fun s =>
  match d with
  | None => (0, s)
  | Some entries => (Z.of_nat (List.length (filter counts_as_thread entries)), s)
  end.

(** [sysconf(_SC_NPROCESSORS_ONLN)] is passed in. *)
Definition getTotalThreads (nprocessors_onln : Z) : M t Z := fun s =>
  (nprocessors_onln, s).

End LinuxCPU.

(** ** WindowsCPU (src/core/cpu/cpu_windows.cpp) *)

Module WindowsCPU.

Record FILETIME : Type := mkFILETIME {
  dwLowDateTime : Z;
  dwHighDateTime : Z
}.

Record t : Type := mk {
  usage_history_ : list float;
  highest_usage_ : float;
  current_usage_ : float;
  prev_idle_time_ : Z;
  prev_kernel_time_ : Z;
  prev_user_time_ : Z
}.

Definition max_history_size_ : nat := 100.

(** [GetSystemTimes]: idle, kernel and user time, [None] on failure. *)
Definition system_times : Type := option (FILETIME * FILETIME * FILETIME).

Definition fileTimeToInt64 (ft : FILETIME) : Z :=
  Z.lor (wrap64 (Z.shiftl (dwHighDateTime ft) 32)) (dwLowDateTime ft).

Definition WindowsCPU (idleTime_ kernelTime_ userTime_ : FILETIME) : t :=
  mk [] F32.zero F32.zero
     (fileTimeToInt64 idleTime_) (fileTimeToInt64 kernelTime_)
     (fileTimeToInt64 userTime_).

Definition calculateCPUUsage (times : system_times) : M t float := fun s =>
  match times with
  | Some (idleTime, kernelTime, userTime) =>
      let idle := fileTimeToInt64 idleTime in
      let kernel := fileTimeToInt64 kernelTime in
      let user := fileTimeToInt64 userTime in
      let idleDiff := wrap64 (idle - prev_idle_time_ s) in
      let kernelDiff := wrap64 (kernel - prev_kernel_time_ s) in
      let userDiff := wrap64 (user - prev_user_time_ s) in
      let totalSystem := wrap64 (kernelDiff + userDiff) in
      let totalIdle := idleDiff in
      let cpuUsage :=
        if 0 <? totalSystem
        then F32.div (F32.mul (F32.of_Z (wrap64 (totalSystem - totalIdle)))
                              (F32.of_Z 100))
                     (F32.of_Z totalSystem)
        else F32.zero in
      (cpuUsage,
       mk (usage_history_ s) (highest_usage_ s) (current_usage_ s) idle kernel user)
  | None => (F32.zero, s)
  end.

(** What the update thread does with the sample, under [data_mutex_]. *)
Definition record (usage : float) : M t unit :=
  modify (fun s =>
    mk (History.push_history max_history_size_ (usage_history_ s) usage)
       (if F32.ltb (highest_usage_ s) usage then usage else highest_usage_ s)
       usage
       (prev_idle_time_ s) (prev_kernel_time_ s) (prev_user_time_ s)).

(** One iteration of [updateLoop] (after its sleep). *)
Definition updateLoop (times : system_times) : M t unit :=
  (usage <- calculateCPUUsage times ;;
   record usage)%sampler.

Definition getTotalUsage : M t float := fun s => (current_usage_ s, s).

Definition getHighestUsage : M t float := fun s => (highest_usage_ s, s).

Definition getAverageUsage : M t float := fun s =>
  (History.average (usage_history_ s), s).

(** The outcome of the PDH calls of [getClockFrequency]: the step that
    fails, or the counter's [doubleValue] (a binary64 number). *)
Inductive pdh_result : Type :=
| PdhOpenQuery_failed
| PdhAddCounter_failed
| PdhGetFormattedCounterValue_failed
| PdhValue (doubleValue : spec_float).

(** [static_cast<float>] of a [double]. *)
Definition of_double (d : spec_float) : float :=
  match d with
  | S754_finite sg m e => binary_round F32.prec F32.emax sg m e
  | other => other
  end.

Definition getClockFrequency (r : pdh_result) : M t float := fun s =>
  match r with
  | PdhValue doubleValue => (F32.div (of_double doubleValue) (F32.of_Z 1000), s)
  | _ => (F32.zero, s)
  end.

(** [CreateToolhelp32Snapshot(TH32CS_SNAPTHREAD)]: [None] for an invalid
    handle, otherwise the owner process of every thread enumerated (an
    empty list when [Thread32First] fails). *)
Definition thread_snapshot : Type := option (list Z).

Definition getUsedThreads (currentProcessId : Z) (snap : thread_snapshot)
    : M t Z := fun s =>
  match snap with
  | None => (0, s)
  | Some owners =>
      (Z.of_nat (List.length (filter (Z.eqb currentProcessId) owners)), s)
  end.

Definition getTotalThreads (snap : thread_snapshot) : M t Z := fun s =>
  match snap with
  | None => (0, s)
  | Some owners => (Z.of_nat (List.length owners), s)
  end.

End WindowsCPU.

(** ** LinuxMemory (src/core/memory/memory_linux.cpp) *)

Module LinuxMemory.

Record t : Type := mk {
  mem_total_ : Z;
  mem_available_ : Z;
  mem_free_ : Z;
  mem_cached_ : Z;
  mem_buffers_ : Z;
  usage_history_ : list float;
  process_memory_usage_ : list (string * Z);
  last_process_update_ : Z
}.

Definition max_history_size_ : nat := 100.

(** [std::chrono::seconds(5)]; time points of the steady clock are counted
    in nanoseconds. *)
Definition process_update_interval_ : Z := 5 * 10 ^ 9.

(** [/proc/meminfo]: [None] when it cannot be opened, otherwise the key and
    the number read from each line by [ss >> key >> value]. *)
Definition meminfo : Type := option (list (string * Z)).

Definition set_mem (s : t) (total available free cached buffers : Z) : t :=
  mk total available free cached buffers
     (usage_history_ s) (process_memory_usage_ s) (last_process_update_ s).

Definition read_line (s : t) (line : string * Z) : t :=
  let (key, value) := line in
  if String.eqb key "MemTotal:" then
    set_mem s value (mem_available_ s) (mem_free_ s) (mem_cached_ s) (mem_buffers_ s)
  else if String.eqb key "MemAvailable:" then
    set_mem s (mem_total_ s) value (mem_free_ s) (mem_cached_ s) (mem_buffers_ s)
  else if String.eqb key "MemFree:" then
    set_mem s (mem_total_ s) (mem_available_ s) value (mem_cached_ s) (mem_buffers_ s)
  else if String.eqb key "Cached:" then
    set_mem s (mem_total_ s) (mem_available_ s) (mem_free_ s) value (mem_buffers_ s)
  else if String.eqb key "Buffers:" then
    set_mem s (mem_total_ s) (mem_available_ s) (mem_free_ s) (mem_cached_ s) value
  else s.

Definition readMemInfo (f : meminfo) : M t bool := fun s =>
  match f with
  | None => (false, s)
  | Some lines =>
      let s' := fold_left read_line lines (set_mem s 0 0 0 0 0) in
      if (mem_total_ s' =? 0) || (mem_available_ s' =? 0)
      then (false, s') else (true, s')
  end.

Definition updateUsageHistory : M t unit :=
  modify (fun s =>
    let usage :=
      F32.mul (F32.div (F32.of_Z (wrap64 (mem_total_ s - mem_available_ s)))
                       (F32.of_Z (mem_total_ s)))
              (F32.of_Z 100) in
    mk (mem_total_ s) (mem_available_ s) (mem_free_ s) (mem_cached_ s)
       (mem_buffers_ s)
       (History.push_history max_history_size_ (usage_history_ s) usage)
       (process_memory_usage_ s) (last_process_update_ s)).

Definition getTotalUsage (f : meminfo) : M t float :=
  (ok <- readMemInfo f ;;
   if ok : bool
   then updateUsageHistory ;;;
        s <- get ;;
        ret (last (usage_history_ s) F32.zero)
   else ret F32.zero)%sampler.

Definition getRemainingRAM (f : meminfo) : M t float :=
  (ok <- readMemInfo f ;;
   if ok : bool
   then s <- get ;;
        ret (F32.div (F32.of_Z (mem_available_ s)) (F32.of_Z 1024))
   else ret F32.zero)%sampler.

Definition getAverageUsage : M t float := fun s =>
  (History.average (usage_history_ s), s).

(** One entry returned by [readdir] on [/proc]: whether [d_type] is
    [DT_DIR], its name, and, when [/proc/<pid>/status] opens, the values the
    line loop leaves in [process_name] and [vmrss]. *)
Record dirent : Type := mkDirent {
  d_type_is_dir : bool;
  d_name : string;
  status : option (string * Z)
}.

(** [opendir("/proc")] and the entries it enumerates; [None] on failure. *)
Definition proc_dir : Type := option (list dirent).

(** How the hash table orders its nodes for iteration. *)
Definition layout : Type := list (string * Z) -> list (string * Z).

Definition isdigit (c : ascii) : bool :=
  let n := N_of_ascii c in (48 <=? n)%N && (n <=? 57)%N.

Definition all_digits (name : string) : bool :=
  forallb isdigit (list_ascii_of_string name).

(** [process_memory_usage_[process_name] = vmrss]. *)
Fixpoint assign (m : list (string * Z)) (process_name : string) (vmrss : Z)
    : list (string * Z) :=
  match m with
  | [] => [(process_name, vmrss)]
  | (k, v) :: r =>
      if String.eqb k process_name then (k, vmrss) :: r
      else (k, v) :: assign r process_name vmrss
  end.

Definition scan_entry (m : list (string * Z)) (entry : dirent) : list (string * Z) :=
  if negb (d_type_is_dir entry) then m
  else if negb (all_digits (d_name entry)) then m
  else match status entry with
       | None => m
       | Some (process_name, vmrss) =>
           if negb (String.eqb process_name "") && (0 <? vmrss)
           then assign m process_name vmrss
           else m
       end.

Definition set_processes (s : t) (m : list (string * Z)) (last : Z) : t :=
  mk (mem_total_ s) (mem_available_ s) (mem_free_ s) (mem_cached_ s)
     (mem_buffers_ s) (usage_history_ s) m last.

Definition readProcessMemoryUsage (now : Z) (d : proc_dir) (order : layout)
    : M t bool := fun s =>
  if now - last_process_update_ s <? process_update_interval_ then (true, s)
  else
    match d with
    | None => (false, set_processes s [] (last_process_update_ s))
    | Some entries =>
        let m := order (fold_left scan_entry entries []) in
        (negb (match m with [] => true | _ => false end), set_processes s m now)
    end.

(** The text returned by [getMostUsingProcess]: ["N/A"], or the name
    followed by the size in MB between parentheses. *)
Inductive top_process : Type :=
| NA
| Top (name : string) (vmrss_mb : float).

Definition rss_lt (p1 p2 : string * Z) : bool := snd p1 <? snd p2.

Definition getMostUsingProcess (now : Z) (d : proc_dir) (order : layout)
    : M t top_process :=
  (ok <- readProcessMemoryUsage now d order ;;
   if ok : bool
   then s <- get ;;
        match History.max_element rss_lt (process_memory_usage_ s) with
        | Some max_it =>
            ret (Top (fst max_it) (F32.div (F32.of_Z (snd max_it)) (F32.of_Z 1024)))
        | None => ret NA
        end
   else ret NA)%sampler.

(** One iteration of [updateLoop], under [data_mutex_]. *)
Definition updateLoop (f : meminfo) (now : Z) (d : proc_dir) (order : layout)
    : M t unit :=
  (ok <- readMemInfo f ;;
   (if ok : bool then updateUsageHistory else ret tt) ;;;
   _ <- readProcessMemoryUsage now d order ;;
   ret tt)%sampler.

Definition LinuxMemory (now : Z) (f : meminfo) : t :=
  snd ((ok <- readMemInfo f ;;
        if ok : bool then updateUsageHistory else ret tt)%sampler
       (mk 0 0 0 0 0 [] [] now)).

End LinuxMemory.

(** ** WindowsMemory (src/core/memory/memory_windows.cpp) *)

Module WindowsMemory.

Record t : Type := mk {
  usage_history_ : list float
}.

Definition max_history_size_ : nat := 100.

(** The fields of [MEMORYSTATUSEX] that are read; [None] when
    [GlobalMemoryStatusEx] fails. *)
Record MEMORYSTATUSEX : Type := mkStatus {
  dwMemoryLoad : Z;
  ullAvailPhys : Z
}.

Definition memory_status : Type := option MEMORYSTATUSEX.

Definition WindowsMemory : t := mk [].

Definition getTotalUsage (st : memory_status) : M t float := fun s =>
  match st with
  | Some memStatus =>
      let usage := F32.of_Z (dwMemoryLoad memStatus) in
      (usage, mk (History.push_history max_history_size_ (usage_history_ s) usage))
  | None => (F32.zero, s)
  end.

Definition getRemainingRAM (st : memory_status) : M t float := fun s =>
  match st with
  | Some memStatus =>
      (F32.div (F32.of_Z (ullAvailPhys memStatus))
               (F32.mul (F32.of_Z 1024) (F32.of_Z 1024)), s)
  | None => (F32.zero, s)
  end.

Definition getAverageUsage : M t float := fun s =>
  (History.average (usage_history_ s), s).

(** One identifier returned by [EnumProcesses] and what the calls made on
    it give: whether [OpenProcess] returns a handle, the working-set size
    when [GetProcessMemoryInfo] succeeds, the module base name when
    [EnumProcessModules] succeeds. *)
Record process : Type := mkProcess {
  th32ProcessID : Z;
  hProcess : bool;
  WorkingSetSize : option Z;
  module_base_name : option string
}.

(** [EnumProcesses]; [None] on failure. *)
Definition process_list : Type := option (list process).

Definition processName (p : process) : string :=
  match module_base_name p with
  | Some name => name
  | None => "<unknown>"
  end.

(** The body of the [for] loop, on the pair
    [(maxMemUsage, maxMemProcess)]. *)
Definition visit (acc : Z * string) (p : process) : Z * string :=
  let (maxMemUsage, maxMemProcess) := acc in
  if th32ProcessID p =? 0 then acc
  else if hProcess p then
    match WorkingSetSize p with
    | Some size =>
        if maxMemUsage <? size then (size, processName p) else acc
    | None => acc
    end
  else acc.

Definition getMostUsingProcess (ps : process_list) : M t string := fun s =>
  match ps with
  | None => ("Unknown"%string, s)
  | Some aProcesses => (snd (fold_left visit aProcesses (0, "Unknown"%string)), s)
  end.

End WindowsMemory.

(** ** LinuxNetwork (src/core/network/network_linux.cpp) *)

Module LinuxNetwork.

(** A six-byte hardware address ([ether_shost], [ifr_hwaddr.sa_data]). *)
Record ether_addr : Type := mkAddr {
  o0 : Byte.byte; o1 : Byte.byte; o2 : Byte.byte;
  o3 : Byte.byte; o4 : Byte.byte; o5 : Byte.byte
}.

Record ether_header : Type := mkHeader {
  ether_dhost : ether_addr;
  ether_shost : ether_addr;
  ether_type : Z
}.

Record t : Type := mk {
  bytes_received : Z;
  bytes_sent : Z;
  last_update_time : Z;
  upload_rate : float;
  download_rate : float;
  highest_upload_rate : float;
  highest_download_rate : float;
  interface_name : string;
  mac_address : string
}.

Definition hex_digit (n : N) : ascii :=
  if (n <? 10)%N then ascii_of_N (48 + n) else ascii_of_N (87 + n).

(** ["%02x"] of one byte. *)
Definition hex2 (b : Byte.byte) : string :=
  let n := Byte.to_N b in
  String (hex_digit (n / 16)) (String (hex_digit (n mod 16)) EmptyString).

(** [snprintf(buffer, 18, "%02x:%02x:%02x:%02x:%02x:%02x", ...)]. *)
Definition format_mac (a : ether_addr) : string :=
  (hex2 (o0 a) ++ ":" ++ hex2 (o1 a) ++ ":" ++ hex2 (o2 a) ++ ":" ++
   hex2 (o3 a) ++ ":" ++ hex2 (o4 a) ++ ":" ++ hex2 (o5 a))%string.

(** [getInterfaceMAC]: the address given by [ioctl(SIOCGIFHWADDR)], [None]
    when the socket or the ioctl fails (the string is then left empty). *)
Definition getInterfaceMAC (hw : option ether_addr) : bool * string :=
  match hw with
  | Some a => (true, format_mac a)
  | None => (false, EmptyString)
  end.

(** [startCapture] sets [last_update_time] only when the capture handle
    could be opened. *)
Definition LinuxNetwork (primary_interface : string) (hw : option ether_addr)
    (capture_started : bool) (now : Z) : t :=
  mk 0 0 (if capture_started then now else 0) F32.zero F32.zero F32.zero F32.zero primary_interface
     (snd (getInterfaceMAC hw)).

Definition set_counters (s : t) (received sent : Z) : t :=
  mk received sent (last_update_time s) (upload_rate s) (download_rate s)
     (highest_upload_rate s) (highest_download_rate s)
     (interface_name s) (mac_address s).

(** The capture callback; [len] is [pkthdr->len]. *)
Definition packetHandler (len : Z) (eth_header : ether_header) : M t unit :=
  modify (fun network =>
    let src_mac := format_mac (ether_shost eth_header) in
    if String.eqb src_mac (mac_address network)
    then set_counters network (bytes_received network)
                      (wrap64 (bytes_sent network + len))
    else set_counters network (wrap64 (bytes_received network + len))
                      (bytes_sent network)).

(** One iteration of [updateRatesPeriodically] (after its sleep), at
    steady-clock time [now] in nanoseconds. *)
Definition updateRatesPeriodically (now : Z) : M t unit :=
  modify (fun s =>
    let duration := Z.quot (now - last_update_time s) (10 ^ 6) in
    if 0 <? duration then
      let duration_sec := F32.div (F32.of_Z duration) (F32.of_Z 1000) in
      let mb := F32.mul (F32.of_Z 1024) (F32.of_Z 1024) in
      let current_upload_rate :=
        F32.div (F32.div (F32.of_Z (bytes_sent s)) mb) duration_sec in
      let current_download_rate :=
        F32.div (F32.div (F32.of_Z (bytes_received s)) mb) duration_sec in
      mk 0 0 now current_upload_rate current_download_rate
         (if F32.ltb (highest_upload_rate s) current_upload_rate
          then current_upload_rate else highest_upload_rate s)
         (if F32.ltb (highest_download_rate s) current_download_rate
          then current_download_rate else highest_download_rate s)
         (interface_name s) (mac_address s)
    else s).

Definition getTotalBandwidth : M t float := fun s => (F32.of_Z 1000, s).

Definition getUploadRate : M t float := fun s => (upload_rate s, s).

Definition getDownloadRate : M t float := fun s => (download_rate s, s).

Definition getTotalUsedBandwidth : M t float := fun s =>
  (F32.add (upload_rate s) (download_rate s), s).

Definition getHighestUploadRate : M t float := fun s =>
  (highest_upload_rate s, s).

Definition getHighestDownloadRate : M t float := fun s =>
  (highest_download_rate s, s).

Definition getTopBandwidthProcess : M t string := fun s =>
  ("Not Implemented"%string, s).

End LinuxNetwork.

(** ** WindowsNetwork (src/core/network/network_windows.cpp, whose text
    follows that of src/gui/gui_interface.h in this tree) *)

Module WindowsNetwork.

(** The three PDH handles are kept as whether they are non-null. *)
Record t : Type := mk {
  currentUploadRate_ : float;
  currentDownloadRate_ : float;
  highestUploadRate_ : float;
  highestDownloadRate_ : float;
  hQuery_ : bool;
  hCounterSend_ : bool;
  hCounterReceive_ : bool
}.

(** The constructor, given which of [WSAStartup], [PdhOpenQuery] and the
    two [PdhAddEnglishCounter] calls succeed: it returns early, with every
    handle null, when one of the first two fails. *)
Definition WindowsNetwork (wsa_started query_opened send_added receive_added : bool)
    : t :=
  if negb wsa_started then mk F32.zero F32.zero F32.zero F32.zero false false false
  else if negb query_opened
  then mk F32.zero F32.zero F32.zero F32.zero false false false
  else mk F32.zero F32.zero F32.zero F32.zero true send_added receive_added.

(** Arithmetic on [double]. *)
Definition double_of_Z (z : Z) : spec_float := binary_normalize 53 1024 z 0 false.

(** [total += pItems[i].FmtValue.doubleValue] over the counter array. *)
Definition sum_items (items : list spec_float) : spec_float :=
  fold_left (SFadd 53 1024) items (S754_zero false).

(** What [PdhCollectQueryData] and the two
    [PdhGetFormattedCounterArrayW] calls give: the values of the instances
    of "Bytes Sent/sec" and of "Bytes Received/sec", [None] when one of the
    three calls fails (the function then returns without writing a
    member). *)
Definition counter_arrays : Type := option (list spec_float * list spec_float).

(** [static_cast<float>(total) * 8 / (1024 * 1024)]. *)
Definition to_mbps (total : spec_float) : float :=
  F32.div (F32.mul (WindowsCPU.of_double total) (F32.of_Z 8)) (F32.of_Z (1024 * 1024)).

Definition updateNetworkStats (r : counter_arrays) : M t unit :=
  modify (fun s =>
    if negb (hQuery_ s) || negb (hCounterSend_ s) || negb (hCounterReceive_ s) then s
    else
      match r with
      | None => s
      | Some (sent, received) =>
          let uploadRate := to_mbps (sum_items sent) in
          let downloadRate := to_mbps (sum_items received) in
          mk uploadRate downloadRate
             (if F32.ltb (highestUploadRate_ s) uploadRate
              then uploadRate else highestUploadRate_ s)
             (if F32.ltb (highestDownloadRate_ s) downloadRate
              then downloadRate else highestDownloadRate_ s)
             (hQuery_ s) (hCounterSend_ s) (hCounterReceive_ s)
      end).

(** One iteration of [updateLoop] (after its sleep). *)
Definition updateLoop (r : counter_arrays) : M t unit := updateNetworkStats r.

(** [member / 8.0]: the quotient is formed in [double] and converted to
    [float] by the [return]. *)
Definition eighth (x : float) : float :=
  WindowsCPU.of_double (SFdiv 53 1024 x (double_of_Z 8)).

Definition getUploadRate : M t float := fun s => (eighth (currentUploadRate_ s), s).

Definition getDownloadRate : M t float := fun s =>
  (eighth (currentDownloadRate_ s), s).

Definition getHighestUploadRate : M t float := fun s =>
  (eighth (highestUploadRate_ s), s).

Definition getHighestDownloadRate : M t float := fun s =>
  (eighth (highestDownloadRate_ s), s).

(** The fields of [IP_ADAPTER_ADDRESSES] that are read. *)
Record IP_ADAPTER_ADDRESSES : Type := mkAdapter {
  IfType : Z;
  OperStatus : Z;
  TransmitLinkSpeed : Z
}.

Definition IF_TYPE_SOFTWARE_LOOPBACK : Z := 24.
Definition IfOperStatusUp : Z := 1.

(** [GetAdaptersAddresses]: the adapters in list order, [None] when the
    buffer cannot be allocated or the call fails. *)
Definition adapters : Type := option (list IP_ADAPTER_ADDRESSES).

Definition getTotalBandwidth (a : adapters) : M t float := fun s =>
  match a with
  | None => (F32.zero, s)
  | Some pAddresses =>
      (fold_left
         (fun totalBandwidth pCurrAddresses =>
            if negb (IfType pCurrAddresses =? IF_TYPE_SOFTWARE_LOOPBACK)
               && (OperStatus pCurrAddresses =? IfOperStatusUp)
            then F32.add totalBandwidth
                   (F32.div (F32.of_Z (TransmitLinkSpeed pCurrAddresses))
                            (F32.mul (F32.of_Z 1000) (F32.of_Z 1000)))
            else totalBandwidth)
         pAddresses F32.zero, s)
  end.

Definition getTotalUsedBandwidth : M t float := fun s =>
  (F32.add (currentUploadRate_ s) (currentDownloadRate_ s), s).

Definition getTopBandwidthProcess : M t string := fun s =>
  ("Feature not implemented"%string, s).

End WindowsNetwork.

(** ** All samplers together, and their public query methods *)

Record System : Type := mkSystem {
  linux_cpu : LinuxCPU.t;
  windows_cpu : WindowsCPU.t;
  linux_memory : LinuxMemory.t;
  windows_memory : WindowsMemory.t;
  linux_network : LinuxNetwork.t;
  windows_network : WindowsNetwork.t
}.

Definition on_linux_cpu {A : Type} (m : M LinuxCPU.t A) : M System A := fun sys =>
  let (a, s) := m (linux_cpu sys) in
  (a, mkSystem s (windows_cpu sys) (linux_memory sys) (windows_memory sys)
               (linux_network sys) (windows_network sys)).

Definition on_windows_cpu {A : Type} (m : M WindowsCPU.t A) : M System A := fun sys =>
  let (a, s) := m (windows_cpu sys) in
  (a, mkSystem (linux_cpu sys) s (linux_memory sys) (windows_memory sys)
               (linux_network sys) (windows_network sys)).

Definition on_linux_memory {A : Type} (m : M LinuxMemory.t A) : M System A := fun sys =>
  let (a, s) := m (linux_memory sys) in
  (a, mkSystem (linux_cpu sys) (windows_cpu sys) s (windows_memory sys)
               (linux_network sys) (windows_network sys)).

Definition on_windows_memory {A : Type} (m : M WindowsMemory.t A) : M System A := fun sys =>
  let (a, s) := m (windows_memory sys) in
  (a, mkSystem (linux_cpu sys) (windows_cpu sys) (linux_memory sys) s
               (linux_network sys) (windows_network sys)).

Definition on_linux_network {A : Type} (m : M LinuxNetwork.t A) : M System A := fun sys =>
  let (a, s) := m (linux_network sys) in
  (a, mkSystem (linux_cpu sys) (windows_cpu sys) (linux_memory sys)
               (windows_memory sys) s (windows_network sys)).

Definition on_windows_network {A : Type} (m : M WindowsNetwork.t A) : M System A :=
  fun sys =>
  let (a, s) := m (windows_network sys) in
  (a, mkSystem (linux_cpu sys) (windows_cpu sys) (linux_memory sys)
               (windows_memory sys) (linux_network sys) s).

(** What a query returns. *)
Inductive value : Type :=
| VFloat (f : float)
| VInt (z : Z)
| VString (s : string)
| VTop (p : LinuxMemory.top_process).

Definition fmap {S A B : Type} (f : A -> B) (m : M S A) : M S B := fun s =>
  let (a, s') := m s in (f a, s').

(** The public member functions of the six backends, each with what it
    reads from the operating system during the call. *)
Inductive query : Type :=
| LinuxCPU_getTotalUsage (f : LinuxCPU.proc_stat)
| LinuxCPU_getClockFrequency (f : LinuxCPU.cpuinfo)
| LinuxCPU_getUsedThreads (d : LinuxCPU.task_dir)
| LinuxCPU_getTotalThreads (n : Z)
| LinuxCPU_getHighestUsage
| LinuxCPU_getAverageUsage
| WindowsCPU_getTotalUsage
| WindowsCPU_getClockFrequency (r : WindowsCPU.pdh_result)
| WindowsCPU_getUsedThreads (pid : Z) (snap : WindowsCPU.thread_snapshot)
| WindowsCPU_getTotalThreads (snap : WindowsCPU.thread_snapshot)
| WindowsCPU_getHighestUsage
| WindowsCPU_getAverageUsage
| LinuxMemory_getTotalUsage (f : LinuxMemory.meminfo)
| LinuxMemory_getRemainingRAM (f : LinuxMemory.meminfo)
| LinuxMemory_getAverageUsage
| LinuxMemory_getMostUsingProcess (now : Z) (d : LinuxMemory.proc_dir)
    (order : LinuxMemory.layout)
| WindowsMemory_getTotalUsage (st : WindowsMemory.memory_status)
| WindowsMemory_getRemainingRAM (st : WindowsMemory.memory_status)
| WindowsMemory_getAverageUsage
| WindowsMemory_getMostUsingProcess (ps : WindowsMemory.process_list)
| LinuxNetwork_getTotalBandwidth
| LinuxNetwork_getUploadRate
| LinuxNetwork_getDownloadRate
| LinuxNetwork_getTotalUsedBandwidth
| LinuxNetwork_getHighestUploadRate
| LinuxNetwork_getHighestDownloadRate
| LinuxNetwork_getTopBandwidthProcess
| WindowsNetwork_getTotalBandwidth (a : WindowsNetwork.adapters)
| WindowsNetwork_getUploadRate
| WindowsNetwork_getDownloadRate
| WindowsNetwork_getTotalUsedBandwidth
| WindowsNetwork_getHighestUploadRate
| WindowsNetwork_getHighestDownloadRate
| WindowsNetwork_getTopBandwidthProcess.

Definition call (q : query) : M System value :=
  match q with
  | LinuxCPU_getTotalUsage f => on_linux_cpu (fmap VFloat (LinuxCPU.getTotalUsage f))
  | LinuxCPU_getClockFrequency f =>
      on_linux_cpu (fmap VFloat (LinuxCPU.getClockFrequency f))
  | LinuxCPU_getUsedThreads d => on_linux_cpu (fmap VInt (LinuxCPU.getUsedThreads d))
  | LinuxCPU_getTotalThreads n => on_linux_cpu (fmap VInt (LinuxCPU.getTotalThreads n))
  | LinuxCPU_getHighestUsage => on_linux_cpu (fmap VFloat LinuxCPU.getHighestUsage)
  | LinuxCPU_getAverageUsage => on_linux_cpu (fmap VFloat LinuxCPU.getAverageUsage)
  | WindowsCPU_getTotalUsage => on_windows_cpu (fmap VFloat WindowsCPU.getTotalUsage)
  | WindowsCPU_getClockFrequency r =>
      on_windows_cpu (fmap VFloat (WindowsCPU.getClockFrequency r))
  | WindowsCPU_getUsedThreads pid snap =>
      on_windows_cpu (fmap VInt (WindowsCPU.getUsedThreads pid snap))
  | WindowsCPU_getTotalThreads snap =>
      on_windows_cpu (fmap VInt (WindowsCPU.getTotalThreads snap))
  | WindowsCPU_getHighestUsage => on_windows_cpu (fmap VFloat WindowsCPU.getHighestUsage)
  | WindowsCPU_getAverageUsage => on_windows_cpu (fmap VFloat WindowsCPU.getAverageUsage)
  | LinuxMemory_getTotalUsage f =>
      on_linux_memory (fmap VFloat (LinuxMemory.getTotalUsage f))
  | LinuxMemory_getRemainingRAM f =>
      on_linux_memory (fmap VFloat (LinuxMemory.getRemainingRAM f))
  | LinuxMemory_getAverageUsage =>
      on_linux_memory (fmap VFloat LinuxMemory.getAverageUsage)
  | LinuxMemory_getMostUsingProcess now d order =>
      on_linux_memory (fmap VTop (LinuxMemory.getMostUsingProcess now d order))
  | WindowsMemory_getTotalUsage st =>
      on_windows_memory (fmap VFloat (WindowsMemory.getTotalUsage st))
  | WindowsMemory_getRemainingRAM st =>
      on_windows_memory (fmap VFloat (WindowsMemory.getRemainingRAM st))
  | WindowsMemory_getAverageUsage =>
      on_windows_memory (fmap VFloat WindowsMemory.getAverageUsage)
  | WindowsMemory_getMostUsingProcess ps =>
      on_windows_memory (fmap VString (WindowsMemory.getMostUsingProcess ps))
  | LinuxNetwork_getTotalBandwidth =>
      on_linux_network (fmap VFloat LinuxNetwork.getTotalBandwidth)
  | LinuxNetwork_getUploadRate =>
      on_linux_network (fmap VFloat LinuxNetwork.getUploadRate)
  | LinuxNetwork_getDownloadRate =>
      on_linux_network (fmap VFloat LinuxNetwork.getDownloadRate)
  | LinuxNetwork_getTotalUsedBandwidth =>
      on_linux_network (fmap VFloat LinuxNetwork.getTotalUsedBandwidth)
  | LinuxNetwork_getHighestUploadRate =>
      on_linux_network (fmap VFloat LinuxNetwork.getHighestUploadRate)
  | LinuxNetwork_getHighestDownloadRate =>
      on_linux_network (fmap VFloat LinuxNetwork.getHighestDownloadRate)
  | LinuxNetwork_getTopBandwidthProcess =>
      on_linux_network (fmap VString LinuxNetwork.getTopBandwidthProcess)
  | WindowsNetwork_getTotalBandwidth a =>
      on_windows_network (fmap VFloat (WindowsNetwork.getTotalBandwidth a))
  | WindowsNetwork_getUploadRate =>
      on_windows_network (fmap VFloat WindowsNetwork.getUploadRate)
  | WindowsNetwork_getDownloadRate =>
      on_windows_network (fmap VFloat WindowsNetwork.getDownloadRate)
  | WindowsNetwork_getTotalUsedBandwidth =>
      on_windows_network (fmap VFloat WindowsNetwork.getTotalUsedBandwidth)
  | WindowsNetwork_getHighestUploadRate =>
      on_windows_network (fmap VFloat WindowsNetwork.getHighestUploadRate)
  | WindowsNetwork_getHighestDownloadRate =>
      on_windows_network (fmap VFloat WindowsNetwork.getHighestDownloadRate)
  | WindowsNetwork_getTopBandwidthProcess =>
      on_windows_network (fmap VString WindowsNetwork.getTopBandwidthProcess)
  end.

(** The queries whose body only copies members out (or only reads the
    operating system). *)
Definition read_only (q : query) : bool :=
  match q with
  | LinuxCPU_getTotalUsage _
  | LinuxMemory_getTotalUsage _
  | LinuxMemory_getRemainingRAM _
  | LinuxMemory_getMostUsingProcess _ _ _
  | WindowsMemory_getTotalUsage _ => false
  | _ => true
  end.

Definition is_LinuxCPU_getTotalUsage (q : query) : bool :=
  match q with LinuxCPU_getTotalUsage _ => true | _ => false end.

Definition is_LinuxMemory_getMostUsingProcess (q : query) : bool :=
  match q with LinuxMemory_getMostUsingProcess _ _ _ => true | _ => false end.

(** What the background threads do: one loop iteration, or one captured
    frame. *)
Inductive tick : Type :=
| WindowsCPU_updateLoop (times : WindowsCPU.system_times)
| LinuxMemory_updateLoop (f : LinuxMemory.meminfo) (now : Z)
    (d : LinuxMemory.proc_dir) (order : LinuxMemory.layout)
| LinuxNetwork_packetHandler (len : Z) (eth_header : LinuxNetwork.ether_header)
| LinuxNetwork_updateRatesPeriodically (now : Z)
| WindowsNetwork_updateLoop (r : WindowsNetwork.counter_arrays).

Definition background (k : tick) : M System unit :=
  match k with
  | WindowsCPU_updateLoop times => on_windows_cpu (WindowsCPU.updateLoop times)
  | LinuxMemory_updateLoop f now d order =>
      on_linux_memory (LinuxMemory.updateLoop f now d order)
  | LinuxNetwork_packetHandler len h =>
      on_linux_network (LinuxNetwork.packetHandler len h)
  | LinuxNetwork_updateRatesPeriodically now =>
      on_linux_network (LinuxNetwork.updateRatesPeriodically now)
  | WindowsNetwork_updateLoop r =>
      on_windows_network (WindowsNetwork.updateLoop r)
  end.

(** Anything that can happen to the samplers. *)
Inductive event : Type :=
| Query (q : query)
| Tick (k : tick).

Definition step (e : event) (sys : System) : System :=
  match e with
  | Query q => snd (call q sys)
  | Tick k => snd (background k sys)
  end.

Definition run (es : list event) (sys : System) : System :=
  fold_left (fun s e => step e s) es sys.

(** The call [q] made when the steady clock reads [now]. Of all the
    queries only [LinuxMemory::getMostUsingProcess] looks at that clock
    (in [readProcessMemoryUsage]), and it does so on every call. *)
Definition at_time (now : Z) (q : query) : query :=
  match q with
  | LinuxMemory_getMostUsingProcess _ d order =>
      LinuxMemory_getMostUsingProcess now d order
  | _ => q
  end.

(** The values returned by successive calls of [q], one at each of the
    clock readings [times], while everything else that the calls read from
    the operating system stays as given in [q]. *)
Fixpoint repeat_call (times : list Z) (q : query) (sys : System) : list value :=
  match times with
  | [] => []
  | now :: later =>
      let (v, sys') := call (at_time now q) sys in v :: repeat_call later q sys'
  end.

(** No scan of [/proc] falls due at any of [times]: each comes less than
    [process_update_interval_] after the process table was last filled. *)
Definition no_scan_due (times : list Z) (s : LinuxMemory.t) : Prop :=
  Forall (fun now => now - LinuxMemory.last_process_update_ s
                     < LinuxMemory.process_update_interval_) times.

(** ** Histories of the whole system *)

(** A history changes only by recording one more sample. *)
Definition history_step (h h' : list float) : Prop :=
  h' = h \/ exists usage, h' = History.push_history 100 h usage.

(** The four usage histories of the system. *)
Definition histories (sys : System) : list (list float) :=
  [ LinuxCPU.usage_history_ (linux_cpu sys);
    WindowsCPU.usage_history_ (windows_cpu sys);
    LinuxMemory.usage_history_ (linux_memory sys);
    WindowsMemory.usage_history_ (windows_memory sys) ].

Definition histories_bounded (sys : System) : Prop :=
  Forall (fun h => (List.length h <= 100)%nat) (histories sys).

(** The samplers as their constructors leave them, on a machine whose
    first readings are the ones given. *)
Definition initial_system : System :=
  mkSystem
    (LinuxCPU.LinuxCPU (Some [100; 0; 50; 50; 0; 0; 0]))
    (WindowsCPU.WindowsCPU (WindowsCPU.mkFILETIME 100 0)
       (WindowsCPU.mkFILETIME 150 0) (WindowsCPU.mkFILETIME 50 0))
    (LinuxMemory.LinuxMemory 0
       (Some [("MemTotal:"%string, 8000000); ("MemFree:"%string, 1000000);
              ("MemAvailable:"%string, 4000000)]))
    WindowsMemory.WindowsMemory
    (LinuxNetwork.LinuxNetwork "eth0" None true 0)
    (WindowsNetwork.WindowsNetwork true true true true).


(** ** Runs of the Linux CPU sampler

    The Linux backend has no thread of its own: every call of
    [getTotalUsage] is a tick. *)

Definition LinuxCPU_poll (reads : list LinuxCPU.proc_stat) (s : LinuxCPU.t)
    : LinuxCPU.t :=
  fold_left (fun s f => snd (LinuxCPU.getTotalUsage f s)) reads s.

(** [/proc/stat] over [n] seconds: the first second fully busy (100 ticks
    of user time), every later second fully idle. *)
Definition busy_then_idle (n : nat) : list LinuxCPU.proc_stat :=
  map (fun k => Some [100; 0; 0; 100 * Z.of_nat k; 0]) (seq 0 n).

(** ** Reading a formatted address back *)

Definition hex_value (c : ascii) : N :=
  let n := N_of_ascii c in
  if (n <? 58)%N then (n - 48)%N else (n - 87)%N.

(** The byte printed by [hex2]. *)
Definition unhex2 (s : string) : option Byte.byte :=
  match s with
  | String hi (String lo EmptyString) =>
      Byte.of_N (16 * hex_value hi + hex_value lo)
  | _ => None
  end.

(** ** Auxiliary views of the memory samplers *)

(** The five numbers kept from [/proc/meminfo]. *)
Definition mem_fields (s : LinuxMemory.t) : Z * Z * Z * Z * Z :=
  (LinuxMemory.mem_total_ s, LinuxMemory.mem_available_ s,
   LinuxMemory.mem_free_ s, LinuxMemory.mem_cached_ s,
   LinuxMemory.mem_buffers_ s).

(** The usage computed by [updateUsageHistory] from the current totals. *)
Definition memory_usage (s : LinuxMemory.t) : float :=
  F32.mul (F32.div (F32.of_Z (wrap64 (LinuxMemory.mem_total_ s
                                       - LinuxMemory.mem_available_ s)))
                   (F32.of_Z (LinuxMemory.mem_total_ s)))
          (F32.of_Z 100).

(** The working-set size the Windows scan obtains for a process, if it
    gets that far: the identifier is not 0, the process can be opened and
    [GetProcessMemoryInfo] succeeds. *)
Definition queried (p : WindowsMemory.process) : option Z :=
  if WindowsMemory.th32ProcessID p =? 0 then None
  else if WindowsMemory.hProcess p then WindowsMemory.WorkingSetSize p
  else None.

(** A scan that keeps a candidate and replaces it only by a strictly
    heavier one: the common shape of the Windows loop and of
    [std::max_element]. *)
Definition improve {A B : Type} (weight : B -> Z) (consider : A -> option B)
    (best : B) (a : A) : B :=
  match consider a with
  | Some b => if weight best <? weight b then b else best
  | None => best
  end.

(** Two processes with the same working set, in the order in which
    [EnumProcesses] returns them. *)
Definition tied_processes : list WindowsMemory.process :=
  [ WindowsMemory.mkProcess 4 true (Some 4096) (Some "first.exe"%string);
    WindowsMemory.mkProcess 8 true (Some 4096) (Some "second.exe"%string) ].

(** What the Windows scan would install for a process: its working-set
    size with its name. *)
Definition candidate (p : WindowsMemory.process) : option (Z * string) :=
  match queried p with
  | Some size => Some (size, WindowsMemory.processName p)
  | None => None
  end.

(** ** Runs of the Windows CPU sampler *)

(** The update thread recording a run of samples, oldest first. *)
Definition WindowsCPU_record_all (samples : list float) (s : WindowsCPU.t)
    : WindowsCPU.t :=
  fold_left (fun s usage => snd (WindowsCPU.record usage s)) samples s.

(** ** Notions used to state further properties *)

(** The sum of a list of counters, without wrap-around. *)
Definition sum_Z (l : list Z) : Z := fold_right Z.add 0 l.

(** The sign bit of a float is clear (a NaN has none). *)
Definition sign_clear (x : float) : bool :=
  match x with
  | S754_zero s | S754_infinity s | S754_finite s _ _ => negb s
  | S754_nan => true
  end.

(** A reading of [/proc/stat] that [getTotalUsage] cannot use. *)
Definition unusable (f : LinuxCPU.proc_stat) : bool :=
  match f with
  | None => true
  | Some stats => (List.length stats <? 5)%nat
  end.

(** The samples computed by a run of the Windows update loop, oldest first,
    and the sampler after it. *)
Fixpoint WindowsCPU_run (ts : list WindowsCPU.system_times) (s : WindowsCPU.t)
    : list float * WindowsCPU.t :=
  match ts with
  | [] => ([], s)
  | times :: rest =>
      let usage := fst (WindowsCPU.calculateCPUUsage times s) in
      let (later, s') := WindowsCPU_run rest (snd (WindowsCPU.updateLoop times s)) in
      (usage :: later, s')
  end.

(** What the two threads of the Linux network estimator do, in the order
    in which it happens: a captured frame, or an iteration of the rate
    loop at a given time. *)
Inductive capture_event : Type :=
| Frame (len : Z) (eth_header : LinuxNetwork.ether_header)
| RateTick (now : Z).

Definition LinuxNetwork_step (s : LinuxNetwork.t) (e : capture_event)
    : LinuxNetwork.t :=
  match e with
  | Frame len eth_header => snd (LinuxNetwork.packetHandler len eth_header s)
  | RateTick now => snd (LinuxNetwork.updateRatesPeriodically now s)
  end.

Definition LinuxNetwork_run (es : list capture_event) (s : LinuxNetwork.t)
    : LinuxNetwork.t :=
  fold_left LinuxNetwork_step es s.

(** The events of capturing some frames, given as length and header. *)
Definition capture (frames : list (Z * LinuxNetwork.ether_header))
    : list capture_event :=
  map (fun f => Frame (fst f) (snd f)) frames.

(** The highest rate stored is not below the current one, and no rate has
    its sign bit set; the byte counters are 64-bit values. *)
Definition rates_consistent (s : LinuxNetwork.t) : Prop :=
  F32.ltb (LinuxNetwork.highest_upload_rate s) (LinuxNetwork.upload_rate s) = false /\
  F32.ltb (LinuxNetwork.highest_download_rate s) (LinuxNetwork.download_rate s) = false /\
  sign_clear (LinuxNetwork.upload_rate s) = true /\
  sign_clear (LinuxNetwork.download_rate s) = true /\
  0 <= LinuxNetwork.bytes_sent s < 2 ^ 64 /\
  0 <= LinuxNetwork.bytes_received s < 2 ^ 64.

(** The number on the last line of [/proc/meminfo] that carries [key], 0
    when no line does. *)
Definition last_value (key : string) (lines : list (string * Z)) : Z :=
  fold_left (fun acc line => if String.eqb (fst line) key then snd line else acc)
            lines 0.

(** A [/proc/meminfo] that [readMemInfo] rejects: it cannot be opened, or
    it gives no non-zero total or no non-zero available memory. *)
Definition incomplete (f : LinuxMemory.meminfo) : bool :=
  match f with
  | None => true
  | Some lines =>
      (last_value "MemTotal:" lines =? 0) || (last_value "MemAvailable:" lines =? 0)
  end.

(** What a directory entry of [/proc] contributes to the process table,
    if it passes every test of the scan. *)
Definition qualifying (entry : LinuxMemory.dirent) : option (string * Z) :=
  if LinuxMemory.d_type_is_dir entry && LinuxMemory.all_digits (LinuxMemory.d_name entry)
  then match LinuxMemory.status entry with
       | Some (process_name, vmrss) =>
           if negb (String.eqb process_name "") && (0 <? vmrss)
           then Some (process_name, vmrss) else None
       | None => None
       end
  else None.

(** The size of the last qualifying entry of the scan that bears [name]. *)
Definition rss_of (name : string) (entries : list LinuxMemory.dirent) : option Z :=
  fold_left (fun acc entry =>
               match qualifying entry with
               | Some (n, v) => if String.eqb n name then Some v else acc
               | None => acc
               end)
            entries None.

(** Looking a name up in the process table. *)
Definition lookup (name : string) (table : list (string * Z)) : option Z :=
  match find (fun p => String.eqb (fst p) name) table with
  | Some p => Some (snd p)
  | None => None
  end.

(** ** Runs of a sampler, with the samples it is to record *)

(** The newest [n] elements of a list, oldest first (all of them when
    there are fewer). *)
Definition newest {A : Type} (n : nat) (l : list A) : list A :=
  skipn (List.length l - n) l.

(** A reading of [/proc/stat] on which [LinuxCPU::getTotalUsage] gets as
    far as computing a usage: at least five counters, and a total that has
    moved since the reading before. *)
Definition LinuxCPU_moved (f : LinuxCPU.proc_stat) (s : LinuxCPU.t) : bool :=
  match f with
  | Some stats =>
      (5 <=? List.length stats)%nat
      && negb (wrap64 (LinuxCPU.total_of stats - LinuxCPU.prev_total_ s) =? 0)
  | None => false
  end.

(** Polling the Linux CPU sampler once per reading: the values returned
    by the calls whose reading had moved, oldest first, and the sampler
    after the last call. *)
Fixpoint LinuxCPU_run (reads : list LinuxCPU.proc_stat) (s : LinuxCPU.t)
    : list float * LinuxCPU.t :=
  match reads with
  | [] => ([], s)
  | f :: rest =>
      let (usage, s1) := LinuxCPU.getTotalUsage f s in
      let (later, s') := LinuxCPU_run rest s1 in
      ((if LinuxCPU_moved f s then [usage] else []) ++ later, s')%list
  end.

(** What happens to the Linux memory sampler: a call of [getTotalUsage],
    or an iteration of its update loop. Both read [/proc/meminfo]. *)
Inductive LinuxMemory_op : Type :=
| Poll (f : LinuxMemory.meminfo)
| Loop (f : LinuxMemory.meminfo) (now : Z) (d : LinuxMemory.proc_dir)
    (order : LinuxMemory.layout).

Definition meminfo_of (op : LinuxMemory_op) : LinuxMemory.meminfo :=
  match op with
  | Poll f => f
  | Loop f _ _ _ => f
  end.

Definition LinuxMemory_do (op : LinuxMemory_op) (s : LinuxMemory.t) : LinuxMemory.t :=
  match op with
  | Poll f => snd (LinuxMemory.getTotalUsage f s)
  | Loop f now d order => snd (LinuxMemory.updateLoop f now d order s)
  end.

(** A run of the Linux memory sampler: for every operation whose
    [/proc/meminfo] is complete, the usage that [getTotalUsage] returns on
    that file, oldest first; and the sampler after the last operation. *)
Fixpoint LinuxMemory_run (ops : list LinuxMemory_op) (s : LinuxMemory.t)
    : list float * LinuxMemory.t :=
  match ops with
  | [] => ([], s)
  | op :: rest =>
      let usage := fst (LinuxMemory.getTotalUsage (meminfo_of op) s) in
      let (later, s') := LinuxMemory_run rest (LinuxMemory_do op s) in
      ((if incomplete (meminfo_of op) then [] else [usage]) ++ later, s')%list
  end.

(** Polling the Windows memory sampler: the values returned by the calls
    on which [GlobalMemoryStatusEx] succeeded, oldest first, and the
    sampler after the last call. *)
Fixpoint WindowsMemory_run (statuses : list WindowsMemory.memory_status)
    (s : WindowsMemory.t) : list float * WindowsMemory.t :=
  match statuses with
  | [] => ([], s)
  | st :: rest =>
      let (usage, s1) := WindowsMemory.getTotalUsage st s in
      let (later, s') := WindowsMemory_run rest s1 in
      ((match st with Some _ => [usage] | None => [] end) ++ later, s')%list
  end.

(** [/proc/stat] over [n] seconds of 200 clock ticks each, of which the
    [k]-th second spends [k] ticks in user mode and the rest idle. *)
Definition rising_load (n : nat) : list LinuxCPU.proc_stat :=
  map (fun k => let k := Z.of_nat k in
                Some [100 + k * (k + 1) / 2; 0; 50;
                      50 + 200 * k - k * (k + 1) / 2; 0; 0; 0])
      (seq 1 n).

(** The answer computed from a process table by [std::max_element]. *)
Definition answer (table : list (string * Z)) : LinuxMemory.top_process :=
  match History.max_element LinuxMemory.rss_lt table with
  | Some max_it =>
      LinuxMemory.Top (fst max_it) (F32.div (F32.of_Z (snd max_it)) (F32.of_Z 1024))
  | None => LinuxMemory.NA
  end.

(** ** The console table (src/cli/main.cpp) *)

Module CLI.

(** [std::string(n, ' ')]. *)
Fixpoint spaces (n : nat) : string :=
  match n with
  | O => EmptyString
  | S n' => String " " (spaces n')
  end.

(** [centerText]; the lengths are far from the limits of [int]. *)
Definition centerText (text : string) (width : Z) : string :=
  let len := Z.of_nat (String.length text) in
  let padding := Z.quot (width - len) 2 in
  if 0 <? padding then
    let right := padding + (if len mod 2 =? 0 then 0 else 1) in
    (spaces (Z.to_nat padding) ++ text ++ spaces (Z.to_nat right))%string
  else text.

End CLI.
(** * Properties *)

(** ** The history buffer *)

Section HistoryFacts.

Variable max_history_size_ : nat.

Lemma push_history_length (h : list float) (x : float) :
  (List.length h <= max_history_size_)%nat ->
  (List.length (History.push_history max_history_size_ h x) <= max_history_size_)%nat.
Proof.
  intros Hh. unfold History.push_history.
  destruct (Nat.ltb_spec max_history_size_ (List.length (h ++ [x]))) as [Hlt | Hge].
  - rewrite length_app in Hlt. simpl in Hlt.
    destruct h as [| a h']; simpl in *; [lia |].
    rewrite length_app. simpl. lia.
  - exact Hge.
Qed.

Lemma push_history_skipn (h : list float) (x : float) :
  (List.length h <= max_history_size_)%nat ->
  History.push_history max_history_size_ h x
  = skipn (List.length (h ++ [x]) - max_history_size_) (h ++ [x]).
Proof.
  intros Hh. unfold History.push_history.
  rewrite length_app. simpl.
  destruct (Nat.ltb_spec max_history_size_ (List.length h + 1)) as [Hlt | Hge].
  - replace (List.length h + 1 - max_history_size_)%nat with 1%nat by lia.
    destruct h; reflexivity.
  - replace (List.length h + 1 - max_history_size_)%nat with 0%nat by lia.
    reflexivity.
Qed.

Lemma record_all_skipn (samples h : list float) :
  (List.length h <= max_history_size_)%nat ->
  History.record_all max_history_size_ samples h
  = skipn (List.length (h ++ samples) - max_history_size_) (h ++ samples).
Proof.
  revert h. induction samples as [| x samples IH]; intros h Hh.
  - simpl. rewrite app_nil_r.
    replace (List.length h - max_history_size_)%nat with 0%nat by lia.
    reflexivity.
  - change (History.record_all max_history_size_ (x :: samples) h)
      with (History.record_all max_history_size_ samples
              (History.push_history max_history_size_ h x)).
    rewrite IH by (apply push_history_length; exact Hh).
    rewrite push_history_skipn by exact Hh.
    rewrite !length_app, length_skipn, length_app. simpl.
    destruct (Nat.ltb_spec max_history_size_ (List.length h + 1)) as [Hlt | Hge].
    + assert (Hlen : List.length h = max_history_size_) by lia.
      replace (List.length h + 1 - max_history_size_)%nat with 1%nat by lia.
      destruct h as [| a h']; simpl in Hlen; [subst max_history_size_; simpl; rewrite Nat.sub_0_r, skipn_all; destruct samples; reflexivity |].
      simpl skipn at 2. simpl List.length.
      replace (S (List.length h') + 1 - 1 + List.length samples - max_history_size_)%nat
        with (List.length samples) by lia.
      replace (S (List.length h') + S (List.length samples) - max_history_size_)%nat
        with (S (List.length samples)) by lia.
      simpl. rewrite <- app_assoc. reflexivity.
    + replace (List.length h + 1 - max_history_size_)%nat with 0%nat by lia.
      simpl skipn at 2. rewrite <- app_assoc. simpl.
      f_equal. lia.
Qed.

Lemma record_all_length (samples h : list float) :
  (List.length h <= max_history_size_)%nat ->
  (List.length (History.record_all max_history_size_ samples h) <= max_history_size_)%nat.
Proof.
  revert h. induction samples as [| x samples IH]; intros h Hh; simpl.
  - exact Hh.
  - apply IH, push_history_length, Hh.
Qed.

End HistoryFacts.


Lemma history_step_refl (h : list float) : history_step h h.
Proof. left. reflexivity. Qed.

Lemma history_step_bounded (h h' : list float) :
  history_step h h' -> (List.length h <= 100)%nat -> (List.length h' <= 100)%nat.
Proof.
  intros [-> | [u ->]] Hh; [exact Hh | apply push_history_length; exact Hh].
Qed.

Lemma LinuxCPU_getTotalUsage_history (f : LinuxCPU.proc_stat) (s : LinuxCPU.t) :
  history_step (LinuxCPU.usage_history_ s)
               (LinuxCPU.usage_history_ (snd (LinuxCPU.getTotalUsage f s))).
Proof.
  unfold LinuxCPU.getTotalUsage.
  destruct (LinuxCPU.readCPUStat f) as [stats |]; [| apply history_step_refl].
  destruct (List.length stats <? 5)%nat; [apply history_step_refl |].
  destruct (_ =? 0); simpl; [apply history_step_refl |].
  right. eexists. reflexivity.
Qed.

Lemma WindowsCPU_calculateCPUUsage_frame (times : WindowsCPU.system_times)
    (s : WindowsCPU.t) :
  let s' := snd (WindowsCPU.calculateCPUUsage times s) in
  WindowsCPU.usage_history_ s' = WindowsCPU.usage_history_ s /\
  WindowsCPU.highest_usage_ s' = WindowsCPU.highest_usage_ s /\
  WindowsCPU.current_usage_ s' = WindowsCPU.current_usage_ s.
Proof.
  unfold WindowsCPU.calculateCPUUsage.
  destruct times as [[[i k] u] |]; simpl; auto.
Qed.

Lemma WindowsCPU_updateLoop_history (times : WindowsCPU.system_times)
    (s : WindowsCPU.t) :
  WindowsCPU.usage_history_ (snd (WindowsCPU.updateLoop times s))
  = History.push_history 100 (WindowsCPU.usage_history_ s)
      (fst (WindowsCPU.calculateCPUUsage times s)).
Proof.
  unfold WindowsCPU.updateLoop, bind.
  pose proof (WindowsCPU_calculateCPUUsage_frame times s) as [Hh _].
  destruct (WindowsCPU.calculateCPUUsage times s) as [usage s1].
  simpl in *. rewrite Hh. reflexivity.
Qed.

Lemma LinuxMemory_read_line_frame (line : string * Z) (s : LinuxMemory.t) :
  let s' := LinuxMemory.read_line s line in
  LinuxMemory.usage_history_ s' = LinuxMemory.usage_history_ s /\
  LinuxMemory.process_memory_usage_ s' = LinuxMemory.process_memory_usage_ s /\
  LinuxMemory.last_process_update_ s' = LinuxMemory.last_process_update_ s.
Proof.
  destruct line as [key v]. unfold LinuxMemory.read_line.
  repeat (destruct (String.eqb key _); [simpl; auto |]).
  auto.
Qed.

Lemma LinuxMemory_read_lines_frame (lines : list (string * Z)) (s : LinuxMemory.t) :
  let s' := fold_left LinuxMemory.read_line lines s in
  LinuxMemory.usage_history_ s' = LinuxMemory.usage_history_ s /\
  LinuxMemory.process_memory_usage_ s' = LinuxMemory.process_memory_usage_ s /\
  LinuxMemory.last_process_update_ s' = LinuxMemory.last_process_update_ s.
Proof.
  revert s. induction lines as [| l lines IH]; intros s; simpl; auto.
  destruct (IH (LinuxMemory.read_line s l)) as (H1 & H2 & H3).
  destruct (LinuxMemory_read_line_frame l s) as (K1 & K2 & K3).
  simpl in *. repeat split; congruence.
Qed.

Lemma LinuxMemory_readMemInfo_frame (f : LinuxMemory.meminfo) (s : LinuxMemory.t) :
  let s' := snd (LinuxMemory.readMemInfo f s) in
  LinuxMemory.usage_history_ s' = LinuxMemory.usage_history_ s /\
  LinuxMemory.process_memory_usage_ s' = LinuxMemory.process_memory_usage_ s /\
  LinuxMemory.last_process_update_ s' = LinuxMemory.last_process_update_ s.
Proof.
  unfold LinuxMemory.readMemInfo. destruct f as [lines |]; simpl; auto.
  pose proof (LinuxMemory_read_lines_frame lines (LinuxMemory.set_mem s 0 0 0 0 0)) as H.
  destruct (_ || _); simpl in *; exact H.
Qed.

Lemma LinuxMemory_readProcessMemoryUsage_history (now : Z)
    (d : LinuxMemory.proc_dir) (order : LinuxMemory.layout) (s : LinuxMemory.t) :
  LinuxMemory.usage_history_ (snd (LinuxMemory.readProcessMemoryUsage now d order s))
  = LinuxMemory.usage_history_ s.
Proof.
  unfold LinuxMemory.readProcessMemoryUsage.
  destruct (_ <? _); [reflexivity |]. destruct d; reflexivity.
Qed.

Lemma LinuxMemory_getTotalUsage_history (f : LinuxMemory.meminfo) (s : LinuxMemory.t) :
  history_step (LinuxMemory.usage_history_ s)
               (LinuxMemory.usage_history_ (snd (LinuxMemory.getTotalUsage f s))).
Proof.
  unfold LinuxMemory.getTotalUsage, bind.
  pose proof (LinuxMemory_readMemInfo_frame f s) as (Hh & _).
  destruct (LinuxMemory.readMemInfo f s) as [[|] s1]; simpl in *.
  - right. eexists. rewrite Hh. reflexivity.
  - left. exact Hh.
Qed.

Lemma LinuxMemory_getRemainingRAM_history (f : LinuxMemory.meminfo) (s : LinuxMemory.t) :
  LinuxMemory.usage_history_ (snd (LinuxMemory.getRemainingRAM f s))
  = LinuxMemory.usage_history_ s.
Proof.
  unfold LinuxMemory.getRemainingRAM, bind.
  pose proof (LinuxMemory_readMemInfo_frame f s) as (Hh & _).
  destruct (LinuxMemory.readMemInfo f s) as [[|] s1]; simpl in *; exact Hh.
Qed.

Lemma LinuxMemory_getMostUsingProcess_state (now : Z) (d : LinuxMemory.proc_dir)
    (order : LinuxMemory.layout) (s : LinuxMemory.t) :
  snd (LinuxMemory.getMostUsingProcess now d order s)
  = snd (LinuxMemory.readProcessMemoryUsage now d order s).
Proof.
  unfold LinuxMemory.getMostUsingProcess, bind.
  destruct (LinuxMemory.readProcessMemoryUsage now d order s) as [[|] s1]; simpl;
    [| reflexivity].
  destruct (History.max_element _ _); reflexivity.
Qed.

Lemma LinuxMemory_updateLoop_history (f : LinuxMemory.meminfo) (now : Z)
    (d : LinuxMemory.proc_dir) (order : LinuxMemory.layout) (s : LinuxMemory.t) :
  history_step (LinuxMemory.usage_history_ s)
               (LinuxMemory.usage_history_ (snd (LinuxMemory.updateLoop f now d order s))).
Proof.
  unfold LinuxMemory.updateLoop, bind.
  pose proof (LinuxMemory_readMemInfo_frame f s) as (Hh & _).
  destruct (LinuxMemory.readMemInfo f s) as [[|] s1]; simpl in *.
  - match goal with
    | |- context [LinuxMemory.readProcessMemoryUsage now d order ?x] =>
        pose proof (LinuxMemory_readProcessMemoryUsage_history now d order x) as Hp;
        destruct (LinuxMemory.readProcessMemoryUsage now d order x) as [b s2]
    end.
    simpl in *. right. eexists. rewrite Hp, Hh. reflexivity.
  - pose proof (LinuxMemory_readProcessMemoryUsage_history now d order s1) as Hp.
    destruct (LinuxMemory.readProcessMemoryUsage now d order s1) as [b s2].
    simpl in *. left. congruence.
Qed.

Lemma WindowsMemory_getTotalUsage_history (st : WindowsMemory.memory_status)
    (s : WindowsMemory.t) :
  history_step (WindowsMemory.usage_history_ s)
               (WindowsMemory.usage_history_ (snd (WindowsMemory.getTotalUsage st s))).
Proof.
  unfold WindowsMemory.getTotalUsage. destruct st; simpl.
  - right. eexists. reflexivity.
  - apply history_step_refl.
Qed.


(** Lifting a member function to the system. *)

Lemma fst_fmap {S A B : Type} (g : A -> B) (m : M S A) (s : S) :
  fst (fmap g m s) = g (fst (m s)).
Proof. unfold fmap. destruct (m s). reflexivity. Qed.

Lemma snd_fmap {S A B : Type} (g : A -> B) (m : M S A) (s : S) :
  snd (fmap g m s) = snd (m s).
Proof. unfold fmap. destruct (m s). reflexivity. Qed.

Lemma on_linux_cpu_eq {A : Type} (m : M LinuxCPU.t A) (sys : System) :
  on_linux_cpu m sys
  = (fst (m (linux_cpu sys)),
     mkSystem (snd (m (linux_cpu sys))) (windows_cpu sys) (linux_memory sys)
              (windows_memory sys) (linux_network sys) (windows_network sys)).
Proof. unfold on_linux_cpu. destruct (m (linux_cpu sys)). reflexivity. Qed.

Lemma on_windows_cpu_eq {A : Type} (m : M WindowsCPU.t A) (sys : System) :
  on_windows_cpu m sys
  = (fst (m (windows_cpu sys)),
     mkSystem (linux_cpu sys) (snd (m (windows_cpu sys))) (linux_memory sys)
              (windows_memory sys) (linux_network sys) (windows_network sys)).
Proof. unfold on_windows_cpu. destruct (m (windows_cpu sys)). reflexivity. Qed.

Lemma on_linux_memory_eq {A : Type} (m : M LinuxMemory.t A) (sys : System) :
  on_linux_memory m sys
  = (fst (m (linux_memory sys)),
     mkSystem (linux_cpu sys) (windows_cpu sys) (snd (m (linux_memory sys)))
              (windows_memory sys) (linux_network sys) (windows_network sys)).
Proof. unfold on_linux_memory. destruct (m (linux_memory sys)). reflexivity. Qed.

Lemma on_windows_memory_eq {A : Type} (m : M WindowsMemory.t A) (sys : System) :
  on_windows_memory m sys
  = (fst (m (windows_memory sys)),
     mkSystem (linux_cpu sys) (windows_cpu sys) (linux_memory sys)
              (snd (m (windows_memory sys))) (linux_network sys) (windows_network sys)).
Proof. unfold on_windows_memory. destruct (m (windows_memory sys)). reflexivity. Qed.

Lemma on_linux_network_eq {A : Type} (m : M LinuxNetwork.t A) (sys : System) :
  on_linux_network m sys
  = (fst (m (linux_network sys)),
     mkSystem (linux_cpu sys) (windows_cpu sys) (linux_memory sys)
              (windows_memory sys) (snd (m (linux_network sys))) (windows_network sys)).
Proof. unfold on_linux_network. destruct (m (linux_network sys)). reflexivity. Qed.

Lemma on_windows_network_eq {A : Type} (m : M WindowsNetwork.t A) (sys : System) :
  on_windows_network m sys
  = (fst (m (windows_network sys)),
     mkSystem (linux_cpu sys) (windows_cpu sys) (linux_memory sys)
              (windows_memory sys) (linux_network sys) (snd (m (windows_network sys)))).
Proof. unfold on_windows_network. destruct (m (windows_network sys)). reflexivity. Qed.

Ltac lift_sys :=
  unfold step, call, background;
  rewrite ?on_linux_cpu_eq, ?on_windows_cpu_eq, ?on_linux_memory_eq,
          ?on_windows_memory_eq, ?on_linux_network_eq, ?on_windows_network_eq;
  cbn [fst snd];
  rewrite ?fst_fmap, ?snd_fmap.

(** Member functions that return the object as they found it. *)

Lemma call_read_only (q : query) (sys : System) :
  read_only q = true -> snd (call q sys) = sys.
Proof.
  intros R. destruct sys as [lc wc lm wm ln wn].
  destruct q; try discriminate R; lift_sys;
    cbn [linux_cpu windows_cpu linux_memory windows_memory linux_network
         windows_network];
    f_equal.
  - unfold LinuxCPU.getClockFrequency. destruct f; reflexivity.
  - unfold LinuxCPU.getUsedThreads. destruct d; reflexivity.
  - unfold LinuxCPU.getHighestUsage. destruct (History.max_element _ _); reflexivity.
  - unfold WindowsCPU.getClockFrequency. destruct r; reflexivity.
  - unfold WindowsCPU.getUsedThreads. destruct snap; reflexivity.
  - unfold WindowsCPU.getTotalThreads. destruct snap; reflexivity.
  - unfold WindowsMemory.getRemainingRAM. destruct st; reflexivity.
  - unfold WindowsMemory.getMostUsingProcess. destruct ps; reflexivity.
  - unfold WindowsNetwork.getTotalBandwidth. destruct a; reflexivity.
Qed.

Lemma Forall2_history_step_refl (l : list (list float)) :
  Forall2 history_step l l.
Proof. induction l; constructor; auto using history_step_refl. Qed.

Lemma step_histories (e : event) (sys : System) :
  Forall2 history_step (histories sys) (histories (step e sys)).
Proof.
  destruct e as [q | k].
  - destruct (read_only q) eqn:R.
    + unfold step. rewrite call_read_only by exact R.
      apply Forall2_history_step_refl.
    + destruct q; try discriminate R; lift_sys; unfold histories;
        cbn [linux_cpu windows_cpu linux_memory windows_memory linux_network
         windows_network];
        repeat (apply Forall2_cons; [try apply history_step_refl |]);
        try apply Forall2_nil.
      * apply LinuxCPU_getTotalUsage_history.
      * apply LinuxMemory_getTotalUsage_history.
      * rewrite LinuxMemory_getRemainingRAM_history. apply history_step_refl.
      * rewrite LinuxMemory_getMostUsingProcess_state,
          LinuxMemory_readProcessMemoryUsage_history.
        apply history_step_refl.
      * apply WindowsMemory_getTotalUsage_history.
  - destruct k; lift_sys; unfold histories;
      cbn [linux_cpu windows_cpu linux_memory windows_memory linux_network
         windows_network];
      repeat (apply Forall2_cons; [try apply history_step_refl |]);
        try apply Forall2_nil.
    + right. eexists. apply WindowsCPU_updateLoop_history.
    + apply LinuxMemory_updateLoop_history.
Qed.

Lemma run_histories_bounded (es : list event) (sys : System) :
  histories_bounded sys -> histories_bounded (run es sys).
Proof.
  revert sys. induction es as [| e es IH]; intros sys Hb; simpl; [exact Hb |].
  apply IH. unfold histories_bounded in *.
  pose proof (step_histories e sys) as Hs.
  remember (histories sys) as hs eqn:E1. remember (histories (step e sys)) as hs' eqn:E2.
  clear E1 E2. induction Hs; inversion Hb; subst; constructor; eauto using history_step_bounded.
Qed.


Lemma initial_system_bounded : histories_bounded initial_system.
Proof. unfold histories_bounded. repeat constructor; simpl; lia. Qed.

Lemma history_after_150 (samples : list float) :
  List.length samples = 150%nat ->
  History.record_all 100 samples [] = skipn 50 samples /\
  List.length (History.record_all 100 samples []) = 100%nat.
Proof.
  intros H. rewrite record_all_skipn by (simpl; lia). simpl app.
  rewrite H. split; [reflexivity |].
  change (150 - 100)%nat with 50%nat. rewrite length_skipn. lia.
Qed.


(** ** The highest usage *)

(** The order on floats, away from NaN. *)

Ltac float_order :=
  repeat match goal with
  | |- context [Pos.compare_cont Eq ?a ?b] =>
      change (Pos.compare_cont Eq a b) with (Pos.compare a b)
  | H : context [Pos.compare_cont Eq ?a ?b] |- _ =>
      change (Pos.compare_cont Eq a b) with (Pos.compare a b) in H
  end;
  repeat match goal with
  | |- context [Z.compare ?a ?b] => destruct (Z.compare_spec a b)
  | H : context [Z.compare ?a ?b] |- _ => destruct (Z.compare_spec a b)
  | |- context [Pos.compare ?a ?b] => destruct (Pos.compare_spec a b)
  | H : context [Pos.compare ?a ?b] |- _ => destruct (Pos.compare_spec a b)
  end;
  simpl in *; try reflexivity; try discriminate; try lia.

Lemma leb_refl (x : float) : F32.is_nan x = false -> F32.leb x x = true.
Proof.
  unfold F32.leb, SFleb, SFcompare.
  destruct x as [[|] | [|] | | [|] m e]; intros H; try reflexivity;
    try discriminate H; float_order.
Qed.

Lemma leb_trans (x y z : float) :
  F32.leb x y = true -> F32.leb y z = true -> F32.leb x z = true.
Proof.
  unfold F32.leb, SFleb, SFcompare.
  destruct x as [[|] | [|] | | [|] mx ex];
    destruct y as [[|] | [|] | | [|] my ey];
    destruct z as [[|] | [|] | | [|] mz ez];
    intros H1 H2; try reflexivity; try discriminate H1; try discriminate H2;
    float_order.
Qed.

Lemma ltb_leb (x y : float) : F32.ltb x y = true -> F32.leb x y = true.
Proof.
  unfold F32.ltb, F32.leb, SFltb, SFleb.
  destruct (SFcompare x y) as [[| |] |]; intros H; try reflexivity; discriminate H.
Qed.

Lemma not_ltb_leb (x y : float) :
  F32.is_nan x = false -> F32.is_nan y = false ->
  F32.ltb x y = false -> F32.leb y x = true.
Proof.
  unfold F32.ltb, F32.leb, SFltb, SFleb, SFcompare.
  destruct x as [[|] | [|] | | [|] mx ex];
    destruct y as [[|] | [|] | | [|] my ey];
    intros Hx Hy H; try reflexivity; try discriminate; float_order.
Qed.

(** On the Windows backend the maximum is kept in a member of its own. *)

Lemma WindowsCPU_record_highest (usage : float) (s : WindowsCPU.t) :
  F32.is_nan usage = false ->
  F32.is_nan (WindowsCPU.highest_usage_ s) = false ->
  let s' := snd (WindowsCPU.record usage s) in
  F32.is_nan (WindowsCPU.highest_usage_ s') = false /\
  F32.leb (WindowsCPU.highest_usage_ s) (WindowsCPU.highest_usage_ s') = true /\
  F32.leb usage (WindowsCPU.highest_usage_ s') = true.
Proof.
  intros Hu Hh. unfold WindowsCPU.record, modify. cbn [snd WindowsCPU.highest_usage_].
  destruct (F32.ltb (WindowsCPU.highest_usage_ s) usage) eqn:E.
  - split; [exact Hu |]. split; [apply ltb_leb; exact E | apply leb_refl; exact Hu].
  - split; [exact Hh |]. split; [apply leb_refl; exact Hh |].
    apply not_ltb_leb; assumption.
Qed.

(** The highest usage of the Windows backend never decreases and
    dominates every sample recorded since construction, however many of
    them have left the history. *)
Lemma WindowsCPU_highest_is_all_time_max (samples : list float) (s : WindowsCPU.t) :
  Forall (fun u => F32.is_nan u = false) samples ->
  F32.is_nan (WindowsCPU.highest_usage_ s) = false ->
  let s' := WindowsCPU_record_all samples s in
  F32.is_nan (WindowsCPU.highest_usage_ s') = false /\
  F32.leb (WindowsCPU.highest_usage_ s) (WindowsCPU.highest_usage_ s') = true /\
  Forall (fun u => F32.leb u (WindowsCPU.highest_usage_ s') = true) samples.
Proof.
  cbv zeta. intros Hs. revert s.
  induction Hs as [| u samples Hu Hs IH]; intros s Hh; simpl.
  - split; [exact Hh |]. split; [apply leb_refl; exact Hh | constructor].
  - destruct (WindowsCPU_record_highest u s Hu Hh) as (Hn & Hmono & Hdom).
    destruct (IH (snd (WindowsCPU.record u s)) Hn) as (Hn' & Hmono' & Hall).
    split; [exact Hn' |]. split; [eapply leb_trans; eassumption |].
    constructor; [eapply leb_trans; eassumption | exact Hall].
Qed.

Example WindowsCPU_highest_survives_eviction :
  let samples := F32.of_Z 100 :: repeat F32.zero 100 in
  let s := WindowsCPU_record_all samples
             (WindowsCPU.WindowsCPU (WindowsCPU.mkFILETIME 0 0)
                (WindowsCPU.mkFILETIME 0 0) (WindowsCPU.mkFILETIME 0 0)) in
  WindowsCPU.usage_history_ s = repeat F32.zero 100 /\
  fst (WindowsCPU.getHighestUsage s) = F32.of_Z 100.
Proof. vm_compute. split; reflexivity. Qed.

(** C1. On the Linux backend the highest usage is recomputed from the
    100-sample window, so it forgets a peak once that sample is evicted:
    a first second at 100% followed by idle seconds gives a highest usage
    of 100 after 100 ticks and of 0 after 101 ticks, below both its former
    value and a sample that was recorded. *)
Theorem LinuxCPU_highest_forgets_evicted_peak :
  let s0 := LinuxCPU.LinuxCPU None in
  fst (LinuxCPU.getTotalUsage (Some [100; 0; 0; 0; 0]) s0) = F32.of_Z 100 /\
  fst (LinuxCPU.getHighestUsage (LinuxCPU_poll (busy_then_idle 100) s0))
  = F32.of_Z 100 /\
  fst (LinuxCPU.getHighestUsage (LinuxCPU_poll (busy_then_idle 101) s0))
  = F32.zero /\
  F32.ltb F32.zero (F32.of_Z 100) = true.
Proof. vm_compute. repeat split. Qed.

(** ** CPU usage from counter deltas *)

Lemma LinuxCPU_readCPUStat_some (stats : list Z) :
  (5 <= List.length stats)%nat ->
  LinuxCPU.readCPUStat (Some stats) = Some stats /\
  (List.length stats <? 5)%nat = false.
Proof.
  intros H. split.
  - destruct stats; [simpl in H; lia | reflexivity].
  - apply Nat.ltb_ge. exact H.
Qed.

Lemma LinuxCPU_getTotalUsage_baseline (s : LinuxCPU.t) (stats : list Z) :
  (5 <= List.length stats)%nat ->
  let s1 := snd (LinuxCPU.getTotalUsage (Some stats) s) in
  LinuxCPU.prev_total_ s1 = LinuxCPU.total_of stats /\
  LinuxCPU.prev_idle_ s1 = LinuxCPU.idle_of stats.
Proof.
  intros H. destruct (LinuxCPU_readCPUStat_some stats H) as [E1 E2].
  unfold LinuxCPU.getTotalUsage. rewrite E1, E2.
  destruct (_ =? 0); simpl; auto.
Qed.

(** C8. A tick of the Linux CPU sampler measures against the counters of
    the tick before it: after a tick that read [stats1], a tick that reads
    [stats2] returns ((dtotal - didle) / dtotal) * 100 in single precision,
    where dtotal and didle are the differences of the total and idle
    counters of the two readings. With counters (idle 100, total 200)
    followed by (idle 150, total 300) the result is exactly 50. *)
Theorem LinuxCPU_usage_is_delta_based
    (s : LinuxCPU.t) (stats1 stats2 : list Z) (h : list float) :
  (5 <= List.length stats1)%nat ->
  (5 <= List.length stats2)%nat ->
  let s1 := snd (LinuxCPU.getTotalUsage (Some stats1) s) in
  let delta_total := wrap64 (LinuxCPU.total_of stats2 - LinuxCPU.total_of stats1) in
  let delta_idle := wrap64 (LinuxCPU.idle_of stats2 - LinuxCPU.idle_of stats1) in
  delta_total <> 0 ->
  fst (LinuxCPU.getTotalUsage (Some stats2) s1)
  = F32.mul (F32.div (F32.of_Z (wrap64 (delta_total - delta_idle)))
                     (F32.of_Z delta_total))
            (F32.of_Z 100)
  /\ fst (LinuxCPU.getTotalUsage (Some [100; 0; 50; 150; 0]) (LinuxCPU.mk 200 100 h))
     = F32.of_Z 50.
Proof.
  intros H1 H2 s1 delta_total delta_idle Hnz. split.
  - destruct (LinuxCPU_getTotalUsage_baseline s stats1 H1) as [Et Ei].
    fold s1 in Et, Ei.
    destruct (LinuxCPU_readCPUStat_some stats2 H2) as [E1 E2].
    unfold LinuxCPU.getTotalUsage. rewrite E1, E2, Et, Ei.
    fold delta_total. fold delta_idle.
    destruct (Z.eqb_spec delta_total 0) as [E | _]; [contradiction | reflexivity].
  - reflexivity.
Qed.

Lemma LinuxCPU_usage_is_delta_based_witness :
  fst (LinuxCPU.getTotalUsage (Some [100; 0; 50; 150; 0])
         (snd (LinuxCPU.getTotalUsage (Some [50; 0; 50; 100; 0])
                 (LinuxCPU.LinuxCPU None))))
  = F32.of_Z 50.
Proof.
  refine (eq_trans
    (proj1 (LinuxCPU_usage_is_delta_based (LinuxCPU.LinuxCPU None)
              [50; 0; 50; 100; 0] [100; 0; 50; 150; 0] [] _ _ _)) _).
  - simpl. lia.
  - simpl. lia.
  - vm_compute. discriminate.
  - vm_compute. reflexivity.
Defined.

(** The same scenario on the Windows backend, whose total is kernel plus
    user time. *)
Example WindowsCPU_delta_scenario :
  fst (WindowsCPU.calculateCPUUsage
         (Some (WindowsCPU.mkFILETIME 150 0, WindowsCPU.mkFILETIME 200 0,
                WindowsCPU.mkFILETIME 100 0))
         (WindowsCPU.mk [] F32.zero F32.zero 100 150 50))
  = F32.of_Z 50.
Proof. vm_compute. reflexivity. Qed.

(** ** Ticks without elapsed CPU time *)

(** Without its guard the Linux formula would produce a NaN. *)
Example unguarded_zero_delta_is_nan :
  F32.is_nan (F32.mul (F32.div (F32.of_Z 0) (F32.of_Z 0)) (F32.of_Z 100)) = true.
Proof. reflexivity. Qed.

(** C9 (as stated, refuted on the Windows backend). A Windows tick whose
    kernel and user times did not move still appends a sample to the usage
    history. *)
Lemma WindowsCPU_zero_delta_tick_records :
  let t_idle := WindowsCPU.mkFILETIME 100 0 in
  let t_kernel := WindowsCPU.mkFILETIME 150 0 in
  let t_user := WindowsCPU.mkFILETIME 50 0 in
  let s := WindowsCPU.WindowsCPU t_idle t_kernel t_user in
  let s' := snd (WindowsCPU.updateLoop (Some (t_idle, t_kernel, t_user)) s) in
  wrap64 (wrap64 (WindowsCPU.fileTimeToInt64 t_kernel - WindowsCPU.prev_kernel_time_ s)
          + wrap64 (WindowsCPU.fileTimeToInt64 t_user - WindowsCPU.prev_user_time_ s))
  = 0 /\
  WindowsCPU.usage_history_ s = [] /\
  WindowsCPU.usage_history_ s' = [F32.zero] /\
  WindowsCPU.usage_history_ s' <> WindowsCPU.usage_history_ s.
Proof. vm_compute. repeat split. discriminate. Qed.

(** C9 (amended). When the total did not move, the Linux tick returns +0
    (a finite number), keeps its usage history and only moves its baseline;
    the Windows computation returns +0 without dividing and without
    touching the history, and the update loop then records that 0 like any
    other sample. *)
Theorem zero_delta_tick
    (ls : LinuxCPU.t) (stats : list Z)
    (ws : WindowsCPU.t) (idleTime kernelTime userTime : WindowsCPU.FILETIME) :
  (5 <= List.length stats)%nat ->
  wrap64 (LinuxCPU.total_of stats - LinuxCPU.prev_total_ ls) = 0 ->
  wrap64 (wrap64 (WindowsCPU.fileTimeToInt64 kernelTime - WindowsCPU.prev_kernel_time_ ws)
          + wrap64 (WindowsCPU.fileTimeToInt64 userTime - WindowsCPU.prev_user_time_ ws))
  = 0 ->
  let times := Some (idleTime, kernelTime, userTime) in
  (LinuxCPU.getTotalUsage (Some stats) ls
   = (F32.zero,
      LinuxCPU.mk (LinuxCPU.total_of stats) (LinuxCPU.idle_of stats)
                  (LinuxCPU.usage_history_ ls))) /\
  F32.is_finite (fst (LinuxCPU.getTotalUsage (Some stats) ls)) = true /\
  fst (WindowsCPU.calculateCPUUsage times ws) = F32.zero /\
  WindowsCPU.usage_history_ (snd (WindowsCPU.calculateCPUUsage times ws))
  = WindowsCPU.usage_history_ ws /\
  WindowsCPU.usage_history_ (snd (WindowsCPU.updateLoop times ws))
  = History.push_history 100 (WindowsCPU.usage_history_ ws) F32.zero /\
  WindowsCPU.current_usage_ (snd (WindowsCPU.updateLoop times ws)) = F32.zero.
Proof.
  intros Hlen Hl Hw times.
  destruct (LinuxCPU_readCPUStat_some stats Hlen) as [E1 E2].
  assert (EL : LinuxCPU.getTotalUsage (Some stats) ls
               = (F32.zero,
                  LinuxCPU.mk (LinuxCPU.total_of stats) (LinuxCPU.idle_of stats)
                              (LinuxCPU.usage_history_ ls))).
  { unfold LinuxCPU.getTotalUsage. rewrite E1, E2, Hl. reflexivity. }
  assert (EW : WindowsCPU.calculateCPUUsage times ws
               = (F32.zero,
                  WindowsCPU.mk (WindowsCPU.usage_history_ ws)
                    (WindowsCPU.highest_usage_ ws) (WindowsCPU.current_usage_ ws)
                    (WindowsCPU.fileTimeToInt64 idleTime)
                    (WindowsCPU.fileTimeToInt64 kernelTime)
                    (WindowsCPU.fileTimeToInt64 userTime))).
  { unfold WindowsCPU.calculateCPUUsage, times. rewrite Hw. reflexivity. }
  refine (conj EL (conj _ (conj _ (conj _ (conj _ _))))).
  - rewrite EL. reflexivity.
  - rewrite EW. reflexivity.
  - rewrite EW. reflexivity.
  - rewrite WindowsCPU_updateLoop_history, EW. reflexivity.
  - unfold WindowsCPU.updateLoop, bind. rewrite EW. reflexivity.
Qed.

Lemma zero_delta_tick_witness :
  LinuxCPU.getTotalUsage (Some [100; 0; 50; 150; 0]) (LinuxCPU.mk 300 150 [F32.of_Z 50])
  = (F32.zero, LinuxCPU.mk 300 150 [F32.of_Z 50]).
Proof.
  refine (proj1 (zero_delta_tick (LinuxCPU.mk 300 150 [F32.of_Z 50])
                   [100; 0; 50; 150; 0]
                   (WindowsCPU.mk [] F32.zero F32.zero 100 150 50)
                   (WindowsCPU.mkFILETIME 120 0) (WindowsCPU.mkFILETIME 150 0)
                   (WindowsCPU.mkFILETIME 50 0) _ _ _)).
  - simpl. lia.
  - vm_compute. reflexivity.
  - vm_compute. reflexivity.
Defined.

(** ** The network estimator *)

(** C10. The Linux backend reports a total bandwidth of 1000, whatever the
    state of the estimator, and does not touch that state. *)
Theorem LinuxNetwork_getTotalBandwidth_constant (s : LinuxNetwork.t) :
  LinuxNetwork.getTotalBandwidth s = (F32.of_Z 1000, s).
Proof. reflexivity. Qed.

(** C5. A rate tick one second after the last one, with 3,145,728 bytes
    received and none sent, sets the download rate to exactly 3 MB/s and
    the upload rate to 0, and clears both counters; a further tick one
    second later, with no frame captured in between, reports 0 for both. *)
Theorem rate_tick_three_megabytes (s : LinuxNetwork.t) :
  LinuxNetwork.bytes_received s = 3145728 ->
  LinuxNetwork.bytes_sent s = 0 ->
  let t1 := LinuxNetwork.last_update_time s + 10 ^ 9 in
  let s1 := snd (LinuxNetwork.updateRatesPeriodically t1 s) in
  let s2 := snd (LinuxNetwork.updateRatesPeriodically (t1 + 10 ^ 9) s1) in
  LinuxNetwork.download_rate s1 = F32.of_Z 3 /\
  LinuxNetwork.upload_rate s1 = F32.zero /\
  LinuxNetwork.bytes_received s1 = 0 /\
  LinuxNetwork.bytes_sent s1 = 0 /\
  LinuxNetwork.last_update_time s1 = t1 /\
  LinuxNetwork.download_rate s2 = F32.zero /\
  LinuxNetwork.upload_rate s2 = F32.zero.
Proof.
  intros Hr Hs t1 s1 s2.
  assert (E1 : s1 = LinuxNetwork.mk 0 0 t1 F32.zero (F32.of_Z 3)
                 (if F32.ltb (LinuxNetwork.highest_upload_rate s) F32.zero
                  then F32.zero else LinuxNetwork.highest_upload_rate s)
                 (if F32.ltb (LinuxNetwork.highest_download_rate s) (F32.of_Z 3)
                  then F32.of_Z 3 else LinuxNetwork.highest_download_rate s)
                 (LinuxNetwork.interface_name s) (LinuxNetwork.mac_address s)).
  { unfold s1, LinuxNetwork.updateRatesPeriodically, modify, snd.
    replace (t1 - LinuxNetwork.last_update_time s) with (10 ^ 9) by (unfold t1; lia).
    rewrite Hr, Hs. reflexivity. }
  assert (E2 : LinuxNetwork.download_rate s2 = F32.zero /\
               LinuxNetwork.upload_rate s2 = F32.zero).
  { unfold s2, LinuxNetwork.updateRatesPeriodically, modify, snd.
    rewrite E1. cbn [LinuxNetwork.last_update_time LinuxNetwork.bytes_sent
                     LinuxNetwork.bytes_received].
    replace (t1 + 10 ^ 9 - t1) with (10 ^ 9) by lia.
    split; reflexivity. }
  rewrite E1. cbn [LinuxNetwork.download_rate LinuxNetwork.upload_rate
                   LinuxNetwork.bytes_received LinuxNetwork.bytes_sent
                   LinuxNetwork.last_update_time].
  tauto.
Qed.

Lemma rate_tick_three_megabytes_witness :
  LinuxNetwork.download_rate
    (snd (LinuxNetwork.updateRatesPeriodically (10 ^ 9)
            (LinuxNetwork.mk 3145728 0 0 F32.zero F32.zero F32.zero F32.zero
               "eth0" "00:11:22:33:44:55")))
  = F32.of_Z 3.
Proof.
  refine (proj1 (rate_tick_three_megabytes
                   (LinuxNetwork.mk 3145728 0 0 F32.zero F32.zero F32.zero F32.zero
                      "eth0" "00:11:22:33:44:55") _ _)).
  - reflexivity.
  - reflexivity.
Defined.

(** Formatting an address loses nothing. *)

Lemma unhex2_hex2 (b : Byte.byte) : unhex2 (LinuxNetwork.hex2 b) = Some b.
Proof. destruct b; reflexivity. Qed.

Lemma hex2_inj (b b' : Byte.byte) :
  LinuxNetwork.hex2 b = LinuxNetwork.hex2 b' -> b = b'.
Proof.
  intros H. apply (f_equal unhex2) in H. rewrite !unhex2_hex2 in H.
  congruence.
Qed.

Lemma hex2_shape (b : Byte.byte) (rest : string) :
  (LinuxNetwork.hex2 b ++ rest)%string
  = String (LinuxNetwork.hex_digit (Byte.to_N b / 16))
      (String (LinuxNetwork.hex_digit (Byte.to_N b mod 16)) rest).
Proof. reflexivity. Qed.

Lemma hex2_eq (b : Byte.byte) :
  LinuxNetwork.hex2 b
  = String (LinuxNetwork.hex_digit (Byte.to_N b / 16))
      (String (LinuxNetwork.hex_digit (Byte.to_N b mod 16)) EmptyString).
Proof. reflexivity. Qed.

Lemma format_mac_inj (a a' : LinuxNetwork.ether_addr) :
  LinuxNetwork.format_mac a = LinuxNetwork.format_mac a' -> a = a'.
Proof.
  destruct a as [a0 a1 a2 a3 a4 a5], a' as [b0 b1 b2 b3 b4 b5].
  unfold LinuxNetwork.format_mac.
  cbn [LinuxNetwork.o0 LinuxNetwork.o1 LinuxNetwork.o2 LinuxNetwork.o3
       LinuxNetwork.o4 LinuxNetwork.o5].
  rewrite !hex2_shape. cbn [append]. rewrite !hex2_eq.
  intros H. injection H as H0 H0' H1 H1' H2 H2' H3 H3' H4 H4' H5 H5'.
  f_equal; apply hex2_inj; rewrite !hex2_eq; congruence.
Qed.

(** When [mac_address] holds the formatted address [own], the callback
    compares the six bytes of the source address with [own]. *)
Lemma packetHandler_compares_addresses
    (network : LinuxNetwork.t) (own : LinuxNetwork.ether_addr)
    (len : Z) (eth_header : LinuxNetwork.ether_header) :
  LinuxNetwork.mac_address network = LinuxNetwork.format_mac own ->
  let s' := snd (LinuxNetwork.packetHandler len eth_header network) in
  (LinuxNetwork.ether_shost eth_header = own ->
   LinuxNetwork.bytes_sent s' = wrap64 (LinuxNetwork.bytes_sent network + len) /\
   LinuxNetwork.bytes_received s' = LinuxNetwork.bytes_received network) /\
  (LinuxNetwork.ether_shost eth_header <> own ->
   LinuxNetwork.bytes_received s'
   = wrap64 (LinuxNetwork.bytes_received network + len) /\
   LinuxNetwork.bytes_sent s' = LinuxNetwork.bytes_sent network).
Proof.
  intros Hmac s'. unfold s', LinuxNetwork.packetHandler, modify, snd.
  rewrite Hmac.
  destruct (String.eqb_spec (LinuxNetwork.format_mac (LinuxNetwork.ether_shost eth_header))
                            (LinuxNetwork.format_mac own)) as [E | N].
  - apply format_mac_inj in E. split; [intros _; split; reflexivity |].
    intros Hne. contradiction.
  - split; [| intros _; split; reflexivity].
    intros Heq. exfalso. apply N. rewrite Heq. reflexivity.
Qed.

(** When the interface's address could not be resolved, [mac_address] is
    empty and every frame counts as received. *)
Lemma packetHandler_unresolved_address
    (network : LinuxNetwork.t) (len : Z) (eth_header : LinuxNetwork.ether_header) :
  LinuxNetwork.mac_address network = EmptyString ->
  let s' := snd (LinuxNetwork.packetHandler len eth_header network) in
  LinuxNetwork.bytes_received s'
  = wrap64 (LinuxNetwork.bytes_received network + len) /\
  LinuxNetwork.bytes_sent s' = LinuxNetwork.bytes_sent network.
Proof.
  intros Hmac. unfold LinuxNetwork.packetHandler, modify. cbn [snd].
  rewrite Hmac. unfold LinuxNetwork.format_mac. rewrite hex2_shape.
  cbn [String.eqb]. split; reflexivity.
Qed.

(** Neither thread of the estimator ever assigns [mac_address]. *)
Lemma LinuxNetwork_step_mac_address (e : capture_event) (s : LinuxNetwork.t) :
  LinuxNetwork.mac_address (LinuxNetwork_step s e) = LinuxNetwork.mac_address s.
Proof.
  destruct e as [len h | now]; cbn [LinuxNetwork_step].
  - unfold LinuxNetwork.packetHandler, modify. cbn [snd].
    destruct (String.eqb _ _); reflexivity.
  - unfold LinuxNetwork.updateRatesPeriodically, modify. cbn [snd].
    destruct (0 <? _); reflexivity.
Qed.

Lemma LinuxNetwork_run_mac_address (es : list capture_event) (s : LinuxNetwork.t) :
  LinuxNetwork.mac_address (LinuxNetwork_run es s) = LinuxNetwork.mac_address s.
Proof.
  unfold LinuxNetwork_run. revert s.
  induction es as [| e es IH]; intros s; simpl; [reflexivity |].
  rewrite IH. apply LinuxNetwork_step_mac_address.
Qed.

(** C4 (as stated, refuted). The constructor starts the capture also when
    [getInterfaceMAC] fails. [mac_address] is then empty, and a frame sent
    from the interface's own address, here 00:11:22:33:44:55, is added to
    the received counter; the sent counter stays 0. *)
Lemma packetHandler_counts_own_frame_as_received :
  let own := LinuxNetwork.mkAddr Byte.x00 Byte.x11 Byte.x22 Byte.x33 Byte.x44 Byte.x55 in
  let other := LinuxNetwork.mkAddr Byte.xff Byte.xff Byte.xff Byte.xff Byte.xff Byte.xff in
  let network := LinuxNetwork.LinuxNetwork "eth0" None true 0 in
  let s' := snd (LinuxNetwork.packetHandler 1500 (LinuxNetwork.mkHeader other own 2048)
                   network) in
  LinuxNetwork.getInterfaceMAC None = (false, EmptyString) /\
  LinuxNetwork.mac_address network = EmptyString /\
  LinuxNetwork.bytes_sent s' = 0 /\
  LinuxNetwork.bytes_received s' = 1500.
Proof. vm_compute. repeat split. Qed.

(** C4 (amended). The address with which the capture callback compares is
    the one that [getInterfaceMAC] resolved when the estimator was built,
    and nothing changes it afterwards. If that resolution succeeded, then
    at any later moment a captured frame adds its length to the sent
    counter when its source address is the interface's own address, and to
    the received counter for any other source address, the other counter
    being left alone (the counters are 64-bit and wrap around). If the
    resolution failed, every captured frame adds its length to the
    received counter, whatever its source address. *)
Theorem packetHandler_classifies_by_source
    (primary_interface : string) (hw : option LinuxNetwork.ether_addr)
    (capture_started : bool) (now : Z) (es : list capture_event)
    (len : Z) (eth_header : LinuxNetwork.ether_header) :
  let network :=
    LinuxNetwork_run es
      (LinuxNetwork.LinuxNetwork primary_interface hw capture_started now) in
  let s' := snd (LinuxNetwork.packetHandler len eth_header network) in
  match hw with
  | Some own =>
      (LinuxNetwork.ether_shost eth_header = own ->
       LinuxNetwork.bytes_sent s' = wrap64 (LinuxNetwork.bytes_sent network + len) /\
       LinuxNetwork.bytes_received s' = LinuxNetwork.bytes_received network) /\
      (LinuxNetwork.ether_shost eth_header <> own ->
       LinuxNetwork.bytes_received s'
       = wrap64 (LinuxNetwork.bytes_received network + len) /\
       LinuxNetwork.bytes_sent s' = LinuxNetwork.bytes_sent network)
  | None =>
      LinuxNetwork.bytes_received s'
      = wrap64 (LinuxNetwork.bytes_received network + len) /\
      LinuxNetwork.bytes_sent s' = LinuxNetwork.bytes_sent network
  end.
Proof.
  intros network s'.
  assert (Hmac : LinuxNetwork.mac_address network
                 = snd (LinuxNetwork.getInterfaceMAC hw)).
  { unfold network. rewrite LinuxNetwork_run_mac_address. reflexivity. }
  destruct hw as [own |]; cbn [LinuxNetwork.getInterfaceMAC snd] in Hmac.
  - exact (packetHandler_compares_addresses network own len eth_header Hmac).
  - exact (packetHandler_unresolved_address network len eth_header Hmac).
Qed.

(** After a first window of traffic, on an interface whose address was
    resolved: a frame from that address is counted as sent, a frame to it
    as received. *)
Lemma packetHandler_classifies_by_source_witness :
  let own := LinuxNetwork.mkAddr Byte.x00 Byte.x11 Byte.x22 Byte.x33 Byte.x44 Byte.x55 in
  let other := LinuxNetwork.mkAddr Byte.xff Byte.xff Byte.xff Byte.xff Byte.xff Byte.xff in
  let es := [Frame 60 (LinuxNetwork.mkHeader own other 2048);
             RateTick (10 ^ 9);
             Frame 100 (LinuxNetwork.mkHeader other own 2048)] in
  let network := LinuxNetwork_run es (LinuxNetwork.LinuxNetwork "eth0" (Some own) true 0) in
  (LinuxNetwork.bytes_sent network = 100 /\ LinuxNetwork.bytes_received network = 0) /\
  LinuxNetwork.bytes_sent
    (snd (LinuxNetwork.packetHandler 1500 (LinuxNetwork.mkHeader other own 2048)
            network)) = wrap64 (LinuxNetwork.bytes_sent network + 1500) /\
  LinuxNetwork.bytes_received
    (snd (LinuxNetwork.packetHandler 60 (LinuxNetwork.mkHeader own other 2048)
            network)) = wrap64 (LinuxNetwork.bytes_received network + 60).
Proof.
  intros own other es network.
  split; [vm_compute; split; reflexivity |]. split.
  - refine (proj1 (proj1 (packetHandler_classifies_by_source "eth0" (Some own) true 0 es
                            1500 (LinuxNetwork.mkHeader other own 2048)) _)).
    reflexivity.
  - refine (proj1 (proj2 (packetHandler_classifies_by_source "eth0" (Some own) true 0 es
                            60 (LinuxNetwork.mkHeader own other 2048)) _)).
    discriminate.
Defined.

(** ** Queries and the state of the samplers *)

(** C2 (as stated, refuted). Asking the Linux CPU sampler for the total
    usage changes that sampler: the call itself moves the baseline
    counters and records a sample. *)
Lemma LinuxCPU_getTotalUsage_changes_state :
  let q := LinuxCPU_getTotalUsage (Some [150; 0; 50; 100; 0; 0; 0]) in
  LinuxCPU.usage_history_ (linux_cpu initial_system) = [] /\
  LinuxCPU.usage_history_ (linux_cpu (snd (call q initial_system))) = [F32.of_Z 50] /\
  snd (call q initial_system) <> initial_system.
Proof.
  split; [reflexivity |]. split; [vm_compute; reflexivity |].
  intros H.
  apply (f_equal (fun sys => LinuxCPU.usage_history_ (linux_cpu sys))) in H.
  vm_compute in H. discriminate.
Qed.

(** C2 (amended). The queries that only copy members out, or only read
    the operating system, leave every sampler as it was. (The remaining
    five, [LinuxCPU::getTotalUsage], [LinuxMemory::getTotalUsage],
    [getRemainingRAM], [getMostUsingProcess] and
    [WindowsMemory::getTotalUsage], do their sampling in the caller's
    thread.) *)
Theorem read_only_queries_leave_state (q : query) (sys : System) :
  read_only q = true ->
  snd (call q sys) = sys.
Proof. apply call_read_only. Qed.

Lemma read_only_queries_leave_state_witness :
  snd (call LinuxCPU_getHighestUsage initial_system) = initial_system /\
  snd (call WindowsCPU_getTotalUsage initial_system) = initial_system /\
  snd (call LinuxNetwork_getDownloadRate initial_system) = initial_system.
Proof.
  split; [| split].
  - apply (read_only_queries_leave_state LinuxCPU_getHighestUsage). reflexivity.
  - apply (read_only_queries_leave_state WindowsCPU_getTotalUsage). reflexivity.
  - apply (read_only_queries_leave_state LinuxNetwork_getDownloadRate). reflexivity.
Defined.

(** Each of the five other queries does change its sampler on some call. *)
Lemma polling_queries_change_state :
  snd (call (LinuxCPU_getTotalUsage (Some [150; 0; 50; 100; 0; 0; 0])) initial_system)
    <> initial_system /\
  snd (call (LinuxMemory_getTotalUsage
               (Some [("MemTotal:"%string, 8000000);
                      ("MemAvailable:"%string, 4000000)])) initial_system)
    <> initial_system /\
  snd (call (LinuxMemory_getRemainingRAM
               (Some [("MemTotal:"%string, 8000000);
                      ("MemAvailable:"%string, 2000000)])) initial_system)
    <> initial_system /\
  snd (call (LinuxMemory_getMostUsingProcess (6 * 10 ^ 9)
               (Some [LinuxMemory.mkDirent true "1" (Some ("init"%string, 1024))])
               (fun m => m)) initial_system)
    <> initial_system /\
  snd (call (WindowsMemory_getTotalUsage (Some (WindowsMemory.mkStatus 40 1048576)))
            initial_system)
    <> initial_system.
Proof.
  repeat apply conj; intros H.
  - apply (f_equal (fun sys => LinuxCPU.usage_history_ (linux_cpu sys))) in H.
    vm_compute in H. discriminate.
  - apply (f_equal (fun sys => List.length (LinuxMemory.usage_history_ (linux_memory sys)))) in H.
    vm_compute in H. discriminate.
  - apply (f_equal (fun sys => LinuxMemory.mem_available_ (linux_memory sys))) in H.
    vm_compute in H. discriminate.
  - apply (f_equal (fun sys => LinuxMemory.last_process_update_ (linux_memory sys))) in H.
    vm_compute in H. discriminate.
  - apply (f_equal (fun sys => WindowsMemory.usage_history_ (windows_memory sys))) in H.
    vm_compute in H. discriminate.
Qed.

(** ** Asking twice *)

Lemma last_push_history (h : list float) (x d : float) :
  last (History.push_history 100 h x) d = x.
Proof.
  unfold History.push_history.
  destruct (100 <? List.length (h ++ [x]))%nat eqn:E.
  - destruct h as [| a h']; [discriminate E |].
    simpl. apply last_last.
  - apply last_last.
Qed.

Lemma read_line_mem_fields (s s' : LinuxMemory.t) (line : string * Z) :
  mem_fields s = mem_fields s' ->
  mem_fields (LinuxMemory.read_line s line)
  = mem_fields (LinuxMemory.read_line s' line).
Proof.
  unfold mem_fields. intros H. injection H as H1 H2 H3 H4 H5.
  destruct line as [key v]. unfold LinuxMemory.read_line.
  repeat (destruct (String.eqb key _); [simpl; congruence |]).
  congruence.
Qed.

Lemma read_lines_mem_fields (lines : list (string * Z)) (s s' : LinuxMemory.t) :
  mem_fields s = mem_fields s' ->
  mem_fields (fold_left LinuxMemory.read_line lines s)
  = mem_fields (fold_left LinuxMemory.read_line lines s').
Proof.
  revert s s'. induction lines as [| l lines IH]; intros s s' H; simpl.
  - exact H.
  - apply IH, read_line_mem_fields, H.
Qed.

(** What [readMemInfo] reports and reads depends on the file alone. *)
Lemma readMemInfo_depends_on_file (lines : list (string * Z)) (s s' : LinuxMemory.t) :
  fst (LinuxMemory.readMemInfo (Some lines) s)
  = fst (LinuxMemory.readMemInfo (Some lines) s') /\
  mem_fields (snd (LinuxMemory.readMemInfo (Some lines) s))
  = mem_fields (snd (LinuxMemory.readMemInfo (Some lines) s')).
Proof.
  unfold LinuxMemory.readMemInfo.
  pose proof (read_lines_mem_fields lines
                (LinuxMemory.set_mem s 0 0 0 0 0)
                (LinuxMemory.set_mem s' 0 0 0 0 0) eq_refl) as H.
  set (r := fold_left LinuxMemory.read_line lines (LinuxMemory.set_mem s 0 0 0 0 0)) in *.
  set (r' := fold_left LinuxMemory.read_line lines (LinuxMemory.set_mem s' 0 0 0 0 0)) in *.
  assert (Ht : LinuxMemory.mem_total_ r = LinuxMemory.mem_total_ r')
    by (unfold mem_fields in H; congruence).
  assert (Ha : LinuxMemory.mem_available_ r = LinuxMemory.mem_available_ r')
    by (unfold mem_fields in H; congruence).
  rewrite Ht, Ha.
  destruct (_ || _); simpl; auto.
Qed.

Lemma memory_usage_mem_fields (s s' : LinuxMemory.t) :
  mem_fields s = mem_fields s' -> memory_usage s = memory_usage s'.
Proof.
  unfold mem_fields, memory_usage. intros H. injection H as H1 H2 _ _ _.
  rewrite H1, H2. reflexivity.
Qed.

Lemma LinuxMemory_getTotalUsage_value (f : LinuxMemory.meminfo) (s : LinuxMemory.t) :
  fst (LinuxMemory.getTotalUsage f s)
  = if fst (LinuxMemory.readMemInfo f s)
    then memory_usage (snd (LinuxMemory.readMemInfo f s))
    else F32.zero.
Proof.
  unfold LinuxMemory.getTotalUsage, bind.
  destruct (LinuxMemory.readMemInfo f s) as [[|] s1]; simpl; [| reflexivity].
  apply last_push_history.
Qed.

Lemma LinuxMemory_getTotalUsage_twice (f : LinuxMemory.meminfo) (s s' : LinuxMemory.t) :
  fst (LinuxMemory.getTotalUsage f s') = fst (LinuxMemory.getTotalUsage f s).
Proof.
  rewrite !LinuxMemory_getTotalUsage_value.
  destruct f as [lines |]; [| reflexivity].
  destruct (readMemInfo_depends_on_file lines s' s) as [E1 E2].
  rewrite E1. rewrite (memory_usage_mem_fields _ _ E2). reflexivity.
Qed.

Lemma LinuxMemory_getRemainingRAM_twice (f : LinuxMemory.meminfo) (s s' : LinuxMemory.t) :
  fst (LinuxMemory.getRemainingRAM f s') = fst (LinuxMemory.getRemainingRAM f s).
Proof.
  unfold LinuxMemory.getRemainingRAM, bind, get, ret.
  destruct f as [lines |]; [| reflexivity].
  destruct (readMemInfo_depends_on_file lines s' s) as [E1 E2].
  destruct (LinuxMemory.readMemInfo (Some lines) s') as [b1 s1].
  destruct (LinuxMemory.readMemInfo (Some lines) s) as [b2 s2].
  simpl in E1, E2. subst b2. unfold mem_fields in E2.
  injection E2 as _ Ha _ _ _.
  destruct b1; simpl; [rewrite Ha |]; reflexivity.
Qed.

(** A second scan request at the same instant finds the table the first
    one left and answers from it. *)
Lemma LinuxMemory_getMostUsingProcess_twice (now : Z) (d : LinuxMemory.proc_dir)
    (order : LinuxMemory.layout) (s : LinuxMemory.t) :
  let r := LinuxMemory.getMostUsingProcess now d order s in
  LinuxMemory.getMostUsingProcess now d order (snd r) = r.
Proof.
  unfold LinuxMemory.getMostUsingProcess, bind, get, ret,
    LinuxMemory.readProcessMemoryUsage.
  destruct (now - LinuxMemory.last_process_update_ s
            <? LinuxMemory.process_update_interval_) eqn:E.
  - destruct (History.max_element _ _) eqn:Emax; cbn [snd];
      rewrite E, Emax; reflexivity.
  - destruct d as [entries |].
    + set (m := order (fold_left LinuxMemory.scan_entry entries [])).
      assert (Enow : (now - now <? LinuxMemory.process_update_interval_) = true)
        by (replace (now - now) with 0 by lia; reflexivity).
      destruct m as [| e m'] eqn:Em;
        cbn [negb LinuxMemory.set_processes LinuxMemory.process_memory_usage_
             LinuxMemory.last_process_update_ snd History.max_element];
        rewrite Enow; reflexivity.
    + cbn [snd LinuxMemory.set_processes LinuxMemory.last_process_update_].
      rewrite E. reflexivity.
Qed.

Lemma WindowsMemory_getTotalUsage_twice (st : WindowsMemory.memory_status)
    (s s' : WindowsMemory.t) :
  fst (WindowsMemory.getTotalUsage st s') = fst (WindowsMemory.getTotalUsage st s).
Proof. unfold WindowsMemory.getTotalUsage. destruct st; reflexivity. Qed.

Lemma call_twice (q : query) (sys : System) :
  is_LinuxCPU_getTotalUsage q = false ->
  fst (call q (snd (call q sys))) = fst (call q sys).
Proof.
  intros Hq. destruct (read_only q) eqn:R.
  - rewrite call_read_only by exact R. reflexivity.
  - destruct q; try discriminate R; try discriminate Hq; lift_sys;
      cbn [linux_cpu windows_cpu linux_memory windows_memory linux_network
         windows_network];
      f_equal.
    + apply LinuxMemory_getTotalUsage_twice.
    + apply LinuxMemory_getRemainingRAM_twice.
    + pose proof (LinuxMemory_getMostUsingProcess_twice now d order (linux_memory sys)) as H.
      simpl in H. rewrite H. reflexivity.
    + apply WindowsMemory_getTotalUsage_twice.
Qed.

(** What [getMostUsingProcess] does with the clock *)

Lemma readProcessMemoryUsage_throttled (now : Z) (d : LinuxMemory.proc_dir)
    (order : LinuxMemory.layout) (s : LinuxMemory.t) :
  now - LinuxMemory.last_process_update_ s < LinuxMemory.process_update_interval_ ->
  LinuxMemory.readProcessMemoryUsage now d order s = (true, s).
Proof.
  intros H. unfold LinuxMemory.readProcessMemoryUsage.
  destruct (Z.ltb_spec (now - LinuxMemory.last_process_update_ s)
                       LinuxMemory.process_update_interval_); [reflexivity | lia].
Qed.

Lemma readProcessMemoryUsage_elapsed (now : Z) (d : LinuxMemory.proc_dir)
    (order : LinuxMemory.layout) (s : LinuxMemory.t) :
  LinuxMemory.process_update_interval_ <= now - LinuxMemory.last_process_update_ s ->
  LinuxMemory.readProcessMemoryUsage now d order s
  = match d with
    | None => (false, LinuxMemory.set_processes s [] (LinuxMemory.last_process_update_ s))
    | Some entries =>
        let m := order (fold_left LinuxMemory.scan_entry entries []) in
        (negb (match m with [] => true | _ => false end),
         LinuxMemory.set_processes s m now)
    end.
Proof.
  intros H. unfold LinuxMemory.readProcessMemoryUsage.
  destruct (Z.ltb_spec (now - LinuxMemory.last_process_update_ s)
                       LinuxMemory.process_update_interval_); [lia | reflexivity].
Qed.

Lemma getMostUsingProcess_unfold (now : Z) (d : LinuxMemory.proc_dir)
    (order : LinuxMemory.layout) (s : LinuxMemory.t) :
  LinuxMemory.getMostUsingProcess now d order s
  = let r := LinuxMemory.readProcessMemoryUsage now d order s in
    (if fst r
     then match History.max_element LinuxMemory.rss_lt
                  (LinuxMemory.process_memory_usage_ (snd r)) with
          | Some max_it =>
              LinuxMemory.Top (fst max_it)
                (F32.div (F32.of_Z (snd max_it)) (F32.of_Z 1024))
          | None => LinuxMemory.NA
          end
     else LinuxMemory.NA,
     snd r).
Proof.
  unfold LinuxMemory.getMostUsingProcess, bind, get, ret. cbv zeta.
  destruct (LinuxMemory.readProcessMemoryUsage now d order s) as [[|] s1];
    cbn [fst snd]; [| reflexivity].
  destruct (History.max_element _ _); reflexivity.
Qed.

Lemma readProcessMemoryUsage_false (now : Z) (d : LinuxMemory.proc_dir)
    (order : LinuxMemory.layout) (s : LinuxMemory.t) :
  fst (LinuxMemory.readProcessMemoryUsage now d order s) = false ->
  LinuxMemory.process_memory_usage_
    (snd (LinuxMemory.readProcessMemoryUsage now d order s)) = [].
Proof.
  unfold LinuxMemory.readProcessMemoryUsage.
  destruct (_ <? _); [discriminate |].
  destruct d as [entries |]; [| reflexivity].
  destruct (order _); [reflexivity | discriminate].
Qed.

(** The answer is always the one computed from the table that the call
    leaves behind. *)
Lemma getMostUsingProcess_answer (now : Z) (d : LinuxMemory.proc_dir)
    (order : LinuxMemory.layout) (s : LinuxMemory.t) :
  fst (LinuxMemory.getMostUsingProcess now d order s)
  = answer (LinuxMemory.process_memory_usage_
              (snd (LinuxMemory.getMostUsingProcess now d order s))).
Proof.
  rewrite getMostUsingProcess_unfold. cbv zeta. cbn [fst snd].
  pose proof (readProcessMemoryUsage_false now d order s) as Hfalse.
  destruct (fst (LinuxMemory.readProcessMemoryUsage now d order s)).
  - reflexivity.
  - rewrite Hfalse by reflexivity. reflexivity.
Qed.

(** While no scan is due the call answers from the table it finds and
    changes nothing. *)
Lemma getMostUsingProcess_cached (now : Z) (d : LinuxMemory.proc_dir)
    (order : LinuxMemory.layout) (s : LinuxMemory.t) :
  now - LinuxMemory.last_process_update_ s < LinuxMemory.process_update_interval_ ->
  LinuxMemory.getMostUsingProcess now d order s
  = (answer (LinuxMemory.process_memory_usage_ s), s).
Proof.
  intros H. rewrite getMostUsingProcess_unfold. cbv zeta.
  rewrite readProcessMemoryUsage_throttled by exact H. reflexivity.
Qed.

Lemma at_time_other (now : Z) (q : query) :
  is_LinuxMemory_getMostUsingProcess q = false -> at_time now q = q.
Proof. destruct q; try reflexivity. discriminate. Qed.

Lemma repeat_call_same (times : list Z) (q : query) (sys : System) :
  is_LinuxCPU_getTotalUsage q = false ->
  is_LinuxMemory_getMostUsingProcess q = false ->
  forall v, In v (repeat_call times q sys) -> v = fst (call q sys).
Proof.
  intros Hq Hm. revert sys.
  induction times as [| now times IH]; intros sys v Hin; simpl in Hin.
  - contradiction.
  - rewrite at_time_other in Hin by exact Hm.
    destruct (call q sys) as [v0 sys'] eqn:E. simpl in Hin.
    destruct Hin as [<- | Hin]; [reflexivity |].
    apply IH in Hin. rewrite Hin.
    pose proof (call_twice q sys Hq) as H2. rewrite E in H2. exact H2.
Qed.

(** Calls that each return [v0] and leave the system as it was. *)
Lemma repeat_call_fixed (times : list Z) (q : query) (sys : System) (v0 : value) :
  (forall now, In now times -> call (at_time now q) sys = (v0, sys)) ->
  forall v, In v (repeat_call times q sys) -> v = v0.
Proof.
  induction times as [| now times IH]; intros Hall v Hin; simpl in Hin.
  - contradiction.
  - rewrite (Hall now (or_introl eq_refl)) in Hin.
    destruct Hin as [<- | Hin]; [reflexivity |].
    apply IH; [| exact Hin].
    intros t Ht. apply Hall. right. exact Ht.
Qed.

Lemma call_getMostUsingProcess_cached (now : Z) (d : LinuxMemory.proc_dir)
    (order : LinuxMemory.layout) (sys : System) :
  now - LinuxMemory.last_process_update_ (linux_memory sys)
  < LinuxMemory.process_update_interval_ ->
  call (LinuxMemory_getMostUsingProcess now d order) sys
  = (VTop (answer (LinuxMemory.process_memory_usage_ (linux_memory sys))), sys).
Proof.
  intros H. unfold call. rewrite on_linux_memory_eq, fst_fmap, snd_fmap.
  rewrite getMostUsingProcess_cached by exact H.
  destruct sys; reflexivity.
Qed.

(** C3 (as stated, refuted). Two queries do not return the same value
    twice in a row although nothing they read from the files of the
    operating system has changed and no background tick intervenes. Two
    calls of [getTotalUsage] on the Linux CPU sampler return 50 and then 0:
    the first call has moved the baseline, so the second sees no elapsed
    time. Two calls of [getMostUsingProcess] on the Linux memory sampler,
    one nanosecond apart, return "N/A" and then the process "init": the
    second call comes five seconds after the sampler was built, so it is
    the one that scans [/proc]. *)
Lemma repeated_query_changes_value :
  (let sys := mkSystem (LinuxCPU.mk 200 100 []) (windows_cpu initial_system)
                (linux_memory initial_system) (windows_memory initial_system)
                (linux_network initial_system) (windows_network initial_system) in
   repeat_call [1; 2] (LinuxCPU_getTotalUsage (Some [100; 0; 50; 150; 0])) sys
   = [VFloat (F32.of_Z 50); VFloat F32.zero] /\
   VFloat (F32.of_Z 50) <> VFloat F32.zero) /\
  (let q := LinuxMemory_getMostUsingProcess 0
              (Some [LinuxMemory.mkDirent true "1" (Some ("init"%string, 1024))])
              (fun m => m) in
   LinuxMemory.last_process_update_ (linux_memory initial_system) = 0 /\
   repeat_call [4999999999; 5000000000] q initial_system
   = [VTop LinuxMemory.NA; VTop (LinuxMemory.Top "init" (F32.of_Z 1))]).
Proof.
  split.
  - split; [vm_compute; reflexivity | discriminate].
  - split; vm_compute; reflexivity.
Qed.

(** C3 (amended). With what the queries read from the operating system
    held fixed and no background tick in between, every query other than
    [LinuxCPU::getTotalUsage] returns, however many times it is called in
    a row and whenever the calls are made, the value that its first call
    returned; for [LinuxMemory::getMostUsingProcess], the only query that
    reads the clock, this holds as long as no scan of [/proc] falls due at
    a call after the first, that is, as long as each of them comes less
    than five seconds after the process table was last filled. *)
Theorem repeated_query_same_value
    (now : Z) (times : list Z) (q : query) (sys : System) (v : value) :
  is_LinuxCPU_getTotalUsage q = false ->
  (is_LinuxMemory_getMostUsingProcess q = true ->
   no_scan_due times (linux_memory (snd (call (at_time now q) sys)))) ->
  In v (repeat_call (now :: times) q sys) ->
  v = fst (call (at_time now q) sys).
Proof.
  intros Hq Hdue Hin.
  destruct (is_LinuxMemory_getMostUsingProcess q) eqn:Hm.
  - specialize (Hdue eq_refl).
    destruct q; try discriminate Hm. cbn [at_time] in *.
    cbn [repeat_call at_time] in Hin.
    pose proof (getMostUsingProcess_answer now d order (linux_memory sys)) as Hans.
    assert (Hfst : fst (call (LinuxMemory_getMostUsingProcess now d order) sys)
                   = VTop (answer (LinuxMemory.process_memory_usage_
                                     (linux_memory
                                        (snd (call (LinuxMemory_getMostUsingProcess
                                                      now d order) sys)))))).
    { unfold call. rewrite on_linux_memory_eq, fst_fmap, snd_fmap.
      cbn [fst snd linux_memory]. rewrite <- Hans. reflexivity. }
    destruct (call (LinuxMemory_getMostUsingProcess now d order) sys)
      as [v0 sys1] eqn:E.
    cbn [fst snd] in *. destruct Hin as [<- | Hin]; [reflexivity |].
    apply (repeat_call_fixed times (LinuxMemory_getMostUsingProcess now0 d order) sys1);
      [| exact Hin].
    intros t Ht. cbn [at_time]. rewrite Hfst.
    apply call_getMostUsingProcess_cached.
    unfold no_scan_due in Hdue. rewrite Forall_forall in Hdue. apply Hdue, Ht.
  - rewrite at_time_other by exact Hm.
    apply (repeat_call_same (now :: times) q sys Hq Hm). exact Hin.
Qed.

Lemma repeated_query_same_value_witness :
  let q := LinuxMemory_getMostUsingProcess 0
             (Some [LinuxMemory.mkDirent true "1" (Some ("init"%string, 1024))])
             (fun m => m) in
  nth 2 (repeat_call [5000000000; 6000000000; 9999999999] q initial_system) (VInt 0)
  = fst (call (at_time 5000000000 q) initial_system) /\
  fst (call (at_time 5000000000 q) initial_system)
  = VTop (LinuxMemory.Top "init" (F32.of_Z 1)).
Proof.
  intros q. split; [| vm_compute; reflexivity].
  apply (repeated_query_same_value 5000000000 [6000000000; 9999999999] q initial_system).
  - reflexivity.
  - intros _. unfold no_scan_due.
    apply Forall_cons; [vm_compute; reflexivity |].
    apply Forall_cons; [vm_compute; reflexivity |].
    apply Forall_nil.
  - vm_compute. right. right. left. reflexivity.
Defined.

(** ** The top memory consumer *)

Section FirstMaximum.

Context {A B : Type}.
Variable weight : B -> Z.
Variable consider : A -> option B.

(** Either the candidate survives the whole scan and nothing considered is
    heavier, or the result comes from an element that is strictly heavier
    than everything considered before it and at least as heavy as
    everything considered after it. *)
Lemma fold_improve_first_maximum (l : list A) (best : B) :
  let r := fold_left (improve weight consider) l best in
  (r = best /\
   forall a b, In a l -> consider a = Some b -> weight b <= weight best) \/
  (exists l1 a l2,
     l = (l1 ++ a :: l2)%list /\ consider a = Some r /\ weight best < weight r /\
     (forall x b, In x l1 -> consider x = Some b -> weight b < weight r) /\
     (forall x b, In x l2 -> consider x = Some b -> weight b <= weight r)).
Proof.
  cbv zeta. revert best. induction l as [| a l IH]; intros best; simpl.
  - left. split; [reflexivity | intros a b []].
  - assert (Hkeep :
      (forall b, consider a = Some b -> weight b <= weight best) ->
      (fold_left (improve weight consider) l best = best /\
       forall x b, a = x \/ In x l -> consider x = Some b ->
                   weight b <= weight best) \/
      (exists l1 a0 l2,
         a :: l = (l1 ++ a0 :: l2)%list /\
         consider a0 = Some (fold_left (improve weight consider) l best) /\
         weight best < weight (fold_left (improve weight consider) l best) /\
         (forall x b, In x l1 -> consider x = Some b ->
                      weight b < weight (fold_left (improve weight consider) l best)) /\
         (forall x b, In x l2 -> consider x = Some b ->
                      weight b <= weight (fold_left (improve weight consider) l best)))).
    { intros Hle.
      destruct (IH best)
        as [[Er Hall] | (l1 & a' & l2 & El & Ca' & Hw & Hbefore & Hafter)].
      - left. split; [exact Er |].
        intros x b [<- | Hin] Cx; [exact (Hle b Cx) | exact (Hall x b Hin Cx)].
      - right. exists (a :: l1), a', l2.
        split; [rewrite El; reflexivity |]. split; [exact Ca' |]. split; [exact Hw |].
        split; [| exact Hafter].
        intros x b [<- | Hin] Cx; [| exact (Hbefore x b Hin Cx)].
        specialize (Hle b Cx). lia. }
    destruct (consider a) as [b |] eqn:Ca.
    + destruct (Z.ltb_spec (weight best) (weight b)) as [Hlt | Hge].
      * assert (Ei : improve weight consider best a = b).
        { unfold improve. rewrite Ca.
          destruct (Z.ltb_spec (weight best) (weight b)); [reflexivity | lia]. }
        rewrite Ei.
        destruct (IH b)
          as [[Er Hall] | (l1 & a' & l2 & El & Ca' & Hw & Hbefore & Hafter)].
        -- right. exists [], a, l. rewrite Er.
           split; [reflexivity |]. split; [exact Ca |]. split; [exact Hlt |].
           split; [intros x b' [] | exact Hall].
        -- right. exists (a :: l1), a', l2.
           split; [rewrite El; reflexivity |]. split; [exact Ca' |]. split; [lia |].
           split; [| exact Hafter].
           intros x b' [<- | Hin] Cx; [| exact (Hbefore x b' Hin Cx)].
           rewrite Ca in Cx. injection Cx as <-. exact Hw.
      * assert (Ei : improve weight consider best a = best).
        { unfold improve. rewrite Ca.
          destruct (Z.ltb_spec (weight best) (weight b)); [lia | reflexivity]. }
        rewrite Ei. apply Hkeep.
        intros b' Cb. injection Cb as <-. exact Hge.
    + assert (Ei : improve weight consider best a = best)
        by (unfold improve; rewrite Ca; reflexivity).
      rewrite Ei. apply Hkeep.
      intros b' Cb. discriminate Cb.
Qed.

End FirstMaximum.

Lemma fold_left_pointwise {A B : Type} (f g : B -> A -> B) (l : list A) (b : B) :
  (forall b a, f b a = g b a) -> fold_left f l b = fold_left g l b.
Proof.
  intros H. revert b. induction l as [| a l IH]; intros b; simpl.
  - reflexivity.
  - rewrite H. apply IH.
Qed.

Lemma visit_improve (acc : Z * string) (p : WindowsMemory.process) :
  WindowsMemory.visit acc p = improve fst candidate acc p.
Proof.
  destruct acc as [m n]. unfold WindowsMemory.visit, improve, candidate, queried.
  destruct (WindowsMemory.th32ProcessID p =? 0); [reflexivity |].
  destruct (WindowsMemory.hProcess p); [| reflexivity].
  destruct (WindowsMemory.WorkingSetSize p); reflexivity.
Qed.

Lemma max_element_first_maximum (l : list (string * Z)) :
  match History.max_element LinuxMemory.rss_lt l with
  | None => l = []
  | Some e =>
      exists l1 l2,
        l = (l1 ++ e :: l2)%list /\
        (forall x, In x l1 -> snd x < snd e) /\
        (forall x, In x l2 -> snd x <= snd e)
  end.
Proof.
  destruct l as [| x r]; [reflexivity |].
  unfold History.max_element.
  rewrite (fold_left_pointwise _ (improve snd Some)) by reflexivity.
  destruct (fold_improve_first_maximum snd Some r x)
    as [[Er Hall] | (l1 & a & l2 & El & Ca & Hw & Hbefore & Hafter)].
  - rewrite Er. exists [], r. split; [reflexivity |].
    split; [intros y [] |]. intros y Hin. exact (Hall y y Hin eq_refl).
  - injection Ca as Ea. rewrite <- Ea in *. exists (x :: l1), l2.
    split; [rewrite El; reflexivity |]. split.
    + intros y [<- | Hin]; [exact Hw | exact (Hbefore y y Hin eq_refl)].
    + intros y Hin. exact (Hafter y y Hin eq_refl).
Qed.

(** C6 (as stated, refuted). Of two Windows processes with the same,
    largest working set, the scan reports the one it met first, not the one
    it met last. *)
Lemma WindowsMemory_tie_goes_to_first :
  map WindowsMemory.WorkingSetSize tied_processes = [Some 4096; Some 4096] /\
  map WindowsMemory.processName tied_processes
  = ["first.exe"%string; "second.exe"%string] /\
  fst (WindowsMemory.getMostUsingProcess (Some tied_processes)
         WindowsMemory.WindowsMemory) = "first.exe"%string /\
  fst (WindowsMemory.getMostUsingProcess (Some tied_processes)
         WindowsMemory.WindowsMemory) <> "second.exe"%string.
Proof. vm_compute. repeat split. discriminate. Qed.

(** The Windows scan: the first of the processes of largest working set,
    or "Unknown" when no working set is positive. *)
Lemma WindowsMemory_first_maximum (ps : list WindowsMemory.process)
    (ws : WindowsMemory.t) :
  let name := fst (WindowsMemory.getMostUsingProcess (Some ps) ws) in
  (name = "Unknown"%string /\
   forall p size, In p ps -> queried p = Some size -> size <= 0) \/
  (exists l1 p l2 size,
     ps = (l1 ++ p :: l2)%list /\ queried p = Some size /\ 0 < size /\
     name = WindowsMemory.processName p /\
     (forall x sx, In x l1 -> queried x = Some sx -> sx < size) /\
     (forall x sx, In x l2 -> queried x = Some sx -> sx <= size)).
Proof.
  cbv zeta. unfold WindowsMemory.getMostUsingProcess. cbn [fst].
  rewrite (fold_left_pointwise _ (improve fst candidate)) by apply visit_improve.
  destruct (fold_improve_first_maximum fst candidate ps (0, "Unknown"%string))
    as [[Er Hall] | (l1 & p & l2 & El & Cp & Hw & Hbefore & Hafter)].
  - left. rewrite Er. split; [reflexivity |].
    intros p size Hin Hq.
    apply (Hall p (size, WindowsMemory.processName p) Hin).
    unfold candidate. rewrite Hq. reflexivity.
  - right.
    set (r := fold_left (improve fst candidate) ps (0, "Unknown"%string)) in *.
    unfold candidate in Cp.
    destruct (queried p) as [size |] eqn:Hq; [| discriminate Cp].
    injection Cp as Er. exists l1, p, l2, size.
    split; [exact El |]. split; [exact Hq |].
    rewrite <- Er in *. cbn [fst snd] in *.
    split; [exact Hw |]. split; [reflexivity |]. split.
    + intros x sx Hin Hx.
      apply (Hbefore x (sx, WindowsMemory.processName x) Hin).
      unfold candidate. rewrite Hx. reflexivity.
    + intros x sx Hin Hx.
      apply (Hafter x (sx, WindowsMemory.processName x) Hin).
      unfold candidate. rewrite Hx. reflexivity.
Qed.

(** The answer computed from a table: "N/A" exactly when it is empty,
    otherwise the first of its entries of largest size. *)
Lemma answer_first_maximum (table : list (string * Z)) :
  match answer table with
  | LinuxMemory.NA => table = []
  | LinuxMemory.Top name vmrss_mb =>
      exists l1 vmrss l2,
        table = (l1 ++ (name, vmrss) :: l2)%list /\
        vmrss_mb = F32.div (F32.of_Z vmrss) (F32.of_Z 1024) /\
        (forall x, In x l1 -> snd x < vmrss) /\
        (forall x, In x l2 -> snd x <= vmrss)
  end.
Proof.
  unfold answer.
  pose proof (max_element_first_maximum table) as Hmax.
  destruct (History.max_element LinuxMemory.rss_lt table) as [[name vmrss] |].
  - destruct Hmax as (l1 & l2 & El & Hb & Ha).
    exists l1, vmrss, l2. cbn [fst snd] in *. auto.
  - exact Hmax.
Qed.

(** The contents of the table built by a scan of [/proc] *)

Lemma scan_entry_qualifying (m : list (string * Z)) (entry : LinuxMemory.dirent) :
  LinuxMemory.scan_entry m entry
  = match qualifying entry with
    | Some (n, v) => LinuxMemory.assign m n v
    | None => m
    end.
Proof.
  unfold LinuxMemory.scan_entry, qualifying.
  destruct (LinuxMemory.d_type_is_dir entry); [| reflexivity].
  destruct (LinuxMemory.all_digits (LinuxMemory.d_name entry)); [| reflexivity].
  cbn [negb andb].
  destruct (LinuxMemory.status entry) as [[n v] |]; [| reflexivity].
  destruct (negb (String.eqb n "") && (0 <? v)); reflexivity.
Qed.

Lemma qualifying_positive (entry : LinuxMemory.dirent) (n : string) (v : Z) :
  qualifying entry = Some (n, v) -> n <> EmptyString /\ 0 < v.
Proof.
  unfold qualifying.
  destruct (_ && _); [| discriminate].
  destruct (LinuxMemory.status entry) as [[n' v'] |]; [| discriminate].
  destruct (String.eqb_spec n' ""); cbn [negb andb]; [discriminate |].
  destruct (Z.ltb_spec 0 v'); [| discriminate].
  intros E. injection E as <- <-. split; assumption.
Qed.

Lemma lookup_assign (m : list (string * Z)) (k name : string) (v : Z) :
  lookup name (LinuxMemory.assign m k v)
  = if String.eqb k name then Some v else lookup name m.
Proof.
  unfold lookup. induction m as [| [k' v'] m IH]; cbn [LinuxMemory.assign find fst snd].
  - destruct (String.eqb k name); reflexivity.
  - destruct (String.eqb_spec k' k) as [-> | Hne]; cbn [find fst snd].
    + destruct (String.eqb k name); reflexivity.
    + destruct (String.eqb_spec k' name) as [-> | Hn].
      * destruct (String.eqb_spec k name) as [-> | _]; [contradiction | reflexivity].
      * exact IH.
Qed.

Lemma assign_keys (m : list (string * Z)) (k : string) (v : Z) :
  map fst (LinuxMemory.assign m k v)
  = if existsb (String.eqb k) (map fst m) then map fst m
    else (map fst m ++ [k])%list.
Proof.
  induction m as [| [k' v'] m IH]; cbn [LinuxMemory.assign map fst existsb].
  - reflexivity.
  - rewrite (String.eqb_sym k k').
    destruct (String.eqb k' k); cbn [map fst orb]; [reflexivity |].
    rewrite IH. destruct (existsb _ _); reflexivity.
Qed.

Lemma assign_NoDup (m : list (string * Z)) (k : string) (v : Z) :
  NoDup (map fst m) -> NoDup (map fst (LinuxMemory.assign m k v)).
Proof.
  intros H. rewrite assign_keys.
  destruct (existsb (String.eqb k) (map fst m)) eqn:E; [exact H |].
  apply NoDup_app; [exact H | constructor; [intros [] | constructor] |].
  intros x Hx [Ex | []]. subst x.
  assert (existsb (String.eqb k) (map fst m) = true).
  { apply existsb_exists. exists k. split; [exact Hx | apply String.eqb_refl]. }
  congruence.
Qed.

Lemma assign_positive (m : list (string * Z)) (k : string) (v : Z) :
  k <> EmptyString -> 0 < v ->
  Forall (fun p => fst p <> EmptyString /\ 0 < snd p) m ->
  Forall (fun p => fst p <> EmptyString /\ 0 < snd p) (LinuxMemory.assign m k v).
Proof.
  intros Hk Hv H. induction H as [| [k' v'] m Hp Hm IH]; cbn [LinuxMemory.assign].
  - constructor; [split; assumption | constructor].
  - destruct (String.eqb k' k).
    + constructor; [cbn in *; split; tauto | exact Hm].
    + constructor; assumption.
Qed.

(** Scanning on from a table [m] with one entry per name, non-empty names
    and positive sizes keeps the table so, and the entry of a name becomes
    that of the last qualifying process that bears it. *)
Lemma scan_table_from (entries : list LinuxMemory.dirent) (name : string)
    (m : list (string * Z)) :
  NoDup (map fst m) ->
  Forall (fun p => fst p <> EmptyString /\ 0 < snd p) m ->
  let table := fold_left LinuxMemory.scan_entry entries m in
  NoDup (map fst table) /\
  Forall (fun p => fst p <> EmptyString /\ 0 < snd p) table /\
  lookup name table
  = fold_left (fun acc entry =>
                 match qualifying entry with
                 | Some (n, v) => if String.eqb n name then Some v else acc
                 | None => acc
                 end)
              entries (lookup name m).
Proof.
  revert m. induction entries as [| e entries IH]; intros m Hn Hp; cbn [fold_left].
  - auto.
  - rewrite scan_entry_qualifying.
    destruct (qualifying e) as [[n v] |] eqn:Q.
    + destruct (qualifying_positive e n v Q) as [Hne Hv].
      rewrite <- lookup_assign.
      apply IH; [apply assign_NoDup, Hn | apply assign_positive; assumption].
    + apply IH; assumption.
Qed.

(** In a table with one entry per name, an entry is found by looking its
    name up. *)
Lemma lookup_In (m : list (string * Z)) (name : string) (v : Z) :
  NoDup (map fst m) -> (In (name, v) m <-> lookup name m = Some v).
Proof.
  unfold lookup. induction m as [| [k w] m IH]; cbn [map fst find In]; intros Hn.
  - split; [intros [] | discriminate].
  - inversion Hn as [| ? ? Hk Hn']; subst.
    destruct (String.eqb_spec k name) as [-> | Hne]; cbn [snd].
    + split.
      * intros [E | Hin]; [injection E as <-; reflexivity |].
        exfalso. apply Hk. apply (in_map fst) in Hin. exact Hin.
      * intros E. injection E as <-. left. reflexivity.
    + rewrite <- (IH Hn'). split.
      * intros [E | Hin]; [injection E as E1 _; contradiction | exact Hin].
      * intros Hin. right. exact Hin.
Qed.

(** C6 (amended). The process reported is one of largest resident size;
    which one of several of that size depends on the platform.

    On Windows the scan runs over the processes that can be opened and
    queried, in the order of enumeration, and replaces its candidate only
    by a strictly larger working set: of several processes of the largest
    size it reports the one met first, and it answers "Unknown" when no
    working set is positive.

    On Linux the scan fills a hash table keyed by process name and the
    answer is taken from that table by [std::max_element]. Whatever the
    order in which the table presents its entries (any rearrangement of
    them): a call made less than five seconds after the last scan leaves
    the table as it was; a scan that cannot open [/proc] leaves it empty;
    any other scan leaves one entry per process name, holding the size of
    the last qualifying process scanned under that name and nothing else.
    The answer is "N/A" exactly when the table is empty, and otherwise the
    entry of largest size that comes first in the table's order of
    iteration, which is not the order of the scan: on Linux neither the
    first nor the last process scanned is preferred by the code. *)
Theorem top_process_is_first_maximum
    (ps : list WindowsMemory.process) (ws : WindowsMemory.t)
    (now : Z) (d : LinuxMemory.proc_dir) (order : LinuxMemory.layout)
    (ls : LinuxMemory.t) :
  (forall table, Permutation (order table) table) ->
  (let name := fst (WindowsMemory.getMostUsingProcess (Some ps) ws) in
   (name = "Unknown"%string /\
    forall p size, In p ps -> queried p = Some size -> size <= 0) \/
   (exists l1 p l2 size,
      ps = (l1 ++ p :: l2)%list /\ queried p = Some size /\ 0 < size /\
      name = WindowsMemory.processName p /\
      (forall x sx, In x l1 -> queried x = Some sx -> sx < size) /\
      (forall x sx, In x l2 -> queried x = Some sx -> sx <= size))) /\
  (let r := LinuxMemory.getMostUsingProcess now d order ls in
   let table := LinuxMemory.process_memory_usage_ (snd r) in
   (if now - LinuxMemory.last_process_update_ ls <? LinuxMemory.process_update_interval_
    then table = LinuxMemory.process_memory_usage_ ls
    else match d with
         | None => table = []
         | Some entries =>
             NoDup (map fst table) /\
             forall name vmrss,
               In (name, vmrss) table <-> rss_of name entries = Some vmrss
         end) /\
   match fst r with
   | LinuxMemory.NA => table = []
   | LinuxMemory.Top name vmrss_mb =>
       exists l1 vmrss l2,
         table = (l1 ++ (name, vmrss) :: l2)%list /\
         vmrss_mb = F32.div (F32.of_Z vmrss) (F32.of_Z 1024) /\
         (forall x, In x l1 -> snd x < vmrss) /\
         (forall x, In x l2 -> snd x <= vmrss)
   end).
Proof.
  intros Hperm. split.
  - exact (WindowsMemory_first_maximum ps ws).
  - cbv zeta. rewrite getMostUsingProcess_answer.
    split; [| apply answer_first_maximum].
    rewrite LinuxMemory_getMostUsingProcess_state.
    unfold LinuxMemory.readProcessMemoryUsage.
    destruct (now - LinuxMemory.last_process_update_ ls
              <? LinuxMemory.process_update_interval_); [reflexivity |].
    destruct d as [entries |]; [| reflexivity].
    cbn [snd LinuxMemory.set_processes LinuxMemory.process_memory_usage_].
    set (scan := fold_left LinuxMemory.scan_entry entries []).
    pose proof (Hperm scan) as Hp.
    assert (Hscan : forall name,
              NoDup (map fst scan) /\ lookup name scan = rss_of name entries).
    { intros name.
      destruct (scan_table_from entries name [] (NoDup_nil _) (Forall_nil _))
        as (Hn & _ & Hl).
      split; [exact Hn | exact Hl]. }
    split.
    + apply (Permutation_NoDup (l := map fst scan)).
      * apply Permutation_map, Permutation_sym, Hp.
      * exact (proj1 (Hscan EmptyString)).
    + intros name vmrss. destruct (Hscan name) as [Hn Hl].
      rewrite <- Hl, <- (lookup_In scan name vmrss Hn).
      split; intros Hin.
      * exact (Permutation_in _ Hp Hin).
      * exact (Permutation_in _ (Permutation_sym Hp) Hin).
Qed.

(** Two Linux processes of the same, largest size: a table that presents
    its entries in the order of insertion makes the answer the one scanned
    first, a table that presents them in the reverse order makes it the one
    scanned last. On Windows the tie goes to the process enumerated
    first. *)
Lemma top_process_is_first_maximum_witness :
  let entries := [LinuxMemory.mkDirent true "10" (Some ("a"%string, 4096));
                  LinuxMemory.mkDirent true "11" (Some ("b"%string, 4096))] in
  let r := LinuxMemory.getMostUsingProcess (6 * 10 ^ 9) (Some entries)
             (fun m => rev m) (linux_memory initial_system) in
  let table := LinuxMemory.process_memory_usage_ (snd r) in
  (forall name vmrss, In (name, vmrss) table <-> rss_of name entries = Some vmrss) /\
  table = [("b"%string, 4096); ("a"%string, 4096)] /\
  fst r = LinuxMemory.Top "b" (F32.of_Z 4) /\
  fst (LinuxMemory.getMostUsingProcess (6 * 10 ^ 9) (Some entries)
         (fun m => m) (linux_memory initial_system))
  = LinuxMemory.Top "a" (F32.of_Z 4) /\
  fst (WindowsMemory.getMostUsingProcess (Some tied_processes)
         WindowsMemory.WindowsMemory) = "first.exe"%string.
Proof.
  intros entries r table.
  split; [| repeat split; vm_compute; reflexivity].
  exact (proj2 (proj1 (proj2
           (top_process_is_first_maximum tied_processes WindowsMemory.WindowsMemory
              (6 * 10 ^ 9) (Some entries) (fun m => rev m)
              (linux_memory initial_system)
              (fun m => Permutation_sym (Permutation_rev m)))))).
Defined.

(** Two Linux processes of the same name share one entry of the table,
    which keeps the size of the one scanned last: a large process can be
    hidden by a smaller namesake. *)
Example LinuxMemory_same_name_overwrites :
  fst (LinuxMemory.getMostUsingProcess (6 * 10 ^ 9)
         (Some [LinuxMemory.mkDirent true "10" (Some ("bash"%string, 500000));
                LinuxMemory.mkDirent true "11" (Some ("vim"%string, 2048));
                LinuxMemory.mkDirent true "12" (Some ("bash"%string, 1024))])
         (fun m => m) (linux_memory initial_system))
  = LinuxMemory.Top "vim" (F32.of_Z 2).
Proof. vm_compute. reflexivity. Qed.

(** ** Further scenarios *)

(** With 8,000,000 kB in total and 4,000,000 kB available the memory
    usage is 50% and 3906.25 MB remain. *)
Example LinuxMemory_scenario :
  let f := Some [("MemTotal:"%string, 8000000); ("MemAvailable:"%string, 4000000)] in
  fst (LinuxMemory.getTotalUsage f (linux_memory initial_system)) = F32.of_Z 50 /\
  fst (LinuxMemory.getRemainingRAM f (linux_memory initial_system))
  = F32.div (F32.of_Z 15625) (F32.of_Z 4).
Proof. vm_compute. split; reflexivity. Qed.

(** * Further properties of the samplers *)

(** ** 64-bit counters *)

Lemma wrap64_range (z : Z) : 0 <= wrap64 z < 2 ^ 64.
Proof. unfold wrap64. apply Z.mod_pos_bound. reflexivity. Qed.

Lemma wrap64_small (z : Z) : 0 <= z < 2 ^ 64 -> wrap64 z = z.
Proof. intros H. unfold wrap64. apply Z.mod_small. exact H. Qed.

Lemma wrap64_sub (a b : Z) : wrap64 (wrap64 a - wrap64 b) = wrap64 (a - b).
Proof. unfold wrap64. symmetry. apply Zminus_mod. Qed.

Lemma wrap64_add_l (a b : Z) : wrap64 (wrap64 a + b) = wrap64 (a + b).
Proof. unfold wrap64. apply Zplus_mod_idemp_l. Qed.

Lemma accumulate_wraps (stats : list Z) (acc : Z) :
  wrap64 (fold_left (fun a v => wrap64 (a + v)) stats acc)
  = wrap64 (acc + sum_Z stats).
Proof.
  revert acc. induction stats as [| v stats IH]; intros acc; simpl.
  - rewrite Z.add_0_r. reflexivity.
  - rewrite IH, wrap64_add_l. f_equal. lia.
Qed.

Lemma total_of_in_range (stats : list Z) : 0 <= LinuxCPU.total_of stats < 2 ^ 64.
Proof.
  unfold LinuxCPU.total_of.
  assert (G : forall l acc, 0 <= acc < 2 ^ 64 ->
              0 <= fold_left (fun a v => wrap64 (a + v)) l acc < 2 ^ 64).
  { induction l as [| v l IH]; intros acc Hacc; simpl; [exact Hacc |].
    apply IH, wrap64_range. }
  apply G. lia.
Qed.

Lemma total_of_sum (stats : list Z) :
  LinuxCPU.total_of stats = wrap64 (sum_Z stats).
Proof.
  rewrite <- (wrap64_small (LinuxCPU.total_of stats)) by apply total_of_in_range.
  unfold LinuxCPU.total_of. rewrite accumulate_wraps. reflexivity.
Qed.

(** ** The Linux CPU sampler *)

(** X1. The deltas of the Linux CPU sampler are exact even when the 64-bit
    sum of the counters wraps around between two ticks: if the counters
    really grew by [d] in total and by [di] in idle time, with
    [0 <= di <= d] and [0 < d < 2^64], the second tick returns
    ((d - di) / d) * 100. *)
Theorem LinuxCPU_delta_exact_across_wrap
    (s : LinuxCPU.t) (stats1 stats2 : list Z) :
  (5 <= List.length stats1)%nat ->
  (5 <= List.length stats2)%nat ->
  let d := sum_Z stats2 - sum_Z stats1 in
  let di := (nth 3 stats2 0 + nth 4 stats2 0) - (nth 3 stats1 0 + nth 4 stats1 0) in
  0 < d < 2 ^ 64 ->
  0 <= di <= d ->
  fst (LinuxCPU.getTotalUsage (Some stats2)
         (snd (LinuxCPU.getTotalUsage (Some stats1) s)))
  = F32.mul (F32.div (F32.of_Z (d - di)) (F32.of_Z d)) (F32.of_Z 100).
Proof.
  intros H1 H2 d di Hd Hdi.
  destruct (LinuxCPU_getTotalUsage_baseline s stats1 H1) as [Et Ei].
  destruct (LinuxCPU_readCPUStat_some stats2 H2) as [E1 E2].
  unfold LinuxCPU.getTotalUsage at 1. rewrite E1, E2, Et, Ei.
  assert (Dt : wrap64 (LinuxCPU.total_of stats2 - LinuxCPU.total_of stats1) = d).
  { rewrite !total_of_sum, wrap64_sub. apply wrap64_small. unfold d. lia. }
  assert (Di : wrap64 (LinuxCPU.idle_of stats2 - LinuxCPU.idle_of stats1) = di).
  { unfold LinuxCPU.idle_of. rewrite wrap64_sub. apply wrap64_small. unfold di. lia. }
  rewrite Dt, Di.
  destruct (Z.eqb_spec d 0) as [E | _]; [lia |].
  cbn [fst]. rewrite (wrap64_small (d - di)) by lia. reflexivity.
Qed.

Lemma LinuxCPU_delta_exact_across_wrap_witness :
  fst (LinuxCPU.getTotalUsage
         (Some [2 ^ 63 + 50; 2 ^ 63 - 100; 0; 100; 0])
         (snd (LinuxCPU.getTotalUsage
                 (Some [2 ^ 63; 2 ^ 63 - 100; 0; 50; 0])
                 (LinuxCPU.LinuxCPU None))))
  = F32.of_Z 50.
Proof.
  refine (eq_trans
    (LinuxCPU_delta_exact_across_wrap (LinuxCPU.LinuxCPU None)
       [2 ^ 63; 2 ^ 63 - 100; 0; 50; 0]
       [2 ^ 63 + 50; 2 ^ 63 - 100; 0; 100; 0] _ _ _ _) _).
  - simpl. lia.
  - simpl. lia.
  - vm_compute. split; reflexivity.
  - vm_compute. split; discriminate.
  - vm_compute. reflexivity.
Defined.

Lemma LinuxCPU_unusable_read (f : LinuxCPU.proc_stat) (s : LinuxCPU.t) :
  unusable f = true -> LinuxCPU.getTotalUsage f s = (F32.zero, s).
Proof.
  unfold unusable, LinuxCPU.getTotalUsage, LinuxCPU.readCPUStat.
  destruct f as [[| v stats] |]; intros H; try reflexivity.
  rewrite H. reflexivity.
Qed.

(** X2. A reading of [/proc/stat] that cannot be opened or has fewer than
    five numbers makes [getTotalUsage] return 0 and leaves the sampler
    alone: its baseline and history are kept, so any number of such
    readings between two good ones does not change what the next good
    reading reports. *)
Theorem LinuxCPU_failed_reads_are_transparent
    (bad : list LinuxCPU.proc_stat) (good : LinuxCPU.proc_stat) (s : LinuxCPU.t) :
  Forall (fun f => unusable f = true) bad ->
  Forall (fun f => LinuxCPU.getTotalUsage f s = (F32.zero, s)) bad /\
  LinuxCPU_poll bad s = s /\
  LinuxCPU.getTotalUsage good (LinuxCPU_poll bad s) = LinuxCPU.getTotalUsage good s.
Proof.
  intros Hbad.
  assert (Hpoll : LinuxCPU_poll bad s = s).
  { unfold LinuxCPU_poll. induction Hbad as [| f bad Hf _ IH]; simpl.
    - reflexivity.
    - rewrite (LinuxCPU_unusable_read f s Hf). exact IH. }
  split; [| split; [exact Hpoll | rewrite Hpoll; reflexivity]].
  eapply Forall_impl; [| exact Hbad].
  intros f Hf. apply LinuxCPU_unusable_read. exact Hf.
Qed.

Lemma LinuxCPU_failed_reads_are_transparent_witness :
  LinuxCPU.getTotalUsage (Some [100; 0; 50; 150; 0])
    (LinuxCPU_poll [None; Some [1; 2; 3]; Some []] (LinuxCPU.mk 200 100 []))
  = LinuxCPU.getTotalUsage (Some [100; 0; 50; 150; 0]) (LinuxCPU.mk 200 100 []).
Proof.
  refine (proj2 (proj2 (LinuxCPU_failed_reads_are_transparent
                          [None; Some [1; 2; 3]; Some []]
                          (Some [100; 0; 50; 150; 0]) (LinuxCPU.mk 200 100 []) _))).
  repeat constructor.
Defined.

(** ** Signs and order of the floats computed *)

Lemma binary_round_aux_sign (sx : bool) (mx ex : Z) (lx : location) :
  sign_clear (binary_round_aux F32.prec F32.emax sx mx ex lx) = negb sx
  \/ binary_round_aux F32.prec F32.emax sx mx ex lx = S754_nan.
Proof.
  unfold binary_round_aux.
  destruct (shr_fexp F32.prec F32.emax mx ex lx) as [mrs' e'].
  destruct (shr_fexp F32.prec F32.emax _ e' loc_Exact) as [mrs'' e''].
  destruct (shr_m mrs'') as [| m | m]; [left; reflexivity | | right; reflexivity].
  destruct (e'' <=? F32.emax - F32.prec); left; reflexivity.
Qed.

Lemma sign_clear_round (mx ex : Z) (lx : location) :
  sign_clear (binary_round_aux F32.prec F32.emax false mx ex lx) = true.
Proof.
  destruct (binary_round_aux_sign false mx ex lx) as [H | H]; rewrite H; reflexivity.
Qed.

Lemma sign_clear_of_Z (z : Z) : 0 <= z -> sign_clear (F32.of_Z z) = true.
Proof.
  intros Hz. destruct z as [| p | p]; [reflexivity | | lia].
  unfold F32.of_Z, binary_normalize, binary_round.
  destruct (shl_align _ _ _) as [mz ez]. apply sign_clear_round.
Qed.

Lemma sign_clear_div (x y : float) :
  sign_clear x = true -> sign_clear y = true -> sign_clear (F32.div x y) = true.
Proof.
  unfold F32.div, SFdiv.
  destruct x as [[|] | [|] | | [|] mx ex]; destruct y as [[|] | [|] | | [|] my ey];
    intros Hx Hy; try discriminate Hx; try discriminate Hy; try reflexivity.
  destruct (SFdiv_core_binary _ _ _ _ _ _) as [[mz ez] lz].
  apply sign_clear_round.
Qed.

Lemma sign_clear_mul (x y : float) :
  sign_clear x = true -> sign_clear y = true -> sign_clear (F32.mul x y) = true.
Proof.
  unfold F32.mul, SFmul.
  destruct x as [[|] | [|] | | [|] mx ex]; destruct y as [[|] | [|] | | [|] my ey];
    intros Hx Hy; try discriminate Hx; try discriminate Hy; try reflexivity.
  apply sign_clear_round.
Qed.

Lemma sign_clear_not_below_zero (x : float) :
  sign_clear x = true -> F32.ltb x F32.zero = false.
Proof.
  destruct x as [[|] | [|] | | [|] m e]; intros H; try discriminate H; reflexivity.
Qed.

Lemma LinuxCPU_usage_sign (f : LinuxCPU.proc_stat) (s : LinuxCPU.t) :
  sign_clear (fst (LinuxCPU.getTotalUsage f s)) = true.
Proof.
  unfold LinuxCPU.getTotalUsage.
  destruct (LinuxCPU.readCPUStat f) as [stats |]; [| reflexivity].
  destruct (List.length stats <? 5)%nat; [reflexivity |].
  destruct (_ =? 0); [reflexivity |]. cbn [fst].
  apply sign_clear_mul; [apply sign_clear_div |]; apply sign_clear_of_Z;
    try apply wrap64_range. lia.
Qed.

Lemma WindowsCPU_usage_sign (times : WindowsCPU.system_times) (s : WindowsCPU.t) :
  sign_clear (fst (WindowsCPU.calculateCPUUsage times s)) = true.
Proof.
  unfold WindowsCPU.calculateCPUUsage.
  destruct times as [[[i k] u] |]; [| reflexivity]. cbn [fst].
  destruct (0 <? _); [| reflexivity].
  apply sign_clear_div; [apply sign_clear_mul |]; apply sign_clear_of_Z;
    try apply wrap64_range. lia.
Qed.

Lemma ltb_irrefl (x : float) : F32.ltb x x = false.
Proof.
  unfold F32.ltb, SFltb, SFcompare.
  destruct x as [[|] | [|] | | [|] m e]; try reflexivity; float_order.
Qed.

Lemma ltb_trans (x y z : float) :
  F32.ltb x y = true -> F32.ltb y z = true -> F32.ltb x z = true.
Proof.
  unfold F32.ltb, SFltb, SFcompare.
  destruct x as [[|] | [|] | | [|] mx ex];
    destruct y as [[|] | [|] | | [|] my ey];
    destruct z as [[|] | [|] | | [|] mz ez];
    intros H1 H2; try reflexivity; try discriminate H1; try discriminate H2;
    float_order.
Qed.

(** Raising a maximum keeps it above whatever it was above. *)
Lemma ltb_raise (h u v : float) :
  F32.ltb h v = false -> F32.ltb h u = true -> F32.ltb u v = false.
Proof.
  unfold F32.ltb, SFltb, SFcompare.
  destruct h as [[|] | [|] | | [|] mh eh];
    destruct u as [[|] | [|] | | [|] mu eu];
    destruct v as [[|] | [|] | | [|] mv ev];
    intros H1 H2; try reflexivity; try discriminate H1; try discriminate H2;
    float_order.
Qed.

(** Keeping the larger of a maximum and a new value. *)
Lemma keep_larger (h u : float) :
  let h' := if F32.ltb h u then u else h in
  F32.ltb h' h = false /\ F32.ltb h' u = false /\
  (forall v, F32.ltb h v = false -> F32.ltb h' v = false).
Proof.
  cbv zeta. destruct (F32.ltb h u) eqn:E.
  - split; [| split].
    + destruct (F32.ltb u h) eqn:E'; [| reflexivity].
      pose proof (ltb_trans h u h E E') as H. rewrite ltb_irrefl in H. discriminate H.
    + apply ltb_irrefl.
    + intros v Hv. exact (ltb_raise h u v Hv E).
  - split; [apply ltb_irrefl | split; [exact E | auto]].
Qed.

(** ** Maxima *)

Lemma WindowsCPU_updateLoop_state (times : WindowsCPU.system_times) (s : WindowsCPU.t) :
  let usage := fst (WindowsCPU.calculateCPUUsage times s) in
  let s' := snd (WindowsCPU.updateLoop times s) in
  WindowsCPU.highest_usage_ s'
  = (if F32.ltb (WindowsCPU.highest_usage_ s) usage then usage
     else WindowsCPU.highest_usage_ s) /\
  WindowsCPU.current_usage_ s' = usage.
Proof.
  cbv zeta. unfold WindowsCPU.updateLoop, bind.
  pose proof (WindowsCPU_calculateCPUUsage_frame times s) as (_ & Hh & _).
  destruct (WindowsCPU.calculateCPUUsage times s) as [usage s1].
  cbn [fst snd] in *. unfold WindowsCPU.record, modify. cbn [snd].
  cbn [WindowsCPU.highest_usage_ WindowsCPU.current_usage_].
  rewrite Hh. split; reflexivity.
Qed.

Lemma WindowsCPU_run_dominates (ts : list WindowsCPU.system_times) (s : WindowsCPU.t) :
  (forall v, F32.ltb (WindowsCPU.highest_usage_ s) v = false ->
             F32.ltb (WindowsCPU.highest_usage_ (snd (WindowsCPU_run ts s))) v = false) /\
  Forall (fun v => F32.ltb (WindowsCPU.highest_usage_ (snd (WindowsCPU_run ts s))) v
                   = false)
         (fst (WindowsCPU_run ts s)).
Proof.
  revert s. induction ts as [| times ts IH]; intros s; simpl.
  - split; [auto | constructor].
  - destruct (IH (snd (WindowsCPU.updateLoop times s))) as [Hkeep Hall].
    destruct (WindowsCPU_updateLoop_state times s) as [Eh _].
    pose proof (keep_larger (WindowsCPU.highest_usage_ s)
                  (fst (WindowsCPU.calculateCPUUsage times s))) as (_ & Hu & Hup).
    cbv zeta in Hu, Hup. rewrite <- Eh in Hu, Hup.
    destruct (WindowsCPU_run ts (snd (WindowsCPU.updateLoop times s))) as [later s'].
    cbn [fst snd] in *. split.
    + intros v Hv. apply Hkeep, Hup, Hv.
    + constructor; [apply Hkeep, Hu | exact Hall].
Qed.

Lemma last_default_irrelevant {A : Type} (l : list A) (d d' : A) :
  l <> [] -> last l d = last l d'.
Proof.
  induction l as [| a l IH]; intros H; [contradiction |].
  destruct l as [| b l]; [reflexivity |].
  change (last (b :: l) d = last (b :: l) d'). apply IH. discriminate.
Qed.

(** X4. On the Windows backend the highest usage is an all-time maximum:
    over any run of the update loop, from any state, it never drops below
    its former value, no sample computed during the run exceeds it
    (including those that have since left the 100-sample history), and the
    current usage is the last sample. *)
Theorem WindowsCPU_highest_dominates_every_tick
    (ts : list WindowsCPU.system_times) (s : WindowsCPU.t) :
  let samples := fst (WindowsCPU_run ts s) in
  let s' := snd (WindowsCPU_run ts s) in
  F32.ltb (fst (WindowsCPU.getHighestUsage s')) (fst (WindowsCPU.getHighestUsage s))
  = false /\
  Forall (fun v => F32.ltb (fst (WindowsCPU.getHighestUsage s')) v = false) samples /\
  List.length samples = List.length ts /\
  fst (WindowsCPU.getTotalUsage s') = last samples (WindowsCPU.current_usage_ s).
Proof.
  cbv zeta. destruct (WindowsCPU_run_dominates ts s) as [Hkeep Hall].
  split; [apply Hkeep, ltb_irrefl |]. split; [exact Hall |].
  clear Hkeep Hall. unfold WindowsCPU.getTotalUsage. cbn [fst].
  revert s. induction ts as [| times ts IH]; intros s.
  - split; reflexivity.
  - simpl. destruct (IH (snd (WindowsCPU.updateLoop times s))) as [Hlen Hlast].
    destruct (WindowsCPU_updateLoop_state times s) as [_ Ec].
    destruct (WindowsCPU_run ts (snd (WindowsCPU.updateLoop times s)))
      as [later s'] eqn:E.
    cbn [fst snd] in *. split; [simpl; rewrite Hlen; reflexivity |].
    rewrite Hlast, Ec. destruct later as [| v later]; [reflexivity |].
    change (last (fst (WindowsCPU.calculateCPUUsage times s) :: v :: later)
                 (WindowsCPU.current_usage_ s))
      with (last (v :: later) (WindowsCPU.current_usage_ s)).
    apply last_default_irrelevant. discriminate.
Qed.

Lemma max_element_float (r : list float) (x : float) :
  let m := fold_left (fun largest y => if F32.ltb largest y then y else largest) r x in
  In m (x :: r) /\
  (forall v, F32.ltb x v = false -> F32.ltb m v = false) /\
  Forall (fun v => F32.ltb m v = false) r.
Proof.
  cbv zeta. revert x. induction r as [| y r IH]; intros x; cbn [fold_left].
  - split; [left; reflexivity | split; [auto | constructor]].
  - destruct (IH (if F32.ltb x y then y else x)) as (Hin & Hkeep & Hall).
    pose proof (keep_larger x y) as (_ & Hy & Hup). cbv zeta in Hy, Hup.
    split; [| split].
    + destruct Hin as [E | Hin]; [| right; right; exact Hin].
      destruct (F32.ltb x y); [right; left | left]; exact E.
    + intros v Hv. apply Hkeep, Hup, Hv.
    + constructor; [apply Hkeep, Hy | exact Hall].
Qed.

(** X6. On the Linux backend the highest usage is the maximum of the
    current window: it is 0 for an empty history, otherwise one of the
    samples in the history, and no sample in the history exceeds it. *)
Theorem LinuxCPU_highest_is_window_maximum (s : LinuxCPU.t) :
  let m := fst (LinuxCPU.getHighestUsage s) in
  (LinuxCPU.usage_history_ s = [] -> m = F32.zero) /\
  (LinuxCPU.usage_history_ s <> [] -> In m (LinuxCPU.usage_history_ s)) /\
  Forall (fun v => F32.ltb m v = false) (LinuxCPU.usage_history_ s).
Proof.
  cbv zeta. unfold LinuxCPU.getHighestUsage.
  destruct (LinuxCPU.usage_history_ s) as [| x r]; cbn [History.max_element fst].
  - split; [reflexivity | split; [intros H; contradiction | constructor]].
  - destruct (max_element_float r x) as (Hin & Hkeep & Hall). cbv zeta in *.
    split; [intros H; discriminate H |]. split; [intros _; exact Hin |].
    constructor; [apply Hkeep, ltb_irrefl | exact Hall].
Qed.

(** ** The network estimator over time *)

Lemma packetHandler_keeps_rates (len : Z) (h : LinuxNetwork.ether_header)
    (s : LinuxNetwork.t) :
  let s' := snd (LinuxNetwork.packetHandler len h s) in
  LinuxNetwork.upload_rate s' = LinuxNetwork.upload_rate s /\
  LinuxNetwork.download_rate s' = LinuxNetwork.download_rate s /\
  LinuxNetwork.highest_upload_rate s' = LinuxNetwork.highest_upload_rate s /\
  LinuxNetwork.highest_download_rate s' = LinuxNetwork.highest_download_rate s /\
  LinuxNetwork.last_update_time s' = LinuxNetwork.last_update_time s /\
  LinuxNetwork.mac_address s' = LinuxNetwork.mac_address s.
Proof.
  unfold LinuxNetwork.packetHandler, modify. cbn [snd].
  destruct (String.eqb _ _); cbn; repeat split.
Qed.

Lemma packetHandler_counters (len : Z) (h : LinuxNetwork.ether_header)
    (s : LinuxNetwork.t) :
  let s' := snd (LinuxNetwork.packetHandler len h s) in
  (LinuxNetwork.bytes_sent s' = wrap64 (LinuxNetwork.bytes_sent s + len) /\
   LinuxNetwork.bytes_received s' = LinuxNetwork.bytes_received s) \/
  (LinuxNetwork.bytes_received s' = wrap64 (LinuxNetwork.bytes_received s + len) /\
   LinuxNetwork.bytes_sent s' = LinuxNetwork.bytes_sent s).
Proof.
  unfold LinuxNetwork.packetHandler, modify. cbn [snd].
  destruct (String.eqb _ _); cbn; [left | right]; split; reflexivity.
Qed.

Lemma rate_tick_skipped (now : Z) (s : LinuxNetwork.t) :
  now - LinuxNetwork.last_update_time s < 10 ^ 6 ->
  LinuxNetwork.updateRatesPeriodically now s = (tt, s).
Proof.
  intros H. unfold LinuxNetwork.updateRatesPeriodically, modify.
  assert (Hq : Z.quot (now - LinuxNetwork.last_update_time s) (10 ^ 6) <= 0).
  { destruct (Z.le_gt_cases 0 (now - LinuxNetwork.last_update_time s)) as [Hp | Hn].
    - rewrite Z.quot_small by lia. lia.
    - replace (now - LinuxNetwork.last_update_time s)
        with (- (LinuxNetwork.last_update_time s - now)) by lia.
      rewrite Z.quot_opp_l by lia.
      assert (0 <= Z.quot (LinuxNetwork.last_update_time s - now) (10 ^ 6))
        by (apply Z.quot_pos; lia).
      lia. }
  destruct (Z.ltb_spec 0 (Z.quot (now - LinuxNetwork.last_update_time s) (10 ^ 6)));
    [lia | reflexivity].
Qed.

Lemma rate_tick_taken (now : Z) (s : LinuxNetwork.t) :
  10 ^ 6 <= now - LinuxNetwork.last_update_time s ->
  let duration_sec :=
    F32.div (F32.of_Z (Z.quot (now - LinuxNetwork.last_update_time s) (10 ^ 6)))
            (F32.of_Z 1000) in
  let mb := F32.mul (F32.of_Z 1024) (F32.of_Z 1024) in
  let up := F32.div (F32.div (F32.of_Z (LinuxNetwork.bytes_sent s)) mb) duration_sec in
  let down :=
    F32.div (F32.div (F32.of_Z (LinuxNetwork.bytes_received s)) mb) duration_sec in
  snd (LinuxNetwork.updateRatesPeriodically now s)
  = LinuxNetwork.mk 0 0 now up down
      (if F32.ltb (LinuxNetwork.highest_upload_rate s) up then up
       else LinuxNetwork.highest_upload_rate s)
      (if F32.ltb (LinuxNetwork.highest_download_rate s) down then down
       else LinuxNetwork.highest_download_rate s)
      (LinuxNetwork.interface_name s) (LinuxNetwork.mac_address s).
Proof.
  intros H. cbv zeta. unfold LinuxNetwork.updateRatesPeriodically, modify. cbn [snd].
  assert (Hq : 0 < Z.quot (now - LinuxNetwork.last_update_time s) (10 ^ 6)).
  { apply Z.quot_str_pos. lia. }
  destruct (Z.ltb_spec 0 (Z.quot (now - LinuxNetwork.last_update_time s) (10 ^ 6)));
    [reflexivity | lia].
Qed.

Lemma rate_sign (bytes duration : Z) :
  0 <= bytes -> 0 < duration ->
  sign_clear
    (F32.div (F32.div (F32.of_Z bytes) (F32.mul (F32.of_Z 1024) (F32.of_Z 1024)))
             (F32.div (F32.of_Z duration) (F32.of_Z 1000))) = true.
Proof.
  intros Hb Hd. repeat apply sign_clear_div; try apply sign_clear_mul;
    apply sign_clear_of_Z; lia.
Qed.

Lemma LinuxNetwork_step_consistent (e : capture_event) (s : LinuxNetwork.t) :
  rates_consistent s -> rates_consistent (LinuxNetwork_step s e).
Proof.
  intros H. pose proof H as (Hu & Hd & Su & Sd & Bs & Br).
  destruct e as [len h | now]; cbn [LinuxNetwork_step].
  - destruct (packetHandler_keeps_rates len h s) as (E1 & E2 & E3 & E4 & _).
    unfold rates_consistent. rewrite E1, E2, E3, E4.
    repeat (split; [assumption |]).
    destruct (packetHandler_counters len h s) as [[-> ->] | [-> ->]];
      split; try assumption; apply wrap64_range.
  - destruct (Z.lt_ge_cases (now - LinuxNetwork.last_update_time s) (10 ^ 6)) as [Hs | Ht].
    + rewrite rate_tick_skipped by exact Hs. exact H.
    + rewrite rate_tick_taken by exact Ht.
      assert (Hq : 0 < Z.quot (now - LinuxNetwork.last_update_time s) (10 ^ 6))
        by (apply Z.quot_str_pos; lia).
      unfold rates_consistent.
      cbn [LinuxNetwork.upload_rate LinuxNetwork.download_rate
           LinuxNetwork.highest_upload_rate LinuxNetwork.highest_download_rate
           LinuxNetwork.bytes_sent LinuxNetwork.bytes_received].
      split; [exact (proj1 (proj2 (keep_larger _ _))) |].
      split; [exact (proj1 (proj2 (keep_larger _ _))) |].
      split; [apply rate_sign; lia |]. split; [apply rate_sign; lia |].
      split; lia.
Qed.

Lemma LinuxNetwork_run_consistent (es : list capture_event) (s : LinuxNetwork.t) :
  rates_consistent s -> rates_consistent (LinuxNetwork_run es s).
Proof.
  unfold LinuxNetwork_run. revert s.
  induction es as [| e es IH]; intros s H; simpl; [exact H |].
  apply IH, LinuxNetwork_step_consistent, H.
Qed.

Lemma LinuxNetwork_constructor_consistent (name : string)
    (hw : option LinuxNetwork.ether_addr) (started : bool) (now : Z) :
  rates_consistent (LinuxNetwork.LinuxNetwork name hw started now).
Proof. unfold rates_consistent. cbn. repeat split; lia. Qed.

Lemma LinuxNetwork_step_keeps (e : capture_event) (s : LinuxNetwork.t) :
  (forall v, F32.ltb (LinuxNetwork.highest_upload_rate s) v = false ->
             F32.ltb (LinuxNetwork.highest_upload_rate (LinuxNetwork_step s e)) v = false) /\
  (forall v, F32.ltb (LinuxNetwork.highest_download_rate s) v = false ->
             F32.ltb (LinuxNetwork.highest_download_rate (LinuxNetwork_step s e)) v = false).
Proof.
  destruct e as [len h | now]; cbn [LinuxNetwork_step].
  - destruct (packetHandler_keeps_rates len h s) as (_ & _ & E3 & E4 & _).
    rewrite E3, E4. auto.
  - destruct (Z.lt_ge_cases (now - LinuxNetwork.last_update_time s) (10 ^ 6)) as [Hs | Ht].
    + rewrite rate_tick_skipped by exact Hs. auto.
    + rewrite rate_tick_taken by exact Ht.
      cbn [LinuxNetwork.highest_upload_rate LinuxNetwork.highest_download_rate].
      split; exact (proj2 (proj2 (keep_larger _ _))).
Qed.

Lemma LinuxNetwork_run_keeps (es : list capture_event) (s : LinuxNetwork.t) :
  (forall v, F32.ltb (LinuxNetwork.highest_upload_rate s) v = false ->
             F32.ltb (LinuxNetwork.highest_upload_rate (LinuxNetwork_run es s)) v = false) /\
  (forall v, F32.ltb (LinuxNetwork.highest_download_rate s) v = false ->
             F32.ltb (LinuxNetwork.highest_download_rate (LinuxNetwork_run es s)) v = false).
Proof.
  unfold LinuxNetwork_run. revert s.
  induction es as [| e es IH]; intros s; simpl; [auto |].
  destruct (IH (LinuxNetwork_step s e)) as [Hu Hd].
  destruct (LinuxNetwork_step_keeps e s) as [Ku Kd].
  split; intros v Hv; [apply Hu, Ku, Hv | apply Hd, Kd, Hv].
Qed.

(** X7. The highest upload and download rates of the Linux estimator never
    decrease, whatever frames are captured and whenever the rate loop
    runs; and in every state reached from a freshly constructed estimator
    neither current rate exceeds the highest rate stored for it. *)
Theorem LinuxNetwork_highest_rates_monotone
    (before after : list capture_event) (name : string)
    (hw : option LinuxNetwork.ether_addr) (started : bool) (now : Z) :
  let s1 := LinuxNetwork_run before (LinuxNetwork.LinuxNetwork name hw started now) in
  let s2 := LinuxNetwork_run after s1 in
  F32.ltb (fst (LinuxNetwork.getHighestUploadRate s2))
          (fst (LinuxNetwork.getHighestUploadRate s1)) = false /\
  F32.ltb (fst (LinuxNetwork.getHighestDownloadRate s2))
          (fst (LinuxNetwork.getHighestDownloadRate s1)) = false /\
  F32.ltb (fst (LinuxNetwork.getHighestUploadRate s2))
          (fst (LinuxNetwork.getUploadRate s2)) = false /\
  F32.ltb (fst (LinuxNetwork.getHighestDownloadRate s2))
          (fst (LinuxNetwork.getDownloadRate s2)) = false.
Proof.
  cbv zeta.
  set (s0 := LinuxNetwork.LinuxNetwork name hw started now).
  set (s1 := LinuxNetwork_run before s0).
  destruct (LinuxNetwork_run_keeps after s1) as [Ku Kd].
  pose proof (LinuxNetwork_run_consistent after s1
                (LinuxNetwork_run_consistent before s0
                   (LinuxNetwork_constructor_consistent name hw started now)))
    as (Hu & Hd & _).
  unfold LinuxNetwork.getHighestUploadRate, LinuxNetwork.getHighestDownloadRate,
    LinuxNetwork.getUploadRate, LinuxNetwork.getDownloadRate. cbn [fst].
  split; [apply Ku, ltb_irrefl |]. split; [apply Kd, ltb_irrefl |].
  split; assumption.
Qed.

(** X8. In every state reached from a freshly constructed estimator the
    upload and download rates are not below zero, and the byte counters
    stay within 64 bits. *)
Theorem LinuxNetwork_rates_never_below_zero
    (es : list capture_event) (name : string)
    (hw : option LinuxNetwork.ether_addr) (started : bool) (now : Z) :
  let s := LinuxNetwork_run es (LinuxNetwork.LinuxNetwork name hw started now) in
  F32.ltb (fst (LinuxNetwork.getUploadRate s)) F32.zero = false /\
  F32.ltb (fst (LinuxNetwork.getDownloadRate s)) F32.zero = false /\
  0 <= LinuxNetwork.bytes_sent s < 2 ^ 64 /\
  0 <= LinuxNetwork.bytes_received s < 2 ^ 64.
Proof.
  cbv zeta.
  pose proof (LinuxNetwork_run_consistent es _
                (LinuxNetwork_constructor_consistent name hw started now))
    as (_ & _ & Su & Sd & Bs & Br).
  unfold LinuxNetwork.getUploadRate, LinuxNetwork.getDownloadRate. cbn [fst].
  split; [apply sign_clear_not_below_zero, Su |].
  split; [apply sign_clear_not_below_zero, Sd |]. split; assumption.
Qed.

Lemma packetHandler_total (len : Z) (h : LinuxNetwork.ether_header)
    (s : LinuxNetwork.t) :
  let s' := snd (LinuxNetwork.packetHandler len h s) in
  wrap64 (LinuxNetwork.bytes_sent s' + LinuxNetwork.bytes_received s')
  = wrap64 (LinuxNetwork.bytes_sent s + LinuxNetwork.bytes_received s + len).
Proof.
  cbv zeta. destruct (packetHandler_counters len h s) as [[-> ->] | [-> ->]].
  - rewrite wrap64_add_l. f_equal. lia.
  - rewrite Z.add_comm, wrap64_add_l. f_equal. lia.
Qed.

(** X9. Every captured frame is counted exactly once: after any run of
    frames the two byte counters together have grown by the sum of the
    frame lengths (modulo 2^64), and capturing alone changes neither the
    rates, nor the highest rates, nor the time of the last rate update. *)
Theorem LinuxNetwork_frames_counted_once
    (frames : list (Z * LinuxNetwork.ether_header)) (s : LinuxNetwork.t) :
  let s' := LinuxNetwork_run (capture frames) s in
  wrap64 (LinuxNetwork.bytes_sent s' + LinuxNetwork.bytes_received s')
  = wrap64 (LinuxNetwork.bytes_sent s + LinuxNetwork.bytes_received s
            + sum_Z (map fst frames)) /\
  LinuxNetwork.upload_rate s' = LinuxNetwork.upload_rate s /\
  LinuxNetwork.download_rate s' = LinuxNetwork.download_rate s /\
  LinuxNetwork.highest_upload_rate s' = LinuxNetwork.highest_upload_rate s /\
  LinuxNetwork.highest_download_rate s' = LinuxNetwork.highest_download_rate s /\
  LinuxNetwork.last_update_time s' = LinuxNetwork.last_update_time s.
Proof.
  cbv zeta. unfold LinuxNetwork_run, capture. revert s.
  induction frames as [| [len h] frames IH]; intros s; cbn [map fold_left sum_Z fold_right].
  - rewrite Z.add_0_r. repeat split.
  - cbn [LinuxNetwork_step fst snd].
    destruct (IH (snd (LinuxNetwork.packetHandler len h s))) as (Et & E1 & E2 & E3 & E4 & E5).
    destruct (packetHandler_keeps_rates len h s) as (K1 & K2 & K3 & K4 & K5 & _).
    pose proof (packetHandler_total len h s) as Ht. cbv zeta in Ht.
    split; [| repeat split; congruence].
    rewrite Et. rewrite <- wrap64_add_l, Ht, wrap64_add_l.
    f_equal. fold (sum_Z (map fst frames)). lia.
Qed.

Lemma LinuxNetwork_run_app (es1 es2 : list capture_event) (s : LinuxNetwork.t) :
  LinuxNetwork_run (es1 ++ es2) s = LinuxNetwork_run es2 (LinuxNetwork_run es1 s).
Proof. unfold LinuxNetwork_run. apply fold_left_app. Qed.

Lemma capture_keeps_time (frames : list (Z * LinuxNetwork.ether_header))
    (s : LinuxNetwork.t) :
  LinuxNetwork.last_update_time (LinuxNetwork_run (capture frames) s)
  = LinuxNetwork.last_update_time s.
Proof.
  unfold LinuxNetwork_run, capture. revert s.
  induction frames as [| [len h] frames IH]; intros s; cbn [map fold_left]; [reflexivity |].
  rewrite IH. cbn [LinuxNetwork_step fst snd].
  apply (packetHandler_keeps_rates len h s).
Qed.

(** X10. An iteration of the rate loop that comes less than a millisecond
    after the previous update (or sees the clock unchanged) does nothing:
    it computes no rate, divides by nothing and keeps the byte counters, so
    the bytes captured so far are carried into the next window. *)
Theorem LinuxNetwork_early_tick_is_skipped
    (frames : list (Z * LinuxNetwork.ether_header)) (later : list capture_event)
    (now : Z) (s : LinuxNetwork.t) :
  now - LinuxNetwork.last_update_time s < 10 ^ 6 ->
  LinuxNetwork.updateRatesPeriodically now s = (tt, s) /\
  LinuxNetwork_run (capture frames ++ RateTick now :: later) s
  = LinuxNetwork_run (capture frames ++ later) s.
Proof.
  intros H. split; [apply rate_tick_skipped; exact H |].
  rewrite !LinuxNetwork_run_app.
  set (s1 := LinuxNetwork_run (capture frames) s).
  change (LinuxNetwork_run (RateTick now :: later) s1)
    with (LinuxNetwork_run later
            (snd (LinuxNetwork.updateRatesPeriodically now s1))).
  rewrite rate_tick_skipped; [reflexivity |].
  unfold s1. rewrite capture_keeps_time. exact H.
Qed.

Lemma LinuxNetwork_early_tick_is_skipped_witness :
  let s := LinuxNetwork.LinuxNetwork "eth0" None true (5 * 10 ^ 9) in
  let h := LinuxNetwork.mkHeader
             (LinuxNetwork.mkAddr Byte.xff Byte.xff Byte.xff Byte.xff Byte.xff Byte.xff)
             (LinuxNetwork.mkAddr Byte.x00 Byte.x11 Byte.x22 Byte.x33 Byte.x44 Byte.x55)
             2048 in
  LinuxNetwork_run (capture [(1500, h)] ++ [RateTick (5 * 10 ^ 9 + 999999);
                                            RateTick (6 * 10 ^ 9)]) s
  = LinuxNetwork_run (capture [(1500, h)] ++ [RateTick (6 * 10 ^ 9)]) s.
Proof.
  intros s h.
  refine (proj2 (LinuxNetwork_early_tick_is_skipped [(1500, h)]
                   [RateTick (6 * 10 ^ 9)] (5 * 10 ^ 9 + 999999) s _)).
  vm_compute. reflexivity.
Defined.

(** X11. The text of a hardware address always has 17 characters, so it
    fits the 18-byte buffer it is printed into, and two addresses have the
    same text only if they are the same six bytes. *)
Theorem format_mac_fits_and_is_injective (a b : LinuxNetwork.ether_addr) :
  String.length (LinuxNetwork.format_mac a) = 17%nat /\
  (LinuxNetwork.format_mac a = LinuxNetwork.format_mac b <-> a = b).
Proof.
  split.
  - unfold LinuxNetwork.format_mac. rewrite !hex2_shape. cbn [append].
    rewrite hex2_eq. reflexivity.
  - split; [apply format_mac_inj | intros ->; reflexivity].
Qed.

(** ** Windows file times *)

Lemma lor_disjoint (high low : Z) :
  0 <= low < 2 ^ 32 -> 0 <= high ->
  Z.lor (Z.shiftl high 32) low = high * 2 ^ 32 + low.
Proof.
  intros Hl Hh.
  assert (Hland : Z.land (Z.shiftl high 32) low = 0).
  { apply Z.bits_inj'. intros n Hn. rewrite Z.land_spec, Z.bits_0.
    destruct (Z.lt_ge_cases n 32) as [Hs | Hb].
    - rewrite Z.shiftl_spec_low by lia. reflexivity.
    - assert (Z.testbit low n = false).
      { destruct (Z.eq_dec low 0) as [-> | Hz]; [apply Z.bits_0 |].
        apply Z.bits_above_log2; [lia |].
        apply Z.lt_le_trans with 32; [| exact Hb].
        apply Z.log2_lt_pow2; lia. }
      rewrite H. apply andb_false_r. }
  rewrite <- Z.lxor_lor by exact Hland.
  rewrite <- Z.add_nocarry_lxor by exact Hland.
  rewrite Z.shiftl_mul_pow2 by lia. reflexivity.
Qed.

(** X12. A [FILETIME] whose two halves are 32-bit values converts to the
    64-bit number high * 2^32 + low, from which both halves can be read
    back; distinct file times give distinct numbers. *)
Theorem fileTimeToInt64_round_trip (ft : WindowsCPU.FILETIME) :
  0 <= WindowsCPU.dwLowDateTime ft < 2 ^ 32 ->
  0 <= WindowsCPU.dwHighDateTime ft < 2 ^ 32 ->
  let x := WindowsCPU.fileTimeToInt64 ft in
  x = WindowsCPU.dwHighDateTime ft * 2 ^ 32 + WindowsCPU.dwLowDateTime ft /\
  0 <= x < 2 ^ 64 /\
  WindowsCPU.mkFILETIME (x mod 2 ^ 32) (x / 2 ^ 32) = ft.
Proof.
  intros Hl Hh. destruct ft as [low high]. cbn in Hl, Hh. cbv zeta.
  unfold WindowsCPU.fileTimeToInt64.
  cbn [WindowsCPU.dwLowDateTime WindowsCPU.dwHighDateTime].
  assert (Hs : wrap64 (Z.shiftl high 32) = Z.shiftl high 32).
  { apply wrap64_small. rewrite Z.shiftl_mul_pow2 by lia. nia. }
  rewrite Hs, lor_disjoint by lia.
  split; [reflexivity |]. split; [nia |].
  f_equal.
  - rewrite Z.add_comm, Z.mod_add by lia. apply Z.mod_small. lia.
  - rewrite Z.add_comm, Z.div_add by lia. rewrite Z.div_small by lia. lia.
Qed.

Lemma fileTimeToInt64_round_trip_witness :
  WindowsCPU.fileTimeToInt64 (WindowsCPU.mkFILETIME 7 3) = 3 * 2 ^ 32 + 7.
Proof.
  refine (proj1 (fileTimeToInt64_round_trip (WindowsCPU.mkFILETIME 7 3) _ _)).
  - cbn. lia.
  - cbn. lia.
Defined.

(** ** The Linux memory sampler *)

Lemma read_line_fields (s : LinuxMemory.t) (key : string) (v : Z) :
  mem_fields (LinuxMemory.read_line s (key, v))
  = ((if String.eqb key "MemTotal:" then v else LinuxMemory.mem_total_ s),
     (if String.eqb key "MemAvailable:" then v else LinuxMemory.mem_available_ s),
     (if String.eqb key "MemFree:" then v else LinuxMemory.mem_free_ s),
     (if String.eqb key "Cached:" then v else LinuxMemory.mem_cached_ s),
     (if String.eqb key "Buffers:" then v else LinuxMemory.mem_buffers_ s)).
Proof.
  unfold LinuxMemory.read_line, mem_fields.
  destruct (String.eqb_spec key "MemTotal:") as [-> | _]; [reflexivity |].
  destruct (String.eqb_spec key "MemAvailable:") as [-> | _]; [reflexivity |].
  destruct (String.eqb_spec key "MemFree:") as [-> | _]; [reflexivity |].
  destruct (String.eqb_spec key "Cached:") as [-> | _]; [reflexivity |].
  destruct (String.eqb_spec key "Buffers:") as [-> | _]; reflexivity.
Qed.

Lemma read_lines_fields (lines : list (string * Z)) (s : LinuxMemory.t) :
  let upd key := fun acc (line : string * Z) =>
                   if String.eqb (fst line) key then snd line else acc in
  mem_fields (fold_left LinuxMemory.read_line lines s)
  = (fold_left (upd "MemTotal:"%string) lines (LinuxMemory.mem_total_ s),
     fold_left (upd "MemAvailable:"%string) lines (LinuxMemory.mem_available_ s),
     fold_left (upd "MemFree:"%string) lines (LinuxMemory.mem_free_ s),
     fold_left (upd "Cached:"%string) lines (LinuxMemory.mem_cached_ s),
     fold_left (upd "Buffers:"%string) lines (LinuxMemory.mem_buffers_ s)).
Proof.
  cbv zeta. revert s. induction lines as [| [key v] lines IH]; intros s.
  - reflexivity.
  - cbn [fold_left]. rewrite IH.
    pose proof (read_line_fields s key v) as E. unfold mem_fields in E.
    remember (LinuxMemory.read_line s (key, v)) as s1 eqn:Es1. clear Es1.
    injection E as E1 E2 E3 E4 E5. rewrite E1, E2, E3, E4, E5. reflexivity.
Qed.

Lemma readMemInfo_lookup (lines : list (string * Z)) (s : LinuxMemory.t) :
  mem_fields (snd (LinuxMemory.readMemInfo (Some lines) s))
  = (last_value "MemTotal:" lines, last_value "MemAvailable:" lines,
     last_value "MemFree:" lines, last_value "Cached:" lines,
     last_value "Buffers:" lines) /\
  fst (LinuxMemory.readMemInfo (Some lines) s) = negb (incomplete (Some lines)).
Proof.
  unfold LinuxMemory.readMemInfo.
  pose proof (read_lines_fields lines (LinuxMemory.set_mem s 0 0 0 0 0)) as E.
  cbv zeta in E. cbn [LinuxMemory.set_mem LinuxMemory.mem_total_
    LinuxMemory.mem_available_ LinuxMemory.mem_free_ LinuxMemory.mem_cached_
    LinuxMemory.mem_buffers_] in E.
  fold (last_value "MemTotal:" lines) in E.
  fold (last_value "MemAvailable:" lines) in E.
  fold (last_value "MemFree:" lines) in E.
  fold (last_value "Cached:" lines) in E.
  fold (last_value "Buffers:" lines) in E.
  set (r := fold_left LinuxMemory.read_line lines (LinuxMemory.set_mem s 0 0 0 0 0)) in *.
  assert (Et : LinuxMemory.mem_total_ r = last_value "MemTotal:" lines)
    by (unfold mem_fields in E; congruence).
  assert (Ea : LinuxMemory.mem_available_ r = last_value "MemAvailable:" lines)
    by (unfold mem_fields in E; congruence).
  unfold incomplete. rewrite Et, Ea.
  destruct (_ || _); cbn [fst snd negb]; split; auto.
Qed.

(** X13. [readMemInfo] keeps, for each of its five keys, the number of the
    last line that carries the key and 0 when no line does; nothing of the
    previous reading survives. It succeeds exactly when the total and the
    available memory it found are both non-zero, and touches neither the
    usage history nor the process table; when the file cannot be opened it
    changes nothing at all. *)
Theorem readMemInfo_keeps_last_value_of_each_key
    (lines : list (string * Z)) (s : LinuxMemory.t) :
  let r := LinuxMemory.readMemInfo (Some lines) s in
  mem_fields (snd r)
  = (last_value "MemTotal:" lines, last_value "MemAvailable:" lines,
     last_value "MemFree:" lines, last_value "Cached:" lines,
     last_value "Buffers:" lines) /\
  fst r = negb ((last_value "MemTotal:" lines =? 0)
                || (last_value "MemAvailable:" lines =? 0)) /\
  LinuxMemory.usage_history_ (snd r) = LinuxMemory.usage_history_ s /\
  LinuxMemory.process_memory_usage_ (snd r) = LinuxMemory.process_memory_usage_ s /\
  LinuxMemory.last_process_update_ (snd r) = LinuxMemory.last_process_update_ s /\
  LinuxMemory.readMemInfo None s = (false, s).
Proof.
  cbv zeta. destruct (readMemInfo_lookup lines s) as [E1 E2].
  destruct (LinuxMemory_readMemInfo_frame (Some lines) s) as (F1 & F2 & F3).
  repeat split; assumption.
Qed.

Lemma LinuxMemory_usage_value (f : LinuxMemory.meminfo) (s : LinuxMemory.t) :
  let usage := fst (LinuxMemory.getTotalUsage f s) in
  let history' := LinuxMemory.usage_history_ (snd (LinuxMemory.getTotalUsage f s)) in
  let remaining := fst (LinuxMemory.getRemainingRAM f s) in
  if incomplete f then
    usage = F32.zero /\ history' = LinuxMemory.usage_history_ s /\
    remaining = F32.zero
  else
    let total := last_value "MemTotal:" (match f with Some l => l | None => [] end) in
    let available :=
      last_value "MemAvailable:" (match f with Some l => l | None => [] end) in
    usage = F32.mul (F32.div (F32.of_Z (wrap64 (total - available))) (F32.of_Z total))
                    (F32.of_Z 100) /\
    history' = History.push_history 100 (LinuxMemory.usage_history_ s) usage /\
    remaining = F32.div (F32.of_Z available) (F32.of_Z 1024).
Proof.
  cbv zeta. destruct f as [lines |].
  - destruct (readMemInfo_lookup lines s) as [E1 E2].
    destruct (LinuxMemory_readMemInfo_frame (Some lines) s) as (F1 & _).
    unfold LinuxMemory.getTotalUsage, LinuxMemory.getRemainingRAM, bind, get, ret.
    destruct (LinuxMemory.readMemInfo (Some lines) s) as [ok s1].
    cbn [fst snd] in *. unfold mem_fields in E1. injection E1 as Et Ea _ _ _.
    destruct (incomplete (Some lines)); cbn [negb] in E2; subst ok; cbn [fst snd].
    + auto.
    + unfold LinuxMemory.updateUsageHistory, modify. cbn [fst snd LinuxMemory.usage_history_].
      rewrite last_push_history, Et, Ea, F1. auto.
  - cbn. auto.
Qed.

(** X14. [getTotalUsage] and [getRemainingRAM] of the Linux memory sampler
    depend on the file alone. With an unusable file both return 0 and the
    usage history is kept; otherwise the usage is
    ((total - available) / total) * 100 from the last values of the file,
    that very value is appended to the history, and the remaining RAM is
    available / 1024. *)
Theorem LinuxMemory_usage_from_file (f : LinuxMemory.meminfo) (s : LinuxMemory.t) :
  let usage := fst (LinuxMemory.getTotalUsage f s) in
  let history' := LinuxMemory.usage_history_ (snd (LinuxMemory.getTotalUsage f s)) in
  let remaining := fst (LinuxMemory.getRemainingRAM f s) in
  if incomplete f then
    usage = F32.zero /\ history' = LinuxMemory.usage_history_ s /\
    remaining = F32.zero
  else
    let total := last_value "MemTotal:" (match f with Some l => l | None => [] end) in
    let available :=
      last_value "MemAvailable:" (match f with Some l => l | None => [] end) in
    usage = F32.mul (F32.div (F32.of_Z (wrap64 (total - available))) (F32.of_Z total))
                    (F32.of_Z 100) /\
    history' = History.push_history 100 (LinuxMemory.usage_history_ s) usage /\
    remaining = F32.div (F32.of_Z available) (F32.of_Z 1024).
Proof. exact (LinuxMemory_usage_value f s). Qed.

(** ** The process table of the Linux memory sampler *)

(** X16. The scan of [/proc] is throttled: a call of [getMostUsingProcess]
    less than five seconds after the last scan does not look at the
    directory at all. Its answer is the same whatever the directory holds,
    and the sampler is left as it was. *)
Theorem LinuxMemory_scan_is_throttled
    (now : Z) (d d' : LinuxMemory.proc_dir) (order order' : LinuxMemory.layout)
    (s : LinuxMemory.t) :
  now - LinuxMemory.last_process_update_ s < LinuxMemory.process_update_interval_ ->
  LinuxMemory.getMostUsingProcess now d order s
  = LinuxMemory.getMostUsingProcess now d' order' s /\
  snd (LinuxMemory.getMostUsingProcess now d order s) = s.
Proof.
  intros H. rewrite !getMostUsingProcess_unfold. cbv zeta.
  rewrite !readProcessMemoryUsage_throttled by exact H. split; reflexivity.
Qed.

Lemma LinuxMemory_scan_is_throttled_witness :
  let s := snd (LinuxMemory.getMostUsingProcess (6 * 10 ^ 9)
                  (Some [LinuxMemory.mkDirent true "1" (Some ("init"%string, 1024))])
                  (fun m => m) (linux_memory initial_system)) in
  LinuxMemory.getMostUsingProcess (8 * 10 ^ 9) None (fun m => m) s
  = LinuxMemory.getMostUsingProcess (8 * 10 ^ 9)
      (Some [LinuxMemory.mkDirent true "2" (Some ("big"%string, 999999))])
      (fun m => rev m) s.
Proof.
  intros s.
  refine (proj1 (LinuxMemory_scan_is_throttled (8 * 10 ^ 9) None
                   (Some [LinuxMemory.mkDirent true "2" (Some ("big"%string, 999999))])
                   (fun m => m) (fun m => rev m) s _)).
  vm_compute. reflexivity.
Defined.

(** X17. After a scan, the answer is served from the table it built: any
    call during the following five seconds returns what the scanning call
    returned and leaves the sampler as the scan left it, whatever [/proc]
    has become in the meantime. *)
Theorem LinuxMemory_answer_is_cached_after_scan
    (t0 t : Z) (entries : list LinuxMemory.dirent) (d' : LinuxMemory.proc_dir)
    (order order' : LinuxMemory.layout) (s : LinuxMemory.t) :
  LinuxMemory.process_update_interval_ <= t0 - LinuxMemory.last_process_update_ s ->
  t - t0 < LinuxMemory.process_update_interval_ ->
  let r := LinuxMemory.getMostUsingProcess t0 (Some entries) order s in
  LinuxMemory.last_process_update_ (snd r) = t0 /\
  LinuxMemory.getMostUsingProcess t d' order' (snd r) = r.
Proof.
  intros H0 H1. cbv zeta. rewrite (getMostUsingProcess_unfold t0). cbv zeta.
  rewrite readProcessMemoryUsage_elapsed by exact H0. cbv zeta. cbn [fst snd].
  split; [reflexivity |].
  rewrite getMostUsingProcess_unfold. cbv zeta.
  rewrite readProcessMemoryUsage_throttled by exact H1. cbn [fst snd].
  cbn [LinuxMemory.set_processes LinuxMemory.process_memory_usage_].
  destruct (order (fold_left LinuxMemory.scan_entry entries [])) as [| p m];
    reflexivity.
Qed.

Lemma LinuxMemory_answer_is_cached_after_scan_witness :
  let scan := LinuxMemory.getMostUsingProcess (6 * 10 ^ 9)
                (Some [LinuxMemory.mkDirent true "1" (Some ("init"%string, 1024))])
                (fun m => m) (linux_memory initial_system) in
  LinuxMemory.getMostUsingProcess (10 * 10 ^ 9) None (fun m => m) (snd scan) = scan.
Proof.
  intros scan.
  refine (proj2 (LinuxMemory_answer_is_cached_after_scan (6 * 10 ^ 9) (10 * 10 ^ 9)
                   [LinuxMemory.mkDirent true "1" (Some ("init"%string, 1024))]
                   None (fun m => m) (fun m => m) (linux_memory initial_system) _ _)).
  - vm_compute. discriminate.
  - vm_compute. reflexivity.
Defined.

(** X18. When [/proc] cannot be opened at a time a scan is due, the answer
    is "N/A" and the table is emptied, so the previous answer is lost; the
    time of the last scan is not advanced, and any later call behaves as if
    the failed call had not happened. *)
Theorem LinuxMemory_failed_scan
    (now later : Z) (d' : LinuxMemory.proc_dir) (order order' : LinuxMemory.layout)
    (s : LinuxMemory.t) :
  LinuxMemory.process_update_interval_ <= now - LinuxMemory.last_process_update_ s ->
  now <= later ->
  let r := LinuxMemory.getMostUsingProcess now None order s in
  fst r = LinuxMemory.NA /\
  LinuxMemory.process_memory_usage_ (snd r) = [] /\
  LinuxMemory.last_process_update_ (snd r) = LinuxMemory.last_process_update_ s /\
  LinuxMemory.usage_history_ (snd r) = LinuxMemory.usage_history_ s /\
  LinuxMemory.getMostUsingProcess later d' order' (snd r)
  = LinuxMemory.getMostUsingProcess later d' order' s.
Proof.
  intros H0 H1. cbv zeta. rewrite (getMostUsingProcess_unfold now). cbv zeta.
  rewrite readProcessMemoryUsage_elapsed by exact H0. cbn [fst snd].
  repeat (split; [reflexivity |]).
  rewrite !getMostUsingProcess_unfold. cbv zeta.
  rewrite !readProcessMemoryUsage_elapsed
    by (cbn [LinuxMemory.set_processes LinuxMemory.last_process_update_]; lia).
  destruct d' as [entries |]; reflexivity.
Qed.

Lemma LinuxMemory_failed_scan_witness :
  fst (LinuxMemory.getMostUsingProcess (6 * 10 ^ 9) None (fun m => m)
         (linux_memory initial_system)) = LinuxMemory.NA.
Proof.
  refine (proj1 (LinuxMemory_failed_scan (6 * 10 ^ 9) (7 * 10 ^ 9) None
                   (fun m => m) (fun m => m) (linux_memory initial_system) _ _)).
  - vm_compute. discriminate.
  - vm_compute. discriminate.
Defined.

(** X19. The table built by a scan of [/proc] has one entry per process
    name, every entry has a non-empty name and a positive size, and the
    size recorded for a name is that of the last qualifying process of the
    scan that bears it (a name that no qualifying process bears is
    absent). *)
Theorem LinuxMemory_scan_table (entries : list LinuxMemory.dirent) (name : string) :
  let table := fold_left LinuxMemory.scan_entry entries [] in
  NoDup (map fst table) /\
  Forall (fun p => fst p <> EmptyString /\ 0 < snd p) table /\
  lookup name table = rss_of name entries.
Proof.
  cbv zeta. unfold rss_of.
  apply (scan_table_from entries name []); constructor.
Qed.

(** ** Thread counts *)

Lemma filter_length_le {A : Type} (p : A -> bool) (l : list A) :
  (List.length (filter p l) <= List.length l)%nat.
Proof.
  induction l as [| a l IH]; simpl; [lia |]. destruct (p a); simpl; lia.
Qed.

Lemma filter_length_permutation {A : Type} (p : A -> bool) (l l' : list A) :
  Permutation l l' -> List.length (filter p l) = List.length (filter p l').
Proof.
  intros H. induction H as [| a l l' _ IH | a b l | l l' l'' _ IH1 _ IH2]; simpl.
  - reflexivity.
  - destruct (p a); simpl; congruence.
  - destruct (p a), (p b); reflexivity.
  - congruence.
Qed.

(** X20. The thread counts are counts: on Windows the threads of the
    monitoring process are never more than all the threads of the same
    snapshot and both are 0 when no snapshot can be taken; on Linux the
    count is between 0 and the number of directory entries and does not
    depend on the order in which [readdir] returns them. *)
Theorem thread_counts_are_counts
    (pid : Z) (snap : WindowsCPU.thread_snapshot) (ws : WindowsCPU.t)
    (entries entries' : list (string * LinuxCPU.d_type)) (ls : LinuxCPU.t) :
  Permutation entries entries' ->
  0 <= fst (WindowsCPU.getUsedThreads pid snap ws)
    <= fst (WindowsCPU.getTotalThreads snap ws) /\
  fst (WindowsCPU.getTotalThreads None ws) = 0 /\
  0 <= fst (LinuxCPU.getUsedThreads (Some entries) ls)
    <= Z.of_nat (List.length entries) /\
  fst (LinuxCPU.getUsedThreads (Some entries) ls)
  = fst (LinuxCPU.getUsedThreads (Some entries') ls).
Proof.
  intros HP. unfold WindowsCPU.getUsedThreads, WindowsCPU.getTotalThreads,
    LinuxCPU.getUsedThreads. cbn [fst].
  split; [| split; [reflexivity | split]].
  - destruct snap as [owners |]; cbn [fst]; [| lia].
    pose proof (filter_length_le (Z.eqb pid) owners). lia.
  - pose proof (filter_length_le LinuxCPU.counts_as_thread entries). lia.
  - rewrite (filter_length_permutation _ _ _ HP). reflexivity.
Qed.

Lemma thread_counts_are_counts_witness :
  fst (LinuxCPU.getUsedThreads
         (Some [("."%string, LinuxCPU.DT_DIR); ("4242"%string, LinuxCPU.DT_DIR);
                (".."%string, LinuxCPU.DT_DIR); ("4243"%string, LinuxCPU.DT_UNKNOWN)])
         (LinuxCPU.LinuxCPU None))
  = fst (LinuxCPU.getUsedThreads
           (Some [("4242"%string, LinuxCPU.DT_DIR); ("."%string, LinuxCPU.DT_DIR);
                  (".."%string, LinuxCPU.DT_DIR); ("4243"%string, LinuxCPU.DT_UNKNOWN)])
           (LinuxCPU.LinuxCPU None)).
Proof.
  refine (proj2 (proj2 (proj2 (thread_counts_are_counts 7 (Some [7; 8; 7])
                   (WindowsCPU.mk [] F32.zero F32.zero 0 0 0)
                   [("."%string, LinuxCPU.DT_DIR); ("4242"%string, LinuxCPU.DT_DIR);
                    (".."%string, LinuxCPU.DT_DIR); ("4243"%string, LinuxCPU.DT_UNKNOWN)]
                   [("4242"%string, LinuxCPU.DT_DIR); ("."%string, LinuxCPU.DT_DIR);
                    (".."%string, LinuxCPU.DT_DIR); ("4243"%string, LinuxCPU.DT_UNKNOWN)]
                   (LinuxCPU.LinuxCPU None) _)))).
  apply perm_swap.
Defined.

(** ** The console table *)

Lemma length_append (a b : string) :
  String.length (a ++ b) = (String.length a + String.length b)%nat.
Proof. induction a as [| c a IH]; simpl; [reflexivity | rewrite IH; reflexivity]. Qed.

Lemma length_spaces (n : nat) : String.length (CLI.spaces n) = n.
Proof. induction n as [| n IH]; simpl; [reflexivity | rewrite IH; reflexivity]. Qed.

(** X21. [centerText] returns the text unchanged when the field is less
    than two characters wider than the text. Otherwise it puts the text
    between two runs of spaces, the right one as long as the left one or
    one longer, and the result has exactly [width] characters when [width]
    is even (as in the table, where it is 108); for an odd [width] it is
    one character short for a text of even length and one too long for a
    text of odd length. *)
Theorem centerText_width (text : string) (width : Z) :
  let len := Z.of_nat (String.length text) in
  let r := CLI.centerText text width in
  if width <? len + 2 then r = text
  else
    (exists left right : nat,
       r = (CLI.spaces left ++ text ++ CLI.spaces right)%string /\
       (right = left \/ right = S left)) /\
    Z.of_nat (String.length r)
    = if Z.even width then width else width + 2 * (len mod 2) - 1.
Proof.
  cbv zeta. unfold CLI.centerText.
  set (len := Z.of_nat (String.length text)).
  assert (Hlen : 0 <= len) by (unfold len; lia).
  destruct (Z.ltb_spec width (len + 2)) as [Hs | Hw].
  - assert (Hq : Z.quot (width - len) 2 <= 0).
    { destruct (Z.le_gt_cases 0 (width - len)) as [Hp | Hn].
      - rewrite Z.quot_div_nonneg by lia.
        assert (width - len = 0 \/ width - len = 1) as [-> | ->] by lia;
          vm_compute; discriminate.
      - replace (width - len) with (- (len - width)) by lia.
        rewrite Z.quot_opp_l by lia.
        assert (0 <= Z.quot (len - width) 2) by (apply Z.quot_pos; lia). lia. }
    destruct (Z.ltb_spec 0 (Z.quot (width - len) 2)); [lia | reflexivity].
  - rewrite Z.quot_div_nonneg by lia.
    set (padding := (width - len) / 2).
    assert (Hp : 0 < padding) by (unfold padding; apply Z.div_str_pos; lia).
    destruct (Z.ltb_spec 0 padding) as [_ | Hn]; [| lia].
    set (extra := if len mod 2 =? 0 then 0 else 1).
    assert (Hextra : extra = len mod 2).
    { unfold extra. destruct (Z.eqb_spec (len mod 2) 0) as [E | E]; [lia |].
      pose proof (Z.mod_pos_bound len 2). lia. }
    split.
    + exists (Z.to_nat padding), (Z.to_nat (padding + extra)).
      split; [reflexivity |].
      pose proof (Z.mod_pos_bound len 2).
      assert (extra = 0 \/ extra = 1) as [-> | ->] by lia; [left | right].
      * f_equal. lia.
      * rewrite Z2Nat.inj_add by lia. change (Z.to_nat 1) with 1%nat. lia.
    + rewrite !length_append, !length_spaces. fold len.
      rewrite !Nat2Z.inj_add, !Z2Nat.id by lia. fold len.
      rewrite Hextra.
      pose proof (Z.div_mod (width - len) 2 ltac:(lia)) as Hdm. fold padding in Hdm.
      destruct (Z.even width) eqn:Ev.
      * apply Z.even_spec in Ev. destruct Ev as [k Hk].
        pose proof (Z.mod_pos_bound len 2 ltac:(lia)).
        pose proof (Z.mod_pos_bound (width - len) 2 ltac:(lia)).
        pose proof (Z.div_mod len 2 ltac:(lia)). lia.
      * assert (Ho : Z.odd width = true) by (rewrite <- Z.negb_even, Ev; reflexivity).
        apply Z.odd_spec in Ho. destruct Ho as [k Hk].
        pose proof (Z.mod_pos_bound len 2 ltac:(lia)).
        pose proof (Z.mod_pos_bound (width - len) 2 ltac:(lia)).
        pose proof (Z.div_mod len 2 ltac:(lia)). lia.
Qed.

(** ** Rounding to single precision never invents a NaN *)

Lemma digits2_pos_bounds (p : positive) :
  2 ^ (Z.pos (digits2_pos p) - 1) <= Z.pos p < 2 ^ Z.pos (digits2_pos p).
Proof.
  induction p as [p IH | p IH |]; cbn [digits2_pos].
  - rewrite Pos2Z.inj_succ. change (Z.pos p~1) with (2 * Z.pos p + 1).
    replace (Z.succ (Z.pos (digits2_pos p)) - 1) with (Z.succ (Z.pos (digits2_pos p) - 1)) by lia.
    rewrite !Z.pow_succ_r by lia. lia.
  - rewrite Pos2Z.inj_succ. change (Z.pos p~0) with (2 * Z.pos p).
    replace (Z.succ (Z.pos (digits2_pos p)) - 1) with (Z.succ (Z.pos (digits2_pos p) - 1)) by lia.
    rewrite !Z.pow_succ_r by lia. lia.
  - vm_compute. split; [discriminate | reflexivity].
Qed.

Lemma Zdigits2_bounds (m : Z) :
  0 < m -> 1 <= Zdigits2 m /\ 2 ^ (Zdigits2 m - 1) <= m < 2 ^ Zdigits2 m.
Proof.
  intros H. destruct m as [| p | p]; try lia. cbn [Zdigits2].
  split; [lia | apply digits2_pos_bounds].
Qed.

Lemma Zdigits2_le (m k : Z) : 0 < m -> m < 2 ^ k -> 0 <= k -> Zdigits2 m <= k.
Proof.
  intros Hm Hk Hk0. destruct (Zdigits2_bounds m Hm) as [H1 [Hl _]].
  destruct (Z.le_gt_cases (Zdigits2 m) k) as [H | H]; [exact H |].
  assert (2 ^ k <= 2 ^ (Zdigits2 m - 1)) by (apply Z.pow_le_mono_r; lia). lia.
Qed.

Lemma shr_1_div (r : shr_record) :
  0 <= shr_m r -> shr_m (shr_1 r) = shr_m r / 2.
Proof.
  destruct r as [m rb sb]. cbn [shr_m]. intros H.
  destruct m as [| [p | p |] | p]; cbn [shr_1 shr_m]; try lia.
  - reflexivity.
  - change (Z.pos p~1) with (2 * Z.pos p + 1). apply Z.div_unique with 1; lia.
  - change (Z.pos p~0) with (2 * Z.pos p). apply Z.div_unique with 0; lia.
  - reflexivity.
Qed.

Lemma iter_shr_1_div (p : positive) (r : shr_record) :
  0 <= shr_m r -> shr_m (iter_pos shr_1 p r) = shr_m r / 2 ^ Z.pos p.
Proof.
  revert r. induction p as [p IH | p IH |]; intros r H; cbn [iter_pos].
  - assert (H1 : 0 <= shr_m (shr_1 r)) by (rewrite shr_1_div by exact H; apply Z.div_pos; lia).
    assert (H2 : 0 <= shr_m (iter_pos shr_1 p (shr_1 r)))
      by (rewrite IH by exact H1; apply Z.div_pos; [exact H1 | apply Z.pow_pos_nonneg; lia]).
    rewrite IH by exact H2. rewrite IH by exact H1. rewrite shr_1_div by exact H.
    rewrite !Z.div_div by (try apply Z.pow_pos_nonneg; lia).
    f_equal. change (Z.pos p~1) with (2 * Z.pos p + 1).
    replace (2 * Z.pos p + 1) with (1 + Z.pos p + Z.pos p) by lia.
    rewrite !Z.pow_add_r by lia. lia.
  - assert (H2 : 0 <= shr_m (iter_pos shr_1 p r))
      by (rewrite IH by exact H; apply Z.div_pos; [exact H | apply Z.pow_pos_nonneg; lia]).
    rewrite IH by exact H2. rewrite IH by exact H.
    rewrite !Z.div_div by (try apply Z.pow_pos_nonneg; lia).
    f_equal. change (Z.pos p~0) with (2 * Z.pos p).
    replace (2 * Z.pos p) with (Z.pos p + Z.pos p) by lia.
    rewrite !Z.pow_add_r by lia. lia.
  - rewrite shr_1_div by exact H. reflexivity.
Qed.

Lemma shr_m_of_loc (m : Z) (l : location) : shr_m (shr_record_of_loc m l) = m.
Proof. destruct l as [| []]; reflexivity. Qed.

Lemma shr_nonneg (r : shr_record) (e n : Z) :
  0 <= shr_m r -> 0 <= shr_m (fst (shr r e n)).
Proof.
  intros H. unfold shr. destruct n as [| p | p]; cbn [fst]; try exact H.
  rewrite iter_shr_1_div by exact H. apply Z.div_pos; [exact H |].
  apply Z.pow_pos_nonneg; lia.
Qed.

Lemma round_nearest_even_bounds (m : Z) (l : location) :
  m <= round_nearest_even m l <= m + 1.
Proof.
  unfold round_nearest_even. destruct l as [| []]; try lia.
  destruct (Z.even m); lia.
Qed.

Lemma binary_round_aux_not_nan (sx : bool) (m e : Z) (l : location) :
  0 <= m -> F32.is_nan (binary_round_aux F32.prec F32.emax sx m e l) = false.
Proof.
  intros Hm. unfold binary_round_aux, shr_fexp.
  set (r1 := shr (shr_record_of_loc m l) e _).
  assert (H1 : 0 <= shr_m (fst r1))
    by (apply shr_nonneg; rewrite shr_m_of_loc; exact Hm).
  destruct r1 as [mrs' e']. cbn [fst] in H1.
  set (mr := round_nearest_even (shr_m mrs') (loc_of_shr_record mrs')).
  assert (Hr : 0 <= mr)
    by (pose proof (round_nearest_even_bounds (shr_m mrs') (loc_of_shr_record mrs')); unfold mr; lia).
  set (r2 := shr (shr_record_of_loc mr loc_Exact) e' _).
  assert (H2 : 0 <= shr_m (fst r2))
    by (apply shr_nonneg; rewrite shr_m_of_loc; exact Hr).
  destruct r2 as [mrs'' e'']. cbn [fst] in H2.
  destruct (shr_m mrs'') as [| p | p]; [reflexivity | | lia].
  destruct (e'' <=? F32.emax - F32.prec); reflexivity.
Qed.

(** Shifting a positive mantissa to its place keeps it positive, below
    2^24, and moves the exponent up by at most the digits in excess. *)
Lemma shr_fexp_positive (m e : Z) (l : location) :
  0 < m -> -149 <= Zdigits2 m + e - 24 ->
  let r := shr_fexp F32.prec F32.emax m e l in
  0 < shr_m (fst r) < 2 ^ 24 /\
  e <= snd r <= Z.max e (e + Zdigits2 m - 24).
Proof.
  intros Hm Hu. cbv zeta. unfold shr_fexp, shr, fexp, emin, F32.prec, F32.emax.
  destruct (Zdigits2_bounds m Hm) as [Hd [Hlo Hhi]].
  set (D := Zdigits2 m) in *.
  replace (Z.max (D + e - 24) (3 - 128 - 24) - e) with (D - 24) by lia.
  destruct (D - 24) as [| p | p] eqn:En; cbn [fst snd]; rewrite ?shr_m_of_loc.
  - assert (D = 24) by lia. split; [| lia]. replace 24 with D at 2 by lia.
    split; [lia | ]. subst D. rewrite <- H. exact Hhi.
  - rewrite iter_shr_1_div by (rewrite shr_m_of_loc; lia). rewrite shr_m_of_loc.
    assert (Ep : Z.pos p = D - 24) by lia.
    assert (Hp2 : 0 < 2 ^ Z.pos p) by (apply Z.pow_pos_nonneg; lia).
    split; [| lia]. split.
    + apply Z.lt_le_trans with (2 ^ 23); [reflexivity |].
      apply Z.div_le_lower_bound; [exact Hp2 |].
      rewrite <- Z.pow_add_r by lia. replace (Z.pos p + 23) with (D - 1) by lia.
      exact Hlo.
    + apply Z.div_lt_upper_bound; [exact Hp2 |].
      rewrite <- Z.pow_add_r by lia. replace (Z.pos p + 24) with D by lia.
      exact Hhi.
  - assert (D < 24) by lia. split; [| lia]. split; [lia |].
    apply Z.lt_le_trans with (2 ^ D); [exact Hhi |].
    apply Z.pow_le_mono_r; lia.
Qed.

Lemma binary_round_aux_finite (sx : bool) (m e : Z) (l : location) :
  0 < m -> -126 <= e -> Z.max e (e + Zdigits2 m - 24) <= 100 ->
  exists m' e', binary_round_aux F32.prec F32.emax sx m e l = S754_finite sx m' e'.
Proof.
  intros Hm He Hb. unfold binary_round_aux.
  destruct (Zdigits2_bounds m Hm) as [Hd _].
  pose proof (shr_fexp_positive m e l Hm ltac:(lia)) as H1. cbv zeta in H1.
  destruct (shr_fexp F32.prec F32.emax m e l) as [mrs' e'].
  cbn [fst snd] in H1. destruct H1 as [[H1a H1b] H1e].
  set (mr := round_nearest_even (shr_m mrs') (loc_of_shr_record mrs')).
  pose proof (round_nearest_even_bounds (shr_m mrs') (loc_of_shr_record mrs')) as Hr.
  fold mr in Hr.
  assert (Hmr : 0 < mr) by lia.
  destruct (Zdigits2_bounds mr Hmr) as [Hdr _].
  assert (Hdr2 : Zdigits2 mr <= 25).
  { apply Zdigits2_le; [exact Hmr | | lia].
    apply Z.le_lt_trans with (2 ^ 24); [lia | reflexivity]. }
  pose proof (shr_fexp_positive mr e' loc_Exact Hmr ltac:(lia)) as H2. cbv zeta in H2.
  destruct (shr_fexp F32.prec F32.emax mr e' loc_Exact) as [mrs'' e''].
  cbn [fst snd] in H2. destruct H2 as [[H2a _] H2e].
  destruct (shr_m mrs'') as [| p | p]; try lia.
  destruct (Z.leb_spec e'' (F32.emax - F32.prec)) as [_ | Hbig].
  - eauto.
  - unfold F32.emax, F32.prec in Hbig. lia.
Qed.

Lemma iter_xO_mul (p k : positive) :
  Z.pos (Pos.iter xO p k) = Z.pos p * 2 ^ Z.pos k.
Proof.
  induction k as [| k IH] using Pos.peano_ind.
  - cbn [Pos.iter]. change (Z.pos p~0) with (2 * Z.pos p). change (2 ^ 1) with 2. lia.
  - rewrite Pos.iter_succ.
    change (Z.pos (Pos.iter xO p k)~0) with (2 * Z.pos (Pos.iter xO p k)).
    rewrite IH, Pos2Z.inj_succ, Z.pow_succ_r by lia. lia.
Qed.

(** A non-zero 64-bit integer converts to a finite, non-zero float. *)
Lemma of_Z_finite (z : Z) :
  0 < z < 2 ^ 64 -> exists m e, F32.of_Z z = S754_finite false m e.
Proof.
  intros [Hz Hb]. destruct z as [| p | p]; try lia.
  unfold F32.of_Z, binary_normalize, binary_round, shl_align, fexp, emin,
    F32.prec, F32.emax.
  pose proof (digits2_pos_bounds p) as [Hlo Hhi].
  set (d := Z.pos (digits2_pos p)) in *.
  assert (Hd : 1 <= d <= 64).
  { split; [unfold d; lia |].
    change d with (Zdigits2 (Z.pos p)). apply Zdigits2_le; lia. }
  replace (Z.max (d + 0 - 24) (3 - 128 - 24) - 0) with (d - 24) by lia.
  replace (Z.max (d + 0 - 24) (3 - 128 - 24)) with (d - 24) by lia.
  destruct (d - 24) as [| k | k] eqn:Ek.
  - apply binary_round_aux_finite; [lia | lia |].
    change (Zdigits2 (Z.pos p)) with d. lia.
  - apply binary_round_aux_finite; [lia | lia |].
    change (Zdigits2 (Z.pos p)) with d. lia.
  - assert (Hk : Z.pos k = 24 - d) by lia.
    apply binary_round_aux_finite; [lia | lia |].
    assert (Hm : Z.pos (Pos.iter xO p k) < 2 ^ 24).
    { rewrite iter_xO_mul, Hk.
      apply Z.lt_le_trans with (2 ^ d * 2 ^ (24 - d)).
      - apply Z.mul_lt_mono_pos_r; [apply Z.pow_pos_nonneg; lia | exact Hhi].
      - rewrite <- Z.pow_add_r by lia. replace (d + (24 - d)) with 24 by lia. lia. }
    pose proof (Zdigits2_le (Z.pos (Pos.iter xO p k)) 24 ltac:(lia) Hm ltac:(lia)).
    lia.
Qed.

Lemma not_nan_of_Z (z : Z) : 0 <= z -> F32.is_nan (F32.of_Z z) = false.
Proof.
  intros Hz. destruct z as [| p | p]; [reflexivity | | lia].
  unfold F32.of_Z, binary_normalize, binary_round.
  destruct (shl_align _ _ _) as [mz ez]. apply binary_round_aux_not_nan. lia.
Qed.

Lemma SFdiv_core_quotient_nonneg (m1 m2 : positive) (e1 e2 : Z) :
  0 <= fst (fst (SFdiv_core_binary F32.prec F32.emax (Z.pos m1) e1 (Z.pos m2) e2)).
Proof.
  unfold SFdiv_core_binary.
  set (s := _ - _ - Z.min _ _).
  set (m' := match s with Z.pos _ => Z.shiftl (Z.pos m1) s | 0 => Z.pos m1 | Z.neg _ => 0 end).
  assert (Hm' : 0 <= m').
  { unfold m'. destruct s; try lia. apply Z.shiftl_nonneg. lia. }
  destruct (Z.div_eucl m' (Z.pos m2)) as [q r] eqn:E. cbn [fst].
  assert (Eq : q = m' / Z.pos m2) by (unfold Z.div; rewrite E; reflexivity).
  rewrite Eq. apply Z.div_pos; lia.
Qed.

Lemma div_not_nan (x y : float) (sy : bool) (my : positive) (ey : Z) :
  F32.is_nan x = false -> y = S754_finite sy my ey ->
  F32.is_nan (F32.div x y) = false.
Proof.
  intros Hx ->. unfold F32.div, SFdiv.
  destruct x as [sx | sx | | sx mx ex]; try reflexivity; [discriminate Hx |].
  pose proof (SFdiv_core_quotient_nonneg mx my ex ey) as Hq.
  destruct (SFdiv_core_binary _ _ _ _ _ _) as [[mz ez] lz]. cbn [fst] in Hq.
  apply binary_round_aux_not_nan. exact Hq.
Qed.

Lemma mul_not_nan (x y : float) (sy : bool) (my : positive) (ey : Z) :
  F32.is_nan x = false -> y = S754_finite sy my ey ->
  F32.is_nan (F32.mul x y) = false.
Proof.
  intros Hx ->. unfold F32.mul, SFmul.
  destruct x as [sx | sx | | sx mx ex]; try reflexivity; [discriminate Hx |].
  apply binary_round_aux_not_nan. lia.
Qed.

Lemma leb_zero (x : float) :
  sign_clear x = true -> F32.is_nan x = false -> F32.leb F32.zero x = true.
Proof.
  destruct x as [[|] | [|] | | [|] m e]; intros Hs Hn;
    try discriminate Hs; try discriminate Hn; reflexivity.
Qed.

Lemma hundred_finite : exists m e, F32.of_Z 100 = S754_finite false m e.
Proof. apply of_Z_finite. lia. Qed.

Lemma LinuxCPU_usage_not_nan (f : LinuxCPU.proc_stat) (s : LinuxCPU.t) :
  F32.is_nan (fst (LinuxCPU.getTotalUsage f s)) = false.
Proof.
  unfold LinuxCPU.getTotalUsage.
  destruct (LinuxCPU.readCPUStat f) as [stats |]; [| reflexivity].
  destruct (List.length stats <? 5)%nat; [reflexivity |].
  set (dt := wrap64 (LinuxCPU.total_of stats - LinuxCPU.prev_total_ s)).
  destruct (Z.eqb_spec dt 0) as [E | Hnz]; [reflexivity |]. cbn [fst].
  pose proof (wrap64_range (LinuxCPU.total_of stats - LinuxCPU.prev_total_ s)) as Hr.
  fold dt in Hr.
  destruct (of_Z_finite dt ltac:(lia)) as (mt & et & Et).
  destruct hundred_finite as (mh & eh & Eh).
  eapply mul_not_nan; [| exact Eh].
  eapply div_not_nan; [| exact Et].
  apply not_nan_of_Z, wrap64_range.
Qed.

Lemma WindowsCPU_usage_not_nan (times : WindowsCPU.system_times) (s : WindowsCPU.t) :
  F32.is_nan (fst (WindowsCPU.calculateCPUUsage times s)) = false.
Proof.
  unfold WindowsCPU.calculateCPUUsage.
  destruct times as [[[i k] u] |]; [| reflexivity]. cbn [fst].
  set (total := wrap64 (_ + _)).
  destruct (Z.ltb_spec 0 total) as [Hpos | _]; [| reflexivity].
  pose proof (wrap64_range
    (wrap64 (WindowsCPU.fileTimeToInt64 k - WindowsCPU.prev_kernel_time_ s)
     + wrap64 (WindowsCPU.fileTimeToInt64 u - WindowsCPU.prev_user_time_ s))) as Hr.
  fold total in Hr.
  destruct (of_Z_finite total ltac:(lia)) as (mt & et & Et).
  destruct hundred_finite as (mh & eh & Eh).
  eapply div_not_nan; [| exact Et].
  eapply mul_not_nan; [| exact Eh].
  apply not_nan_of_Z, wrap64_range.
Qed.

(** X3. The CPU usage computed by either backend is a number: it is
    never a NaN, and it compares greater than or equal to zero, for every
    reading of the counters and every baseline. *)
Theorem CPU_usage_is_a_nonnegative_number
    (f : LinuxCPU.proc_stat) (ls : LinuxCPU.t)
    (times : WindowsCPU.system_times) (ws : WindowsCPU.t) :
  F32.is_nan (fst (LinuxCPU.getTotalUsage f ls)) = false /\
  F32.leb F32.zero (fst (LinuxCPU.getTotalUsage f ls)) = true /\
  F32.is_nan (fst (WindowsCPU.calculateCPUUsage times ws)) = false /\
  F32.leb F32.zero (fst (WindowsCPU.calculateCPUUsage times ws)) = true.
Proof.
  pose proof (LinuxCPU_usage_not_nan f ls) as Hl.
  pose proof (WindowsCPU_usage_not_nan times ws) as Hw.
  split; [exact Hl |]. split; [apply leb_zero; [apply LinuxCPU_usage_sign | exact Hl] |].
  split; [exact Hw |]. apply leb_zero; [apply WindowsCPU_usage_sign | exact Hw].
Qed.

Lemma WindowsCPU_run_session (ts : list WindowsCPU.system_times) (s : WindowsCPU.t) :
  F32.is_nan (WindowsCPU.highest_usage_ s) = false ->
  let samples := fst (WindowsCPU_run ts s) in
  let s' := snd (WindowsCPU_run ts s) in
  F32.is_nan (WindowsCPU.highest_usage_ s') = false /\
  In (WindowsCPU.highest_usage_ s') (WindowsCPU.highest_usage_ s :: samples) /\
  Forall (fun v => F32.is_nan v = false) samples.
Proof.
  cbv zeta. revert s. induction ts as [| times ts IH]; intros s Hn; simpl.
  - split; [exact Hn |]. split; [left; reflexivity | constructor].
  - destruct (WindowsCPU_updateLoop_state times s) as [Eh _].
    pose proof (WindowsCPU_usage_not_nan times s) as Hu.
    set (u := fst (WindowsCPU.calculateCPUUsage times s)) in *.
    set (s1 := snd (WindowsCPU.updateLoop times s)) in *.
    assert (Hn1 : F32.is_nan (WindowsCPU.highest_usage_ s1) = false)
      by (rewrite Eh; destruct (F32.ltb _ _); assumption).
    destruct (IH s1 Hn1) as (Hn' & Hin & Hall).
    destruct (WindowsCPU_run ts s1) as [later s'] eqn:E. cbn [fst snd] in *.
    split; [exact Hn' |]. split; [| constructor; assumption].
    destruct Hin as [Ein | Hin]; [| right; right; exact Hin].
    rewrite <- Ein, Eh. destruct (F32.ltb _ _); [right; left | left]; reflexivity.
Qed.

(** X5. Since construction, the highest usage of the Windows backend is
    the maximum of 0 and of every sample the update loop has computed: it
    is one of these values, it is a number, and each of them compares less
    than or equal to it. *)
Theorem WindowsCPU_highest_is_session_maximum
    (ts : list WindowsCPU.system_times)
    (idleTime_ kernelTime_ userTime_ : WindowsCPU.FILETIME) :
  let s0 := WindowsCPU.WindowsCPU idleTime_ kernelTime_ userTime_ in
  let samples := fst (WindowsCPU_run ts s0) in
  let highest := fst (WindowsCPU.getHighestUsage (snd (WindowsCPU_run ts s0))) in
  In highest (F32.zero :: samples) /\
  F32.is_nan highest = false /\
  Forall (fun v => F32.leb v highest = true) (F32.zero :: samples).
Proof.
  cbv zeta. set (s0 := WindowsCPU.WindowsCPU idleTime_ kernelTime_ userTime_).
  destruct (WindowsCPU_run_session ts s0 eq_refl) as (Hn & Hin & Hall).
  destruct (WindowsCPU_run_dominates ts s0) as [Hkeep Hdom].
  unfold WindowsCPU.getHighestUsage. cbn [fst].
  split; [exact Hin |]. split; [exact Hn |]. constructor.
  - apply not_ltb_leb; [exact Hn | reflexivity |]. apply Hkeep. reflexivity.
  - rewrite Forall_forall in *. intros v Hv.
    apply not_ltb_leb; [exact Hn | apply Hall, Hv | apply Hdom, Hv].
Qed.

Lemma last_value_range (key : string) (lines : list (string * Z)) :
  Forall (fun line => 0 <= snd line < 2 ^ 64) lines ->
  0 <= last_value key lines < 2 ^ 64.
Proof.
  intros H. unfold last_value.
  assert (G : forall acc, 0 <= acc < 2 ^ 64 ->
              0 <= fold_left (fun acc line =>
                                if String.eqb (fst line) key then snd line else acc)
                             lines acc < 2 ^ 64).
  { induction H as [| line lines Hl _ IH]; intros acc Hacc; cbn [fold_left].
    - exact Hacc.
    - apply IH. destruct (String.eqb _ _); assumption. }
  apply G. lia.
Qed.

(** X15. When every number of [/proc/meminfo] is a 64-bit value, the
    memory usage and the remaining RAM returned by the Linux sampler are
    numbers (never NaN) and compare greater than or equal to zero. *)
Theorem LinuxMemory_usage_is_a_nonnegative_number
    (lines : list (string * Z)) (s : LinuxMemory.t) :
  Forall (fun line => 0 <= snd line < 2 ^ 64) lines ->
  let usage := fst (LinuxMemory.getTotalUsage (Some lines) s) in
  let remaining := fst (LinuxMemory.getRemainingRAM (Some lines) s) in
  F32.is_nan usage = false /\ F32.leb F32.zero usage = true /\
  F32.is_nan remaining = false /\ F32.leb F32.zero remaining = true.
Proof.
  intros Hr. cbv zeta.
  pose proof (LinuxMemory_usage_value (Some lines) s) as H. cbv zeta in H.
  pose proof (last_value_range "MemTotal:" lines Hr) as Ht.
  pose proof (last_value_range "MemAvailable:" lines Hr) as Ha.
  destruct (incomplete (Some lines)) eqn:Ei.
  - destruct H as (-> & _ & ->). repeat split; reflexivity.
  - destruct H as (Eu & _ & Er). unfold incomplete in Ei.
    apply orb_false_iff in Ei. destruct Ei as [Ei _]. apply Z.eqb_neq in Ei.
    set (total := last_value "MemTotal:" lines) in *.
    set (available := last_value "MemAvailable:" lines) in *.
    destruct (of_Z_finite total ltac:(lia)) as (mt & et & Et).
    destruct hundred_finite as (mh & eh & Eh).
    destruct (of_Z_finite 1024 ltac:(lia)) as (mk & ek & Ek).
    assert (Nu : F32.is_nan (fst (LinuxMemory.getTotalUsage (Some lines) s)) = false).
    { rewrite Eu. eapply mul_not_nan; [| exact Eh].
      eapply div_not_nan; [| exact Et]. apply not_nan_of_Z, wrap64_range. }
    assert (Nr : F32.is_nan (fst (LinuxMemory.getRemainingRAM (Some lines) s)) = false).
    { rewrite Er. eapply div_not_nan; [| exact Ek]. apply not_nan_of_Z. lia. }
    split; [exact Nu |]. split.
    + apply leb_zero; [| exact Nu]. rewrite Eu.
      apply sign_clear_mul; [apply sign_clear_div |]; apply sign_clear_of_Z;
        try apply wrap64_range; lia.
    + split; [exact Nr |]. apply leb_zero; [| exact Nr]. rewrite Er.
      apply sign_clear_div; apply sign_clear_of_Z; lia.
Qed.

Lemma LinuxMemory_usage_is_a_nonnegative_number_witness :
  F32.leb F32.zero
    (fst (LinuxMemory.getTotalUsage
            (Some [("MemTotal:"%string, 8000000); ("MemAvailable:"%string, 4000000)])
            (linux_memory initial_system))) = true.
Proof.
  refine (proj1 (proj2 (LinuxMemory_usage_is_a_nonnegative_number
                          [("MemTotal:"%string, 8000000);
                           ("MemAvailable:"%string, 4000000)]
                          (linux_memory initial_system) _))).
  repeat constructor; cbn; lia.
Defined.

(** * What the usage histories keep *)

Lemma record_all_app (a b h : list float) :
  History.record_all 100 (a ++ b) h
  = History.record_all 100 b (History.record_all 100 a h).
Proof. unfold History.record_all. apply fold_left_app. Qed.

Lemma record_all_newest (samples h : list float) :
  (List.length h <= 100)%nat ->
  History.record_all 100 samples h = newest 100 (h ++ samples).
Proof. intros H. unfold newest. apply record_all_skipn, H. Qed.

Lemma histories_bounded_each (sys : System) :
  histories_bounded sys ->
  (List.length (LinuxCPU.usage_history_ (linux_cpu sys)) <= 100)%nat /\
  (List.length (WindowsCPU.usage_history_ (windows_cpu sys)) <= 100)%nat /\
  (List.length (LinuxMemory.usage_history_ (linux_memory sys)) <= 100)%nat /\
  (List.length (WindowsMemory.usage_history_ (windows_memory sys)) <= 100)%nat.
Proof.
  unfold histories_bounded, histories. intros H.
  inversion H as [| ? ? H1 K1]; subst. inversion K1 as [| ? ? H2 K2]; subst.
  inversion K2 as [| ? ? H3 K3]; subst. inversion K3 as [| ? ? H4 _]; subst.
  auto.
Qed.

(** A call of [LinuxCPU::getTotalUsage] whose reading had moved appends
    the value it returns; any other call leaves the history alone. *)
Lemma LinuxCPU_getTotalUsage_records (f : LinuxCPU.proc_stat) (s : LinuxCPU.t) :
  LinuxCPU.usage_history_ (snd (LinuxCPU.getTotalUsage f s))
  = if LinuxCPU_moved f s
    then History.push_history 100 (LinuxCPU.usage_history_ s)
           (fst (LinuxCPU.getTotalUsage f s))
    else LinuxCPU.usage_history_ s.
Proof.
  unfold LinuxCPU.getTotalUsage, LinuxCPU_moved, LinuxCPU.readCPUStat.
  destruct f as [[| a stats] |]; [reflexivity | | reflexivity].
  rewrite Nat.leb_antisym.
  destruct (List.length (a :: stats) <? 5)%nat; [reflexivity |].
  cbn [negb andb]. destruct (_ =? 0); reflexivity.
Qed.

Lemma LinuxCPU_run_history (reads : list LinuxCPU.proc_stat) (s : LinuxCPU.t) :
  LinuxCPU.usage_history_ (snd (LinuxCPU_run reads s))
  = History.record_all 100 (fst (LinuxCPU_run reads s)) (LinuxCPU.usage_history_ s).
Proof.
  revert s. induction reads as [| f rest IH]; intros s; cbn [LinuxCPU_run].
  - reflexivity.
  - pose proof (LinuxCPU_getTotalUsage_records f s) as Hrec.
    destruct (LinuxCPU.getTotalUsage f s) as [usage s1].
    specialize (IH s1). destruct (LinuxCPU_run rest s1) as [later s'].
    cbn [fst snd] in *. rewrite IH, record_all_app, Hrec.
    destruct (LinuxCPU_moved f s); reflexivity.
Qed.

Lemma WindowsCPU_run_history (ts : list WindowsCPU.system_times) (s : WindowsCPU.t) :
  WindowsCPU.usage_history_ (snd (WindowsCPU_run ts s))
  = History.record_all 100 (fst (WindowsCPU_run ts s)) (WindowsCPU.usage_history_ s).
Proof.
  revert s. induction ts as [| times rest IH]; intros s; cbn [WindowsCPU_run].
  - reflexivity.
  - specialize (IH (snd (WindowsCPU.updateLoop times s))).
    destruct (WindowsCPU_run rest (snd (WindowsCPU.updateLoop times s))) as [later s'].
    cbn [fst snd] in *. rewrite IH, WindowsCPU_updateLoop_history. reflexivity.
Qed.

(** An operation of the Linux memory sampler that reads a complete
    [/proc/meminfo] appends the usage computed from that file; any other
    leaves the history alone. *)
Lemma LinuxMemory_do_history (op : LinuxMemory_op) (s : LinuxMemory.t) :
  LinuxMemory.usage_history_ (LinuxMemory_do op s)
  = if incomplete (meminfo_of op)
    then LinuxMemory.usage_history_ s
    else History.push_history 100 (LinuxMemory.usage_history_ s)
           (fst (LinuxMemory.getTotalUsage (meminfo_of op) s)).
Proof.
  destruct op as [f | f now d order]; cbn [LinuxMemory_do meminfo_of].
  - pose proof (LinuxMemory_usage_value f s) as H. cbv zeta in H.
    destruct (incomplete f); tauto.
  - rewrite LinuxMemory_getTotalUsage_value.
    assert (Hok : fst (LinuxMemory.readMemInfo f s) = negb (incomplete f)).
    { destruct f as [lines |]; [apply readMemInfo_lookup | reflexivity]. }
    pose proof (LinuxMemory_readMemInfo_frame f s) as (Hh & _).
    unfold LinuxMemory.updateLoop, bind, ret.
    destruct (LinuxMemory.readMemInfo f s) as [ok s1]. cbn [fst snd] in *.
    destruct (incomplete f); cbn [negb] in Hok; subst ok.
    + pose proof (LinuxMemory_readProcessMemoryUsage_history now d order s1) as Hp.
      destruct (LinuxMemory.readProcessMemoryUsage now d order s1) as [b s2].
      cbn [fst snd] in *. congruence.
    + unfold LinuxMemory.updateUsageHistory, modify.
      match goal with
      | |- context [LinuxMemory.readProcessMemoryUsage now d order ?x] =>
          pose proof (LinuxMemory_readProcessMemoryUsage_history now d order x) as Hp;
          destruct (LinuxMemory.readProcessMemoryUsage now d order x) as [b s2]
      end.
      cbn [fst snd LinuxMemory.usage_history_] in *. rewrite Hp, Hh. reflexivity.
Qed.

Lemma LinuxMemory_run_history (ops : list LinuxMemory_op) (s : LinuxMemory.t) :
  LinuxMemory.usage_history_ (snd (LinuxMemory_run ops s))
  = History.record_all 100 (fst (LinuxMemory_run ops s)) (LinuxMemory.usage_history_ s).
Proof.
  revert s. induction ops as [| op rest IH]; intros s; cbn [LinuxMemory_run].
  - reflexivity.
  - specialize (IH (LinuxMemory_do op s)).
    destruct (LinuxMemory_run rest (LinuxMemory_do op s)) as [later s'].
    cbn [fst snd] in *. rewrite IH, record_all_app, LinuxMemory_do_history.
    destruct (incomplete (meminfo_of op)); reflexivity.
Qed.

Lemma WindowsMemory_run_history (statuses : list WindowsMemory.memory_status)
    (s : WindowsMemory.t) :
  WindowsMemory.usage_history_ (snd (WindowsMemory_run statuses s))
  = History.record_all 100 (fst (WindowsMemory_run statuses s))
      (WindowsMemory.usage_history_ s).
Proof.
  revert s. induction statuses as [| st rest IH]; intros s; cbn [WindowsMemory_run].
  - reflexivity.
  - destruct st as [memStatus |]; cbn [WindowsMemory.getTotalUsage].
    + match goal with
      | |- context [WindowsMemory_run rest ?x] =>
          specialize (IH x); destruct (WindowsMemory_run rest x) as [later s']
      end.
      cbn [fst snd] in *. rewrite IH, record_all_app. reflexivity.
    + specialize (IH s). destruct (WindowsMemory_run rest s) as [later s'].
      cbn [fst snd] in *. exact IH.
Qed.

(** C7. Whatever queries and background ticks happen, no usage history
    ever holds more than 100 samples. And each sampler records what it
    measures: after any run of the Linux CPU sampler (polled through
    [getTotalUsage]), of the Windows CPU update loop, of the Linux memory
    sampler (polled through [getTotalUsage] or ticked by its update loop,
    both of which call [updateUsageHistory]) or of the Windows memory
    sampler, the usage history consists of exactly the newest 100 among
    the samples it held before followed by the samples of the run, in the
    order in which they were recorded (all of them when there are fewer
    than 100). So once 150 samples have gone into an empty history, it
    holds the last 100 of them and the 50 oldest are gone. *)
Theorem history_never_exceeds_capacity
    (es : list event) (sys : System)
    (reads : list LinuxCPU.proc_stat) (times : list WindowsCPU.system_times)
    (ops : list LinuxMemory_op) (statuses : list WindowsMemory.memory_status) :
  histories_bounded sys ->
  histories_bounded (run es sys) /\
  (let r := LinuxCPU_run reads (linux_cpu sys) in
   LinuxCPU.usage_history_ (snd r)
   = newest 100 (LinuxCPU.usage_history_ (linux_cpu sys) ++ fst r)) /\
  (let r := WindowsCPU_run times (windows_cpu sys) in
   WindowsCPU.usage_history_ (snd r)
   = newest 100 (WindowsCPU.usage_history_ (windows_cpu sys) ++ fst r)) /\
  (let r := LinuxMemory_run ops (linux_memory sys) in
   LinuxMemory.usage_history_ (snd r)
   = newest 100 (LinuxMemory.usage_history_ (linux_memory sys) ++ fst r)) /\
  (let r := WindowsMemory_run statuses (windows_memory sys) in
   WindowsMemory.usage_history_ (snd r)
   = newest 100 (WindowsMemory.usage_history_ (windows_memory sys) ++ fst r)).
Proof.
  intros Hb. split; [apply run_histories_bounded; exact Hb |].
  destruct (histories_bounded_each sys Hb) as (H1 & H2 & H3 & H4).
  cbv zeta. repeat apply conj.
  - rewrite LinuxCPU_run_history. apply record_all_newest, H1.
  - rewrite WindowsCPU_run_history. apply record_all_newest, H2.
  - rewrite LinuxMemory_run_history. apply record_all_newest, H3.
  - rewrite WindowsMemory_run_history. apply record_all_newest, H4.
Qed.

(** The Linux CPU sampler polled 150 times under a rising load, starting
    with the empty history its constructor leaves: each of the 150 calls
    returns a sample, and the history ends up holding the last 100 of them,
    in order, the oldest being the 25.5% of the 51st second; the same 150
    calls made as queries of the whole system keep every history within its
    bound. *)
Lemma history_never_exceeds_capacity_witness :
  let r := LinuxCPU_run (rising_load 150) (linux_cpu initial_system) in
  let es := map (fun f => Query (LinuxCPU_getTotalUsage f)) (rising_load 150) in
  histories_bounded initial_system /\
  histories_bounded (run es initial_system) /\
  LinuxCPU.usage_history_ (linux_cpu initial_system) = [] /\
  List.length (fst r) = 150%nat /\
  LinuxCPU.usage_history_ (snd r) = newest 100 ([] ++ fst r) /\
  newest 100 ([] ++ fst r) = skipn 50 (fst r) /\
  hd F32.zero (skipn 50 (fst r)) = F32.div (F32.of_Z 51) (F32.of_Z 2).
Proof.
  intros r es.
  pose proof (history_never_exceeds_capacity es initial_system (rising_load 150)
                [] [] [] initial_system_bounded) as (Hrun & Hcpu & _).
  split; [exact initial_system_bounded |]. split; [exact Hrun |].
  split; [reflexivity |]. split; [vm_compute; reflexivity |].
  split; [exact Hcpu |]. split; vm_compute; reflexivity.
Defined.
